(** * Gate openings to flow: a shallow embedding of [dev.py]

    The script turns a hand-kept log of gate openings at Lake Lawtonka and
    Lake Ellsworth into a discharge series.  This development embeds the
    parts of the script that carry logic:

    - [normalize_time_string] (lines 82-121), on strings;
    - the row filters and the inches-to-feet conversion (lines 62-167), on
      a positional table of cells;
    - [get_coefficient_of_discharge], [calculate_flow] and
      [calculate_total_flow] (lines 202-237), in a small monad that keeps
      what the functions print and what they raise;
    - the indexing by date and [write_to_dss] (lines 255-306);
    - the repair of the two-row header (lines 46-60), on its own;
    - the script as a whole from line 62 on, for both lakes, with the
      statements that can stop it: line 124 and 125, line 244 and 245,
      and line 258.

    Numbers: a Python float is read as a real number, and [NaN] as a
    missing value wherever the script itself produces or tests it
    ([errors='coerce'], [fillna], [dropna]).  Rounding error, overflow and
    infinities are outside the model.

    Texts: [normalize_text] and [is_year_text] are the script's text
    functions on texts of ASCII characters, where they never raise.  On a
    text with any other character Python's Unicode tables decide what
    [strip], [upper], [\d], [isdigit] and [int] do, and line 115 can
    raise: [str.isdigit] accepts a superscript two, [int] does not.  The
    script as a whole ([observations], [run_script]) therefore takes the
    behaviour on such texts as parameters, with their error path.

    What pandas, dateutil and Python do to a single value
    ([str], [to_numeric], [to_datetime], [parser.parse]) is a parameter of
    the table functions, and so is the position of the columns that the
    script names, since the sheet is not part of the script. *)

From Stdlib Require Import Reals Lra Psatz.
From Stdlib Require Import List String Ascii ZArith Lia Bool DecimalString.
Import ListNotations.

Open Scope R_scope.

(** ** Cells and floats *)

(** A cell of a data frame: missing ([NaN], [NaT], [None]), a number, a
    text, or a point in time ([datetime.time], [Timestamp]). *)
Inductive cell : Type :=
| NA
| Num (x : R)
| Str (s : string)
| Time (t : Z).

(** A float that may be [NaN]. *)
Definition float : Type := option R.

Definition fadd (a b : float) : float :=
  match a, b with
  | Some x, Some y => Some (x + y)
  | _, _ => None
  end.

Definition isna (c : cell) : bool :=
  match c with NA => true | _ => false end.

(** ** Rounding to two decimals *)

(** Round half to even, as [numpy.rint] and Python's [round] do. *)
Definition rint (x : R) : Z :=
  let f := (up x - 1)%Z in
  let r := x - IZR f in
  if Rlt_dec r (1 / 2) then f
  else if Rlt_dec (1 / 2) r then (f + 1)%Z
  else if Z.even f then f else (f + 1)%Z.

Definition round2 (x : R) : R := IZR (rint (x * 100)) / 100.

Definition fround2 (a : float) : float := option_map round2 a.

(** ** What the functions print and raise *)

Inductive error : Type :=
| ArgminOfEmpty        (* ValueError of [idxmin] on an empty series *)
| GateOpeningNotFound  (* the ValueError raised at line 216 *)
| NonRealPower         (* [x ** (3/2)] with [x < 0]: no real value *)
| TypeError            (* arithmetic or comparison on a text or a time *)
| InvalidLiteral       (* the ValueError of [int] on a text it cannot read *)
| IndexError.          (* [iloc[0]] on a column with no row *)

Inductive event : Type :=
| ClosestUsed (gate_opening : R) (closest_d : float)       (* line 211 *)
| Calculating (date : cell) (gate : R) (lake_elevation : cell) (* line 234 *)
| Writing (pathname : string).                                 (* line 281 *)

Inductive outcome (A : Type) : Type :=
| Returned (a : A)
| Raised (e : error).
Arguments Returned {A} a.
Arguments Raised {A} e.

(** A computation: the lines printed so far, and how it ended. *)
Definition M (A : Type) : Type := (list event * outcome A)%type.

Definition ret {A} (a : A) : M A := ([], Returned a).
Definition raise {A} (e : error) : M A := ([], Raised e).
Definition print (ev : event) : M unit := ([ev], Returned tt).

Definition bind {A B} (m : M A) (k : A -> M B) : M B :=
  match m with
  | (out, Returned a) => let (out', r) := k a in (out ++ out', r)
  | (out, Raised e) => (out, Raised e)
  end.

Declare Scope flow_scope.
Delimit Scope flow_scope with flow.
Notation "x <- m ;; k" := (bind m (fun x => k))
  (at level 61, m at next level, right associativity) : flow_scope.
Notation "m ;;; k" := (bind m (fun _ => k))
  (at level 61, right associativity) : flow_scope.
Open Scope flow_scope.

Definition printed {A} (m : M A) : list event := fst m.
Definition result {A} (m : M A) : outcome A := snd m.

(** ** The rating curve *)

(** A row of the rating table: [d] after [to_numeric(errors='coerce')]
    and [round(2)] (line 191), so possibly [NaN]; [C] as the sheet has
    it, taken to be a number. *)
Record RatingCurveRow : Type := mkRow { d : float; C : R }.

(** The table with the [name] attribute set at lines 240-241. *)
Record RatingCurve : Type := mkCurve { name : string; table : list RatingCurveRow }.

(** [rating_curve['d'] == gate_opening], row by row; [NaN] equals nothing. *)
Definition d_is (gate_opening : R) (r : RatingCurveRow) : bool :=
  match d r with
  | Some x => if Req_dec_T x gate_opening then true else false
  | None => false
  end.

(** The rows with their index labels [0, 1, ...]. *)
Definition labelled {A} (l : list A) : list (nat * A) :=
  combine (seq 0 (List.length l)) l.

(** [rating_curve['d'].dropna()], labels kept. *)
Fixpoint dropna_d (l : list (nat * RatingCurveRow)) : list (nat * R) :=
  match l with
  | [] => []
  | (i, r) :: tl =>
      match d r with
      | Some x => (i, x) :: dropna_d tl
      | None => dropna_d tl
      end
  end.

Definition better (best : option (nat * R)) (p : nat * R) : option (nat * R) :=
  match best with
  | None => Some p
  | Some b => if Rlt_dec (snd p) (snd b) then Some p else Some b
  end.

(** [Series.idxmin]: the label of the first smallest value; [None] stands
    for the ValueError on an empty series. *)
Definition idxmin (s : list (nat * R)) : option nat :=
  option_map fst (fold_left better s None).

(** [rating_curve.loc[[i]]] *)
Definition loc_rows (t : list RatingCurveRow) (i : nat) : list RatingCurveRow :=
  match nth_error t i with
  | Some r => [r]
  | None => []
  end.

(** [rating_curve.loc[i, 'd']] *)
Definition loc_d (t : list RatingCurveRow) (i : nat) : float :=
  match nth_error t i with
  | Some r => d r
  | None => None
  end.

Definition get_coefficient_of_discharge
    (gate_opening : R) (rating_curve : RatingCurve) : M R :=
  let t := table rating_curve in
  row <- (match filter (d_is gate_opening) t with
          | [] =>
              let valid_d := dropna_d (labelled t) in
              match idxmin (map (fun p => (fst p, Rabs (snd p - gate_opening))) valid_d) with
              | None => raise ArgminOfEmpty
              | Some closest_idx =>
                  print (ClosestUsed gate_opening (loc_d t closest_idx)) ;;;
                  ret (loc_rows t closest_idx)
              end
          | row => ret row
          end) ;;
  match row with
  | r :: _ => ret (C r)
  | [] => raise GateOpeningNotFound
  end.

(** ** Flow under one gate *)

(** ['Lawtonka' in rating_curve.name] *)
Fixpoint contains (p s : string) : bool :=
  String.prefix p s ||
  match s with
  | EmptyString => false
  | String _ s' => contains p s'
  end.

Definition spillway_invert_elevation (rating_curve : RatingCurve) : R :=
  if contains "Lawtonka" (name rating_curve) then 1335.55 else 1225.00.

(** [x ** (3/2)]: for [x >= 0] the real [x * sqrt x]; for [x < 0] the
    power is not a real number. *)
Definition pow_3_2 (x : R) : M R :=
  if Rlt_dec x 0 then raise NonRealPower else ret (x * sqrt x).

(** [lake_elevation - datum] *)
Definition minus_datum (lake_elevation : cell) (datum : R) : M float :=
  match lake_elevation with
  | Num e => ret (Some (e - datum))
  | NA => ret None
  | Str _ | Time _ => raise TypeError
  end.

Definition calculate_flow
    (gate_opening : R) (lake_elevation : cell) (rating_curve : RatingCurve)
    : M float :=
  let g := 32.2 in
  C <- get_coefficient_of_discharge gate_opening rating_curve ;;
  let L := 20.0 in
  H1 <- minus_datum lake_elevation (spillway_invert_elevation rating_curve) ;;
  match H1 with
  | None => ret None
  | Some H1 =>
      let H2 := H1 - gate_opening in
      if Rlt_dec H2 0 then ret (Some 0)
      else
        p1 <- pow_3_2 H1 ;;
        p2 <- pow_3_2 H2 ;;
        ret (Some ((2 / 3) * sqrt g * C * L * (p1 - p2)))
  end.

(** ** The time normalizer *)

Definition is_digit (c : ascii) : bool :=
  let n := nat_of_ascii c in (48 <=? n)%nat && (n <=? 57)%nat.

(** [str.isspace] on the ASCII range. *)
Definition is_space (c : ascii) : bool :=
  let n := nat_of_ascii c in
  ((9 <=? n)%nat && (n <=? 13)%nat) || ((28 <=? n)%nat && (n <=? 32)%nat).

Definition upper_char (c : ascii) : ascii :=
  let n := nat_of_ascii c in
  if (97 <=? n)%nat && (n <=? 122)%nat then ascii_of_nat (n - 32) else c.

Fixpoint lstrip (l : list ascii) : list ascii :=
  match l with
  | c :: tl => if is_space c then lstrip tl else l
  | [] => []
  end.

Definition strip (l : list ascii) : list ascii :=
  rev (lstrip (rev (lstrip l))).

Definition text (l : list ascii) : string := string_of_list_ascii l.

(** [int(s)] on a run of digits. *)
Definition int_of_digits (l : list ascii) : nat :=
  fold_left (fun acc c => (10 * acc + (nat_of_ascii c - 48))%nat) l 0%nat.

(** The format [{n:02}]. *)
Definition pad2 (n : nat) : string :=
  let s := NilZero.string_of_uint (Nat.to_uint n) in
  if (n <? 10)%nat then append "0" s else s.

Definition colon : ascii := ":"%char.

(** [re.match(r'^(\d{1,2}):(\d{2})([AP])$', s)] on a stripped text. *)
Definition ampm_match (s : list ascii) : option (list ascii * list ascii * ascii) :=
  let ok (h : list ascii) (c m1 m2 ap : ascii) :=
    forallb is_digit h && Ascii.eqb c colon && is_digit m1 && is_digit m2
    && (Ascii.eqb ap "A" || Ascii.eqb ap "P") in
  match s with
  | [h; c; m1; m2; ap] =>
      if ok [h] c m1 m2 ap then Some ([h], [m1; m2], ap) else None
  | [h1; h2; c; m1; m2; ap] =>
      if ok [h1; h2] c m1 m2 ap then Some ([h1; h2], [m1; m2], ap) else None
  | _ => None
  end.

(** [re.match(r'^(\d{1,2}):(\d{2})$', s)] on a stripped text. *)
Definition hmm_match (s : list ascii) : option (list ascii * list ascii) :=
  let ok (h : list ascii) (c m1 m2 : ascii) :=
    forallb is_digit h && Ascii.eqb c colon && is_digit m1 && is_digit m2 in
  match s with
  | [h; c; m1; m2] => if ok [h] c m1 m2 then Some ([h], [m1; m2]) else None
  | [h1; h2; c; m1; m2] =>
      if ok [h1; h2] c m1 m2 then Some ([h1; h2], [m1; m2]) else None
  | _ => None
  end.

(** [s.isdigit()] *)
Definition isdigit (s : list ascii) : bool :=
  match s with [] => false | _ => forallb is_digit s end.

(** Lines 96-121, on the text of a value that is not missing. *)
Definition normalize_text (time_str : string) : string :=
  let s := map upper_char (strip (list_ascii_of_string time_str)) in
  match ampm_match s with
  | Some (hour, minute, ap) =>
      let hour := int_of_digits hour in
      let hour :=
        if Ascii.eqb ap "P" && negb (hour =? 12)%nat then (hour + 12)%nat
        else if Ascii.eqb ap "A" && (hour =? 12)%nat then 0%nat
        else hour in
      append (pad2 hour) (append ":" (append (text minute) ":00"))
  | None =>
      match hmm_match s with
      | Some (hour, minute) =>
          append (pad2 (int_of_digits hour)) (append ":" (append (text minute) ":00"))
      | None =>
          if isdigit s then
            match List.length s with
            | 3%nat =>
                append (pad2 (int_of_digits (firstn 1 s)))
                  (append ":" (append (text (skipn 1 s)) ":00"))
            | 4%nat =>
                append (text (firstn 2 s)) (append ":" (append (text (skipn 2 s)) ":00"))
            | 5%nat =>
                append (text (firstn 2 s))
                  (append ":" (append (text (firstn 2 (skipn 2 s)))
                     (append ":" (text (skipn 4 s)))))
            | _ => text s
            end
          else text s
      end
  end.

(** ** The gate table *)

(** A row of the gate table: its index label and its cells, in column
    order.  A data frame is the list of its rows. *)
Record Row : Type := mkR { label : cell; cells : list cell }.

Definition DataFrame : Type := list Row.

(** Where the three columns that the script names sit in the sheet.  The
    sheet is not part of the script; the script fixes only that the gate
    block starts at position 4 (line 46). *)
Record Layout : Type := mkLayout { iDate : nat; iTime : nat; iLake : nat }.

Definition get (r : Row) (i : nat) : cell := nth i (cells r) NA.

Fixpoint set_nth (l : list cell) (i : nat) (v : cell) : list cell :=
  match l, i with
  | [], _ => []
  | _ :: tl, O => v :: tl
  | c :: tl, S j => c :: set_nth tl j v
  end.

Definition set (r : Row) (i : nat) (v : cell) : Row :=
  mkR (label r) (set_nth (cells r) i v).

Definition map_col (i : nat) (f : cell -> cell) (df : DataFrame) : DataFrame :=
  map (fun r => set r i (f (get r i))) df.

(** [^\d{4}$] under [re.match]: four digits, and [$] also accepts one final
    newline. *)
Definition is_year_text (s : string) : bool :=
  match list_ascii_of_string s with
  | [a; b; c; e] => forallb is_digit [a; b; c; e]
  | [a; b; c; e; n] => forallb is_digit [a; b; c; e] && Ascii.eqb n "010"
  | _ => false
  end.

Definition remove_quotes (s : string) : string :=
  text (filter (fun c => negb (Ascii.eqb c "034")) (list_ascii_of_string s)).

(** Every character of the text is an ASCII character. *)
Definition ascii_text (s : string) : bool :=
  forallb (fun c => (nat_of_ascii c <? 128)%nat) (list_ascii_of_string s).

Section Pipeline.

(** The library calls the script relies on, one value at a time. *)
Variable py_str : cell -> string.
  (* [str(v)] and [astype(str)] of a value that is not a text *)
Variable to_numeric_text : string -> option R.
  (* [pd.to_numeric] on a text; [None] where [errors='coerce'] gives NaN *)
Variable parser_parse_time : string -> option Z.
  (* [dateutil.parser.parse(s).time()]; [None] where it raises *)
Variable to_datetime : cell -> option Z.
  (* [pd.to_datetime(column, errors='coerce')] on one value of the column
     at hand, whose format pandas finds once for the column; [None] for
     NaT *)
Variable L : Layout.

Definition astype_str (c : cell) : string :=
  match c with Str s => s | _ => py_str c end.

(** Line 94-96 and the rest of [normalize_time_string]. *)
Definition normalize_time_string (time_str : cell) : cell :=
  if isna time_str then time_str
  else Str (normalize_text (astype_str time_str)).

(** Lines 134-138. *)
Definition parse_time (val : cell) : cell :=
  match parser_parse_time (astype_str val) with
  | Some t => Time t
  | None => NA
  end.

Definition to_datetime_cell (c : cell) : cell :=
  match to_datetime c with
  | Some t => Time t
  | None => NA
  end.

(** [pd.to_numeric(v, errors='coerce')] *)
Definition to_numeric (c : cell) : cell :=
  match c with
  | Num x => Num x
  | Str s => match to_numeric_text s with Some x => Num x | None => NA end
  | NA | Time _ => NA
  end.

Definition fillna0 (c : cell) : cell :=
  match c with NA => Num 0 | _ => c end.

(** Line 63. *)
Definition drop_year_rows (df : DataFrame) : DataFrame :=
  filter (fun r => negb (is_year_text (astype_str (get r (iDate L))))) df.

(** Line 67: [fillna(method='ffill')] on the Date column. *)
Fixpoint ffill_date (prev : cell) (df : DataFrame) : DataFrame :=
  match df with
  | [] => []
  | r :: tl =>
      if isna (get r (iDate L)) then set r (iDate L) prev :: ffill_date prev tl
      else r :: ffill_date (get r (iDate L)) tl
  end.

(** Lines 72 and 144: [dropna(subset=['Time', 'Lake Elevation'])]. *)
Definition dropna_time_lake (df : DataFrame) : DataFrame :=
  filter (fun r => negb (isna (get r (iTime L))) && negb (isna (get r (iLake L)))) df.

(** Line 148. *)
Definition merge_date_time (df : DataFrame) : DataFrame :=
  map (fun r =>
         set r (iDate L)
           (Str (append (astype_str (get r (iDate L)))
                   (append " " (astype_str (get r (iTime L))))))) df.

(** Lines 62-148: from the table with repaired headers to rows that have
    a date-and-time text and a lake elevation. *)
Definition observation_rows (df : DataFrame) : DataFrame :=
  let df := drop_year_rows df in
  let df := ffill_date NA df in
  let df := dropna_time_lake df in
  let df := map_col (iDate L) to_datetime_cell df in
  let df := map_col (iTime L) normalize_time_string df in
  let df := map_col (iTime L) parse_time df in
  let df := dropna_time_lake df in
  merge_date_time df.

(** Lines 157-167 on one cell: missing to 0, quotes removed, to a number
    (0 when it is none), divided by 12, rounded to 2 decimals. *)
Definition strip_quotes (c : cell) : cell :=
  match c with Str s => Str (remove_quotes s) | _ => c end.

Definition inches_to_feet (c : cell) : cell :=
  let c := strip_quotes (fillna0 c) in
  match fillna0 (to_numeric c) with
  | Num x => Num (round2 (x / 12.0))
  | other => other
  end.

(** The same lines on the frame: every column of [iloc[:, 2:]]. *)
Definition convert_from_2 (r : Row) : Row :=
  mkR (label r) (firstn 2 (cells r) ++ map inches_to_feet (skipn 2 (cells r))).

Definition gate_columns_to_feet (df : DataFrame) : DataFrame :=
  map convert_from_2 df.

(** Line 195. *)
Definition lake_elevation_to_numeric (df : DataFrame) : DataFrame :=
  map_col (iLake L) to_numeric df.

(** ** Total flow of a row *)

(** The loop of lines 232-235 over [row[2:]]. *)
Fixpoint flow_loop (date lake_elevation : cell) (rating_curve : RatingCurve)
    (gates : list cell) (total_flow : float) : M float :=
  match gates with
  | [] => ret total_flow
  | Num gate :: rest =>
      if Rlt_dec 0 gate then
        print (Calculating date gate lake_elevation) ;;;
        q <- calculate_flow gate lake_elevation rating_curve ;;
        flow_loop date lake_elevation rating_curve rest (fadd total_flow q)
      else flow_loop date lake_elevation rating_curve rest total_flow
  | NA :: rest => flow_loop date lake_elevation rating_curve rest total_flow
  | (Str _ | Time _) :: _ => raise TypeError
  end.

Definition calculate_total_flow (row : Row) (rating_curve : RatingCurve) : M float :=
  total_flow <- flow_loop (get row (iDate L)) (get row (iLake L)) rating_curve
                  (skipn 2 (cells row)) (Some 0) ;;
  ret (fround2 total_flow).

Definition float_cell (a : float) : cell :=
  match a with Some x => Num x | None => NA end.

(** Line 244: the new column goes last. *)
Fixpoint add_total_flow (df : DataFrame) (rating_curve : RatingCurve) : M DataFrame :=
  match df with
  | [] => ret []
  | r :: tl =>
      q <- calculate_total_flow r rating_curve ;;
      tl' <- add_total_flow tl rating_curve ;;
      ret (mkR (label r) (cells r ++ [float_cell q]) :: tl')
  end.

(** ** The series handed to the store *)

Fixpoint remove_nth (l : list cell) (i : nat) : list cell :=
  match l, i with
  | [], _ => []
  | _ :: tl, O => tl
  | c :: tl, S j => c :: remove_nth tl j
  end.

(** Line 261: the Date column becomes the index. *)
Definition set_index_date (df : DataFrame) : DataFrame :=
  map (fun r => mkR (get r (iDate L)) (remove_nth (cells r) (iDate L))) df.

Record TimeSeriesContainer : Type := mkTsc {
  pathname : string;
  numberValues : nat;
  times : list cell;
  values : list cell;
  units : string;
  type : string;
  interval : Z
}.

(** Lines 277-300; the total flow is the last column. *)
Definition write_to_dss (df : DataFrame) (pathname : string) : TimeSeriesContainer :=
  mkTsc pathname (List.length df) (map label df)
    (map (fun r => last (cells r) NA) df) "cfs" "INST" (-1).

(** Lines 255-305 for one lake. *)
Definition flows_to_dss (df : DataFrame) (pathname : string) : TimeSeriesContainer :=
  let df := map_col (iDate L) to_datetime_cell df in
  let df := set_index_date df in
  write_to_dss df pathname.

(** ** Texts with other characters than ASCII *)

(** What Python does with a text that has a character outside ASCII
    depends on its Unicode tables, which are not embedded. *)
Variable normalize_beyond_ascii : string -> outcome string.
  (* lines 96-121 on such a text; [int(s[0])] at line 115 raises ValueError
     when [s] is three characters that [isdigit] accepts of which the first
     is no decimal digit *)
Variable year_beyond_ascii : string -> bool.
  (* whether [^\d{4}$] matches such a text *)

(** The test of line 63, on any text. *)
Definition is_year (s : string) : bool :=
  if ascii_text s then is_year_text s else year_beyond_ascii s.

(** Line 63, on any table. *)
Definition drop_years (df : DataFrame) : DataFrame :=
  filter (fun r => negb (is_year (astype_str (get r (iDate L))))) df.

(** Lines 94-121 called on any value: the call returns or raises. *)
Definition call_normalize_time_string (time_str : cell) : M cell :=
  if isna time_str then ret time_str
  else
    let s := astype_str time_str in
    if ascii_text s then ret (Str (normalize_text s))
    else
      match normalize_beyond_ascii s with
      | Returned t => ret (Str t)
      | Raised e => raise e
      end.

(** Lines 124 and 125: [apply] calls the function on one row after the
    other, and the first call that raises ends the script. *)
Fixpoint apply_normalize_time_string (df : DataFrame) : M DataFrame :=
  match df with
  | [] => ret []
  | r :: tl =>
      t <- call_normalize_time_string (get r (iTime L)) ;;
      tl' <- apply_normalize_time_string tl ;;
      ret (set r (iTime L) t :: tl')
  end.

(** Lines 62-148, on any table: the rows that make an observation, or the
    error of line 124. *)
Definition observations (df : DataFrame) : M DataFrame :=
  let df := drop_years df in
  let df := ffill_date NA df in
  let df := dropna_time_lake df in
  let df := map_col (iDate L) to_datetime_cell df in
  df <- apply_normalize_time_string df ;;
  let df := map_col (iTime L) parse_time df in
  let df := dropna_time_lake df in
  ret (merge_date_time df).

(** Lines 157-195: the table as line 244 finds it. *)
Definition prepared (df : DataFrame) : DataFrame :=
  lake_elevation_to_numeric (gate_columns_to_feet df).

(** Line 258, [type(lawtonka_gate_data['Date'].iloc[0])]: the first date
    of the table, which has to be there. *)
Definition first_date (df : DataFrame) : M cell :=
  match df with
  | [] => raise IndexError
  | r :: _ => ret (get r (iDate L))
  end.

(** ** Rows that make an observation *)

(** A time value that is present and that the parser reads once it is
    normalized. *)
Definition has_valid_time (r : Row) : Prop :=
  isna (get r (iTime L)) = false /\
  exists t, parser_parse_time (normalize_text (astype_str (get r (iTime L)))) = Some t.

Definition has_lake_elevation (r : Row) : Prop :=
  isna (get r (iLake L)) = false.

(** The row [r'] is the row [r] up to its Date and Time cells. *)
Definition same_observation (r r' : Row) : Prop :=
  label r' = label r /\
  forall j, j <> iDate L -> j <> iTime L -> get r' j = get r j.

(** The Time cell of a row after lines 124 and 140. *)
Definition parsed_time (r : Row) : cell :=
  parse_time (normalize_time_string (get r (iTime L))).

(** Lines 76, 124 and 140 on one row. *)
Definition cleaned (r : Row) : Row :=
  let r := set r (iDate L) (to_datetime_cell (get r (iDate L))) in
  let r := set r (iTime L) (normalize_time_string (get r (iTime L))) in
  set r (iTime L) (parse_time (get r (iTime L))).

End Pipeline.

(** ** The script, from line 62 to its end *)

Definition lawtonka_pathname : string := "//LAWTONKA/RES FLOW-OUT//IR-CENTURY/Obs Gate Ops".
Definition ellsworth_pathname : string := "//ELLSWORTH/RES FLOW-OUT//IR-CENTURY/Obs Gate Ops".

Section Script.

Variable py_str : cell -> string.
Variable to_numeric_text : string -> option R.
Variable parser_parse_time : string -> option Z.
Variable to_datetime_76 to_datetime_77 to_datetime_255 to_datetime_256 : cell -> option Z.
  (* [pd.to_datetime] at each of these lines: every call finds the format
     of its own column, and so has its own reading of a value *)
Variable normalize_beyond_ascii : string -> outcome string.
Variable year_beyond_ascii : string -> bool.

(** The two sheets need not have their columns in the same places. *)
Variable lawtonka_layout ellsworth_layout : Layout.

(** The statements of the script in their order, each one for Lawtonka and
    then for Ellsworth.  Only the statements that print or can raise are
    kept apart: lines 124 and 125 inside [observations], lines 244 and
    245, line 258, which looks at the Lawtonka table alone, and the two
    calls of lines 305 and 306.  The rating tables come with [d] already
    made a number and rounded (lines 191-192); lines 240-241 name them.
    The store behind [dss.put] is not part of the model: the two series
    are returned. *)
Definition run_script (lawtonka_gate_data ellsworth_gate_data : DataFrame)
    (lawtonka_rating_curve ellsworth_rating_curve : list RatingCurveRow)
    : M (TimeSeriesContainer * TimeSeriesContainer) :=
  lawtonka <- observations py_str parser_parse_time to_datetime_76 lawtonka_layout
                normalize_beyond_ascii year_beyond_ascii lawtonka_gate_data ;;
  ellsworth <- observations py_str parser_parse_time to_datetime_77 ellsworth_layout
                 normalize_beyond_ascii year_beyond_ascii ellsworth_gate_data ;;
  let lawtonka := prepared to_numeric_text lawtonka_layout lawtonka in
  let ellsworth := prepared to_numeric_text ellsworth_layout ellsworth in
  lawtonka <- add_total_flow lawtonka_layout lawtonka
                (mkCurve "Lawtonka" lawtonka_rating_curve) ;;
  ellsworth <- add_total_flow ellsworth_layout ellsworth
                 (mkCurve "Ellsworth" ellsworth_rating_curve) ;;
  first_date lawtonka_layout
    (map_col (iDate lawtonka_layout) (to_datetime_cell to_datetime_255) lawtonka) ;;;
  print (Writing lawtonka_pathname) ;;;
  print (Writing ellsworth_pathname) ;;;
  ret (flows_to_dss to_datetime_255 lawtonka_layout lawtonka lawtonka_pathname,
       flows_to_dss to_datetime_256 ellsworth_layout ellsworth ellsworth_pathname).

End Script.

(** ** The header repair *)

(** The sheet as [read_excel] gives it: the column labels and the rows.
    The labels of the gate block are generic; the gate numbers sit in the
    first row (lines 41-43). *)
Record Sheet : Type := mkSheet { columns : list cell; body : DataFrame }.

(** Lines 46-47 (Lawtonka, block 4 to 12) and 50-51 (Ellsworth, block 4 to
    19): the labels of the block are taken from the first row.  [None]
    stands for the IndexError of [iloc[0, ...]] on a table with no row and
    for the ValueError of assigning a list of another length to
    [df.columns]. *)
Definition rename_gate_columns (lo hi : nat) (s : Sheet) : option Sheet :=
  match body s with
  | [] => None
  | row0 :: _ =>
      let labels :=
        firstn lo (columns s) ++ firstn (hi - lo) (skipn lo (cells row0))
        ++ skipn hi (columns s) in
      if (List.length labels =? List.length (columns s))%nat
      then Some (mkSheet labels (body s))
      else None
  end.

(** Lines 55-56: [iloc[:, :-1]]. *)
Definition drop_last_column (s : Sheet) : Sheet :=
  mkSheet (removelast (columns s))
    (map (fun r => mkR (label r) (removelast (cells r))) (body s)).

(** Lines 59-60: [iloc[1:, :]]. *)
Definition drop_first_row (s : Sheet) : Sheet :=
  mkSheet (columns s) (tl (body s)).

(** Lines 46-60 for one lake. *)
Definition repair_header (lo hi : nat) (s : Sheet) : option Sheet :=
  match rename_gate_columns lo hi s with
  | Some s => Some (drop_first_row (drop_last_column s))
  | None => None
  end.

(** * Vocabulary of the properties, and inputs for the examples *)

(** ** Rating curves *)

(** A curve the lookup can answer from: some row has a number in [d]. *)
Definition usable (rating_curve : RatingCurve) : Prop :=
  exists r x, In r (table rating_curve) /\ d r = Some x.

(** From the specification: the first entry whose [d] is the query. *)
Definition exact_entry (t : list RatingCurveRow) (q : R) (i : nat) (r : RatingCurveRow) : Prop :=
  nth_error t i = Some r /\ d r = Some q /\
  forall j r', (j < i)%nat -> nth_error t j = Some r' -> d r' <> Some q.

(** From the specification: the entry whose [d] is nearest to the query,
    the first one among equals. *)
Definition nearest_entry (t : list RatingCurveRow) (q : R) (i : nat) (r : RatingCurveRow) : Prop :=
  nth_error t i = Some r /\
  exists x, d r = Some x /\
    (forall j r' y, nth_error t j = Some r' -> d r' = Some y ->
                    Rabs (x - q) <= Rabs (y - q)) /\
    (forall j r' y, (j < i)%nat -> nth_error t j = Some r' -> d r' = Some y ->
                    Rabs (x - q) < Rabs (y - q)).

(** The best value so far is at most [v]; and [v] beats the best so far. *)
Definition le_best (best : option (nat * R)) (v : R) : Prop :=
  match best with None => False | Some b => snd b <= v end.

Definition lt_best (v : R) (best : option (nat * R)) : Prop :=
  match best with None => True | Some b => v < snd b end.

(** The curve of the specification's first scenario: coefficient 0.62 at
    an opening of 0.5 ft. *)
Definition lawtonka_curve : RatingCurve :=
  mkCurve "Lawtonka" [mkRow (Some 0.5) 0.62].

(** A curve of two rows, queried between them. *)
Definition two_row_curve : RatingCurve :=
  mkCurve "Lawtonka" [mkRow (Some 0.5) 0.62; mkRow (Some 1) 0.6].

(** A curve whose only row has no number in [d]. *)
Definition blank_row_curve : RatingCurve :=
  mkCurve "Lawtonka" [mkRow None 0.6].

(** An empty rating table. *)
Definition empty_curve : RatingCurve := mkCurve "Lawtonka" [].

(** ** Heads and flows *)

(** [H1] and [H2] of lines 222-223, for a lake elevation that is a number. *)
Definition head1 (lake_elevation : R) (rating_curve : RatingCurve) : R :=
  lake_elevation - spillway_invert_elevation rating_curve.

Definition head2 (gate_opening lake_elevation : R) (rating_curve : RatingCurve) : R :=
  head1 lake_elevation rating_curve - gate_opening.

(** The flow that [calculate_flow] computes past the guard. *)
Definition code_flow (c H1 H2 : R) : R :=
  (2 / 3) * sqrt 32.2 * c * 20.0 * (H1 * sqrt H1 - H2 * sqrt H2).

(** From the specification and from the script's own header (line 6):
    [Q = 2/3 * Sqrt(2g) * C * L * (H1^(3/2) - H2^(3/2))]. *)
Definition weir_flow (g c L H1 H2 : R) : R :=
  (2 / 3) * sqrt (2 * g) * c * L * (H1 * sqrt H1 - H2 * sqrt H2).

(** The value of an open gate as a function of the head [h = H1]. *)
Definition guarded_flow (c d h : R) : R :=
  if Rlt_dec (h - d) 0 then 0 else code_flow c h (h - d).

(** ** Order in time *)

(** Earlier than, on timestamps; nothing is earlier or later than [NaT]. *)
Definition time_lt (a b : cell) : bool :=
  match a, b with
  | Time x, Time y => (x <? y)%Z
  | _, _ => false
  end.

(** Each record is earlier than the next one. *)
Fixpoint strictly_ascending (ts : list cell) : bool :=
  match ts with
  | a :: (b :: _) as tl => time_lt a b && strictly_ascending tl
  | _ => true
  end.

(** ** Library calls, for the examples *)

(** For the examples: every value that is not a text prints as [nan]. *)
Definition nan_str (c : cell) : string := "nan".

(** For the examples: a reading of [parser.parse(s).time()] on the texts
    [HH:MM:SS], in seconds after midnight. *)
Definition clock_parse_time (s : string) : option Z :=
  match list_ascii_of_string s with
  | [h1; h2; c1; m1; m2; c2; s1; s2] =>
      let hh := int_of_digits [h1; h2] in
      let mm := int_of_digits [m1; m2] in
      let ss := int_of_digits [s1; s2] in
      if forallb is_digit [h1; h2; m1; m2; s1; s2]
         && Ascii.eqb c1 colon && Ascii.eqb c2 colon
         && (hh <? 24)%nat && (mm <? 60)%nat && (ss <? 60)%nat
      then Some (Z.of_nat (3600 * hh + 60 * mm + ss))
      else None
  | _ => None
  end.

(** For the examples: a reading of [pd.to_datetime] on the texts that line
    148 builds, [YYYY-MM-DD HH:MM:SS], as the number spelled by the
    fourteen digits, which grows with time; a timestamp is kept. *)
Definition iso_to_datetime (c : cell) : option Z :=
  match c with
  | Time t => Some t
  | Str s =>
      match list_ascii_of_string s with
      | [y1; y2; y3; y4; h1; m1; m2; h2; d1; d2; sp; H1; H2; c1; M1; M2; c2; S1; S2] =>
          let digits := [y1; y2; y3; y4; m1; m2; d1; d2; H1; H2; M1; M2; S1; S2] in
          if forallb is_digit digits
             && Ascii.eqb h1 "-" && Ascii.eqb h2 "-" && Ascii.eqb sp " "
             && Ascii.eqb c1 colon && Ascii.eqb c2 colon
          then Some (fold_left (fun acc c => (10 * acc + Z.of_nat (nat_of_ascii c - 48))%Z)
                       digits 0%Z)
          else None
      | _ => None
      end
  | NA | Num _ => None
  end.

(** For the examples: [str] of a time of day, [HH:MM:SS], and of a
    timestamp, [YYYY-MM-DD] at midnight and [YYYY-MM-DD HH:MM:SS] at any
    other time.  A time of day is a number of seconds, below 86400; a
    timestamp is the number that its fourteen digits spell.  A missing
    value prints as [nan]; no number is printed in the examples. *)
Definition two_digits (n : Z) : string := pad2 (Z.to_nat n).

Definition clock_str (h m s : Z) : string :=
  append (two_digits h) (append ":" (append (two_digits m) (append ":" (two_digits s)))).

Definition date_str (ymd : Z) : string :=
  append (NilZero.string_of_uint (Nat.to_uint (Z.to_nat (ymd / 10000))))
    (append "-" (append (two_digits ((ymd / 100) mod 100))
                   (append "-" (two_digits (ymd mod 100))))).

Definition stamp_str (c : cell) : string :=
  match c with
  | Time t =>
      if (t <? 86400)%Z then clock_str (t / 3600) ((t / 60) mod 60) (t mod 60)
      else
        let hms := (t mod 1000000)%Z in
        if (hms =? 0)%Z then date_str (t / 1000000)
        else append (date_str (t / 1000000))
               (append " " (clock_str (hms / 10000) ((hms / 100) mod 100) (hms mod 100)))
  | Str s => s
  | NA | Num _ => "nan"
  end.

(** For the examples: [pd.to_datetime] on the texts [YYYY-MM-DD], read as
    midnight of that day, and otherwise as [iso_to_datetime] reads. *)
Definition stamp_to_datetime (c : cell) : option Z :=
  match c with
  | Str s =>
      match list_ascii_of_string s with
      | [y1; y2; y3; y4; h1; m1; m2; h2; d1; d2] =>
          let digits := [y1; y2; y3; y4; m1; m2; d1; d2] in
          if forallb is_digit digits && Ascii.eqb h1 "-" && Ascii.eqb h2 "-"
          then Some (1000000 *
                     fold_left (fun acc c => (10 * acc + Z.of_nat (nat_of_ascii c - 48))%Z)
                       digits 0)%Z
          else None
      | _ => iso_to_datetime c
      end
  | NA | Num _ | Time _ => iso_to_datetime c
  end.

(** The text of a superscript two followed by 3 and 4, in UTF-8: three
    characters that [str.isdigit] accepts, of which [int] rejects the
    first. *)
Definition superscript_two_34 : string :=
  String (ascii_of_nat 194) (String (ascii_of_nat 178) "34").

(** ** Tables *)

(** Modelled from the spec: the order of the leading columns of the sheet,
    Date, Time, Lake Elevation, which the script does not state.  The
    script adds that a fourth column precedes the gate block (lines 46 and
    151). *)
Definition sheet_layout : Layout := mkLayout 0 1 2.

(** A row as it reaches line 157: the merged date and time, the parsed
    time, the lake elevation in feet, an empty fourth column, and two
    gates, open 6 inches and closed. *)
Definition scenario_row : Row :=
  mkR (Num 2) [Str "2020-05-01 08:00:00"; Time 28800; Num 1337.00; NA; Num 6; Num 0].

(** Two rows as they stand after line 244, the later observation first;
    the last cell is the total flow. *)
Definition unordered_frame : DataFrame :=
  [ mkR (Num 2)
      [Str "2020-05-02 08:00:00"; Time 28800; Num 111.42; Num 0; Num 0.5; Num 0; Num 0];
    mkR (Num 3)
      [Str "2020-05-01 08:00:00"; Time 28800; Num 111.33; Num 0; Num 0; Num 0; Num 0] ].

(** A stretch of the log after the header repair: a year divider, a full
    reading, a reading with no time under the same date, a reading in the
    afternoon, one with a time nobody can read, one with no elevation. *)
Definition log_frame : DataFrame :=
  [ mkR (Num 1) [Str "2020"; NA; NA; NA; NA; NA];
    mkR (Num 2) [Str "2020-05-01"; Str "800"; Num 1337.00; NA; Num 6; NA];
    mkR (Num 3) [NA; NA; Num 1337.10; NA; Num 6; NA];
    mkR (Num 4) [NA; Str "1:24P"; Num 1337.20; NA; Num 12; NA];
    mkR (Num 5) [NA; Str "about noon"; Num 1337.20; NA; Num 12; NA];
    mkR (Num 6) [NA; Str "930"; NA; NA; Num 12; NA] ].

(** A log whose only row has a date and a lake elevation, and no time. *)
Definition timeless_frame : DataFrame :=
  [ mkR (Num 1) [Str "2020-05-01"; NA; Num 1337.00; NA; Num 6; NA] ].

(** A log whose only row has the time [superscript_two_34]. *)
Definition superscript_frame : DataFrame :=
  [ mkR (Num 1) [Str "2020-05-01"; Str superscript_two_34; Num 1337.00; NA; Num 6; NA] ].

(** A rating table of one row. *)
Definition one_row_table : list RatingCurveRow := [mkRow (Some 0.5) 0.62].

(** ** Shapes of tables and rows *)

(** The dates of the table, and its times where there is one, print as
    ASCII texts. *)
Definition ascii_texts (py_str : cell -> string) (L : Layout) (df : DataFrame) : Prop :=
  Forall (fun r =>
            ascii_text (astype_str py_str (get r (iDate L))) = true /\
            (isna (get r (iTime L)) = true \/
             ascii_text (astype_str py_str (get r (iTime L))) = true)) df.

(** Every row has a cell for every column. *)
Definition rectangular (s : Sheet) : Prop :=
  Forall (fun r => List.length (cells r) = List.length (columns s)) (body s).

(** The first list is the second with some elements left out, the order
    kept. *)
Inductive subseq {A : Type} : list A -> list A -> Prop :=
| subseq_nil : subseq [] []
| subseq_skip : forall a l1 l2, subseq l1 l2 -> subseq l1 (a :: l2)
| subseq_keep : forall a l1 l2, subseq l1 l2 -> subseq (a :: l1) (a :: l2).

(** A cell that holds a number or nothing. *)
Definition numeric (c : cell) : Prop :=
  match c with Num _ | NA => True | Str _ | Time _ => False end.

(** ** Readings of a gate *)

(** The number that lines 157-161 read in a cell, in inches: 0 for a
    missing cell and for a text that is no number. *)
Definition inches (to_numeric_text : string -> option R) (c : cell) : R :=
  match to_numeric to_numeric_text (strip_quotes (fillna0 c)) with
  | Num x => x
  | _ => 0
  end.

(** [gate > 0], for a cell that holds a number or nothing. *)
Definition is_open (c : cell) : bool :=
  match c with
  | Num g => if Rlt_dec 0 g then true else false
  | _ => false
  end.

(** * Properties *)

(** ** Tactics for concrete inputs *)

(** Settle the comparisons of reals that a concrete run meets. *)
Ltac decide_reals :=
  repeat match goal with
    | |- context [Rlt_dec ?a ?b] => destruct (Rlt_dec a b); try lra
    | |- context [Req_dec_T ?a ?b] => destruct (Req_dec_T a b); try lra
    end.

(** ** The monad *)

Lemma bind_ext {A B} (m : M A) (k k' : A -> M B) :
  (forall a, k a = k' a) -> bind m k = bind m k'.
Proof.
  intros H. destruct m as [out [a|err]]; simpl; [rewrite H|]; reflexivity.
Qed.

Lemma bind_eta {A} (m : M A) : m = (printed m, result m).
Proof. destruct m; reflexivity. Qed.

(** ** The rating curve lookup *)

Lemma d_is_true q r : d_is q r = true <-> d r = Some q.
Proof.
  unfold d_is; destruct (d r) as [x|]; [|split; discriminate].
  destruct (Req_dec_T x q) as [->|Hne]; split; intros H; try congruence.
Qed.

Lemma filter_first {A} (f : A -> bool) (l : list A) (a : A) (rest : list A) :
  filter f l = a :: rest ->
  exists i, nth_error l i = Some a /\ f a = true /\
            forall j b, (j < i)%nat -> nth_error l j = Some b -> f b = false.
Proof.
  induction l as [|b l IH]; simpl; [discriminate|].
  destruct (f b) eqn:Hb; intros H.
  - injection H as -> _. exists 0%nat; repeat split; auto. intros; lia.
  - destruct (IH H) as (i & Hi & Ha & Hlt).
    exists (S i); repeat split; auto.
    intros [|j] c Hj Hc; simpl in Hc; [congruence|]. apply (Hlt j); auto; lia.
Qed.

Lemma filter_nil_all {A} (f : A -> bool) (l : list A) :
  filter f l = [] -> forall a, In a l -> f a = false.
Proof.
  induction l as [|b l IH]; simpl; [tauto|].
  destruct (f b) eqn:Hb; [discriminate|].
  intros H a [<-|Ha]; auto.
Qed.

(** What the scan of [idxmin] over the numbers of column [d] ends with:
    either the best so far stands, or a row of the table replaces it. *)
Lemma scan_spec (q : R) (t : list RatingCurveRow) :
  forall (k : nat) (best : option (nat * R)),
    let s := map (fun p => (fst p, Rabs (snd p - q)))
                 (dropna_d (combine (seq k (List.length t)) t)) in
    (fold_left better s best = best /\
     forall j r y, nth_error t j = Some r -> d r = Some y -> le_best best (Rabs (y - q)))
    \/
    (exists j r x,
        fold_left better s best = Some ((k + j)%nat, Rabs (x - q)) /\
        nth_error t j = Some r /\ d r = Some x /\
        lt_best (Rabs (x - q)) best /\
        (forall j' r' y, nth_error t j' = Some r' -> d r' = Some y ->
                         Rabs (x - q) <= Rabs (y - q)) /\
        (forall j' r' y, (j' < j)%nat -> nth_error t j' = Some r' -> d r' = Some y ->
                         Rabs (x - q) < Rabs (y - q))).
Proof.
  induction t as [|r0 t IH]; intros k best; simpl.
  - left; split; auto. intros [|j] r y H; discriminate.
  - destruct (d r0) as [x0|] eqn:Hd0.
    + simpl.
      assert (Hcase : better best (k, Rabs (x0 - q)) = best /\ le_best best (Rabs (x0 - q))
                      \/ better best (k, Rabs (x0 - q)) = Some (k, Rabs (x0 - q))
                         /\ lt_best (Rabs (x0 - q)) best).
      { destruct best as [b|]; simpl; [|right; auto].
        destruct (Rlt_dec (Rabs (x0 - q)) (snd b)); [right; auto|left; split; auto; lra]. }
      destruct Hcase as [[Hb Hle]|[Hb Hlt]]; rewrite Hb.
      * destruct (IH (S k) best) as [[Hf Hall]|(j & r & x & Hf & Hn & Hd & Hlt & Hmin & Hfirst)].
        -- left; split; auto.
           intros [|j] r y Hn Hd; simpl in Hn; [|eapply Hall; eauto].
           injection Hn as <-. rewrite Hd0 in Hd; injection Hd as <-; auto.
        -- right; exists (S j), r, x.
           replace (k + S j)%nat with (S k + j)%nat by lia.
           repeat split; auto.
           ++ intros [|j'] r' y Hn' Hd'; simpl in Hn'; [|eapply Hmin; eauto].
              injection Hn' as <-. rewrite Hd0 in Hd'; injection Hd' as <-.
              destruct best as [b|]; simpl in *; [lra|tauto].
           ++ intros [|j'] r' y Hj' Hn' Hd'; simpl in Hn'.
              ** injection Hn' as <-. rewrite Hd0 in Hd'; injection Hd' as <-.
                 destruct best as [b|]; simpl in *; [lra|tauto].
              ** eapply (Hfirst j'); eauto; lia.
      * destruct (IH (S k) (Some (k, Rabs (x0 - q))))
          as [[Hf Hall]|(j & r & x & Hf & Hn & Hd & Hlt' & Hmin & Hfirst)].
        -- right; exists 0%nat, r0, x0.
           replace (k + 0)%nat with k by lia.
           repeat split; auto.
           ++ intros [|j'] r' y Hn' Hd'; simpl in Hn'.
              ** injection Hn' as <-. rewrite Hd0 in Hd'; injection Hd' as <-; lra.
              ** apply (Hall j' r' y Hn' Hd').
           ++ intros; lia.
        -- right; exists (S j), r, x.
           replace (k + S j)%nat with (S k + j)%nat by lia.
           simpl in Hlt'.
           repeat split; auto.
           ++ destruct best as [b|]; simpl in *; auto; lra.
           ++ intros [|j'] r' y Hn' Hd'; simpl in Hn'; [|eapply Hmin; eauto].
              injection Hn' as <-. rewrite Hd0 in Hd'; injection Hd' as <-; lra.
           ++ intros [|j'] r' y Hj' Hn' Hd'; simpl in Hn'.
              ** injection Hn' as <-. rewrite Hd0 in Hd'; injection Hd' as <-; lra.
              ** eapply (Hfirst j'); eauto; lia.
    + destruct (IH (S k) best) as [[Hf Hall]|(j & r & x & Hf & Hn & Hd & Hlt & Hmin & Hfirst)].
      * left; split; auto.
        intros [|j] r y Hn Hd; simpl in Hn; [|eapply Hall; eauto].
        injection Hn as <-; congruence.
      * right; exists (S j), r, x.
        replace (k + S j)%nat with (S k + j)%nat by lia.
        repeat split; auto.
        -- intros [|j'] r' y Hn' Hd'; simpl in Hn'; [|eapply Hmin; eauto].
           injection Hn' as <-; congruence.
        -- intros [|j'] r' y Hj' Hn' Hd'; simpl in Hn'.
           ++ injection Hn' as <-; congruence.
           ++ eapply (Hfirst j'); eauto; lia.
Qed.

Lemma idxmin_scan (q : R) (t : list RatingCurveRow) :
  let s := map (fun p => (fst p, Rabs (snd p - q))) (dropna_d (labelled t)) in
  (idxmin s = None /\ forall r y, In r t -> d r <> Some y)
  \/
  (exists i r, idxmin s = Some i /\ nearest_entry t q i r).
Proof.
  unfold idxmin, labelled; simpl.
  destruct (scan_spec q t 0 None) as [[Hf Hall]|(j & r & x & Hf & Hn & Hd & _ & Hmin & Hfirst)];
    simpl in *; rewrite Hf; simpl.
  - left; split; auto.
    intros r y Hin Hd. destruct (In_nth_error _ _ Hin) as [j Hj].
    exact (Hall j r y Hj Hd).
  - right; exists j, r; split; auto.
    split; auto. exists x; auto.
Qed.

(** The two ways the lookup answers, and when it cannot. *)
Lemma lookup_cases (q : R) (rating_curve : RatingCurve) :
  let t := table rating_curve in
  let m := get_coefficient_of_discharge q rating_curve in
  (exists i r, exact_entry t q i r /\ m = ([], Returned (C r)))
  \/ (exists i r, (forall r', In r' t -> d r' <> Some q) /\ nearest_entry t q i r /\
                  m = ([ClosestUsed q (d r)], Returned (C r)))
  \/ ((forall r y, In r t -> d r <> Some y) /\ m = ([], Raised ArgminOfEmpty)).
Proof.
  intros t m; subst m; unfold get_coefficient_of_discharge; fold t.
  destruct (filter (d_is q) t) as [|r rest] eqn:Hf.
  - assert (Hno : forall r', In r' t -> d r' <> Some q).
    { intros r' Hin Hd. apply d_is_true in Hd.
      rewrite (filter_nil_all _ _ Hf r' Hin) in Hd; discriminate. }
    destruct (idxmin_scan q t) as [[Hi Hall]|(i & r & Hi & Hnear)]; simpl in Hi; rewrite Hi.
    + right; right; split; auto.
    + right; left; exists i, r; repeat split; auto; try apply Hnear.
      destruct Hnear as [Hn _].
      unfold loc_d, loc_rows; rewrite Hn; reflexivity.
  - left. destruct (filter_first _ _ _ _ Hf) as (i & Hi & Hr & Hlt).
    exists i, r; split; [|reflexivity].
    split; [exact Hi|]. split; [apply d_is_true; exact Hr|].
    intros j r' Hj Hn Hd. apply d_is_true in Hd.
    rewrite (Hlt j r' Hj Hn) in Hd; discriminate.
Qed.

Lemma lookup_returns (q : R) (rating_curve : RatingCurve) :
  usable rating_curve ->
  exists c, result (get_coefficient_of_discharge q rating_curve) = Returned c.
Proof.
  intros (r0 & x0 & Hin & Hd).
  destruct (lookup_cases q rating_curve)
    as [(i & r & _ & ->)|[(i & r & _ & _ & ->)|[Hall _]]]; simpl; eauto.
  exfalso; exact (Hall r0 x0 Hin Hd).
Qed.

Lemma lookup_raises (q : R) (rating_curve : RatingCurve) :
  ~ usable rating_curve ->
  get_coefficient_of_discharge q rating_curve = ([], Raised ArgminOfEmpty).
Proof.
  intros Hn.
  destruct (lookup_cases q rating_curve)
    as [(i & r & (Hi & Hd & _) & _)|[(i & r & _ & (Hi & x & Hd & _) & _)|[_ ->]]]; auto;
    exfalso; apply Hn; exists r; eexists; split; eauto using nth_error_In.
Qed.

(** The error of line 216 is never raised. *)
Lemma lookup_never_not_found (q : R) (rating_curve : RatingCurve) :
  result (get_coefficient_of_discharge q rating_curve) <> Raised GateOpeningNotFound.
Proof.
  destruct (lookup_cases q rating_curve)
    as [(i & r & _ & ->)|[(i & r & _ & _ & ->)|[_ ->]]]; simpl; discriminate.
Qed.

(** C4, as amended: on a rating curve with at least one row whose [d] is
    a number, the lookup returns a coefficient for every query.  It is the
    [C] of the first row whose [d] equals the query when there is one, and
    nothing is printed; otherwise it is the [C] of the row whose [d] is
    nearest to the query among the rows whose [d] is a number, the first
    such row among equally near ones, and the substitution is printed. *)
Theorem get_coefficient_of_discharge_on_usable_curve
    (q : R) (rating_curve : RatingCurve) :
  usable rating_curve ->
  exists i r,
    result (get_coefficient_of_discharge q rating_curve) = Returned (C r) /\
    ((exact_entry (table rating_curve) q i r /\
      printed (get_coefficient_of_discharge q rating_curve) = [])
     \/
     ((forall r', In r' (table rating_curve) -> d r' <> Some q) /\
      nearest_entry (table rating_curve) q i r /\
      printed (get_coefficient_of_discharge q rating_curve) = [ClosestUsed q (d r)])).
Proof.
  intros (r0 & x0 & Hin & Hd).
  destruct (lookup_cases q rating_curve)
    as [(i & r & Hex & ->)|[(i & r & Hno & Hnear & ->)|[Hall _]]].
  - exists i, r; split; [reflexivity|left; split; auto].
  - exists i, r; split; [reflexivity|right; repeat split; auto; apply Hnear].
  - exfalso; exact (Hall r0 x0 Hin Hd).
Qed.

Lemma get_coefficient_of_discharge_on_usable_curve_witness :
  usable two_row_curve /\
  exists i r,
    result (get_coefficient_of_discharge 0.75 two_row_curve) = Returned (C r) /\
    ((exact_entry (table two_row_curve) 0.75 i r /\
      printed (get_coefficient_of_discharge 0.75 two_row_curve) = [])
     \/
     ((forall r', In r' (table two_row_curve) -> d r' <> Some 0.75) /\
      nearest_entry (table two_row_curve) 0.75 i r /\
      printed (get_coefficient_of_discharge 0.75 two_row_curve)
      = [ClosestUsed 0.75 (d r)])).
Proof.
  assert (H : usable two_row_curve).
  { exists (mkRow (Some 0.5) 0.62), 0.5; simpl; auto. }
  split; [exact H|].
  apply (get_coefficient_of_discharge_on_usable_curve 0.75 two_row_curve H).
Defined.

(** C4, counterexample: the curve has an entry, yet the lookup fails. *)
Lemma get_coefficient_of_discharge_fails_on_blank_row :
  table blank_row_curve <> [] /\
  get_coefficient_of_discharge 0.5 blank_row_curve = ([], Raised ArgminOfEmpty).
Proof. split; [discriminate|reflexivity]. Qed.

(** ** Flow under one gate *)

(** [x * sqrt x] is the power [x ^ (3/2)] of a positive real. *)
Lemma pow_3_2_is_Rpower (x : R) : 0 < x -> x * sqrt x = Rpower x (3 / 2).
Proof.
  intros Hx. replace (3 / 2) with (1 + / 2) by lra.
  rewrite Rpower_plus, Rpower_1, Rpower_sqrt; auto.
Qed.

Lemma calculate_flow_printed d e rating_curve :
  printed (calculate_flow d (Num e) rating_curve)
  = printed (get_coefficient_of_discharge d rating_curve).
Proof.
  unfold calculate_flow.
  destruct (get_coefficient_of_discharge d rating_curve) as [out [c|err]]; simpl; auto.
  destruct (Rlt_dec _ 0); simpl; [apply app_nil_r|].
  unfold pow_3_2.
  repeat (destruct (Rlt_dec _ 0); simpl); apply app_nil_r.
Qed.

Lemma calculate_flow_result d e rating_curve c :
  result (get_coefficient_of_discharge d rating_curve) = Returned c ->
  result (calculate_flow d (Num e) rating_curve)
  = if Rlt_dec (head2 d e rating_curve) 0 then Returned (Some 0)
    else if Rlt_dec (head1 e rating_curve) 0 then Raised NonRealPower
    else Returned (Some (code_flow c (head1 e rating_curve) (head2 d e rating_curve))).
Proof.
  unfold calculate_flow, head2, head1, code_flow.
  destruct (get_coefficient_of_discharge d rating_curve) as [out r]; simpl.
  intros ->; simpl.
  destruct (Rlt_dec _ 0) as [H2neg|H2pos]; simpl; auto.
  unfold pow_3_2.
  destruct (Rlt_dec (e - _) 0) as [H1neg|H1pos]; simpl; auto.
  destruct (Rlt_dec _ 0); simpl; [contradiction|reflexivity].
Qed.

Lemma calculate_flow_lookup_raised d lake rating_curve err :
  result (get_coefficient_of_discharge d rating_curve) = Raised err ->
  calculate_flow d lake rating_curve
  = (printed (get_coefficient_of_discharge d rating_curve), Raised err).
Proof.
  unfold calculate_flow.
  destruct (get_coefficient_of_discharge d rating_curve) as [out r]; simpl.
  intros ->; reflexivity.
Qed.

(** With the gate open, the guard on [H2] shields both powers. *)
Lemma calculate_flow_open_gate d e rating_curve c :
  0 < d ->
  result (get_coefficient_of_discharge d rating_curve) = Returned c ->
  result (calculate_flow d (Num e) rating_curve)
  = if Rlt_dec (head2 d e rating_curve) 0 then Returned (Some 0)
    else Returned (Some (code_flow c (head1 e rating_curve) (head2 d e rating_curve))).
Proof.
  intros Hd Hc. rewrite (calculate_flow_result _ _ _ _ Hc).
  destruct (Rlt_dec (head2 d e rating_curve) 0) as [|H2]; auto.
  destruct (Rlt_dec (head1 e rating_curve) 0) as [H1|]; auto.
  unfold head2 in H2; lra.
Qed.

(** The specification's formula is the script's value times [sqrt 2]. *)
Lemma weir_flow_code_flow c H1 H2 :
  weir_flow 32.2 c 20.0 H1 H2 = sqrt 2 * code_flow c H1 H2.
Proof.
  unfold weir_flow, code_flow.
  rewrite sqrt_mult by lra. ring.
Qed.

Lemma sqrt_2_gt_1 : 1 < sqrt 2.
Proof.
  rewrite <- sqrt_1 at 1. apply sqrt_lt_1; lra.
Qed.

Lemma pow_3_2_increasing x y : 0 <= x -> x < y -> x * sqrt x < y * sqrt y.
Proof.
  intros Hx Hxy.
  assert (Hs : sqrt x < sqrt y) by (apply sqrt_lt_1; lra).
  assert (H0 : 0 <= sqrt x) by apply sqrt_pos.
  nra.
Qed.

Lemma pow_3_2_monotone x y : 0 <= x -> x <= y -> x * sqrt x <= y * sqrt y.
Proof.
  intros Hx [Hxy| ->]; [left; apply pow_3_2_increasing; auto|right; auto].
Qed.

Lemma code_flow_positive c H1 H2 :
  0 < c -> 0 <= H2 -> H2 < H1 -> 0 < code_flow c H1 H2.
Proof.
  intros Hc H2pos Hlt. unfold code_flow.
  assert (Hg : 0 < sqrt 32.2) by (apply sqrt_lt_R0; lra).
  assert (Hp := pow_3_2_increasing H2 H1 H2pos Hlt).
  assert (Hk : 0 < 2 / 3 * sqrt 32.2 * c * 20.0) by nra.
  nra.
Qed.

Lemma code_flow_nonneg c H1 H2 :
  0 <= c -> 0 <= H2 -> H2 <= H1 -> 0 <= code_flow c H1 H2.
Proof.
  intros Hc H2pos Hle. unfold code_flow.
  assert (Hg : 0 <= sqrt 32.2) by apply sqrt_pos.
  assert (Hp := pow_3_2_monotone H2 H1 H2pos Hle).
  assert (Hk : 0 <= 2 / 3 * sqrt 32.2 * c * 20.0) by nra.
  nra.
Qed.

(** C1, at the failing input: the gate is open, [H2 = 0.95 >= 0], and the
    script returns [(2/3) * sqrt g * C * L * (H1^1.5 - H2^1.5)]; the formula
    of the claim, with [sqrt (2 g)], is [sqrt 2] times that value and
    differs from it. *)
Theorem calculate_flow_uses_sqrt_g :
  let q := (2 / 3) * sqrt 32.2 * 0.62 * 20.0 * (1.45 * sqrt 1.45 - 0.95 * sqrt 0.95) in
  0 <= head2 0.5 1337.00 lawtonka_curve /\
  calculate_flow 0.5 (Num 1337.00) lawtonka_curve = ([], Returned (Some q)) /\
  weir_flow 32.2 0.62 20.0 1.45 0.95 = sqrt 2 * q /\
  q <> weir_flow 32.2 0.62 20.0 1.45 0.95.
Proof.
  intros q.
  assert (Hq : q = code_flow 0.62 1.45 0.95) by reflexivity.
  assert (Hpos : 0 < q) by (rewrite Hq; apply code_flow_positive; lra).
  assert (Hd : spillway_invert_elevation lawtonka_curve = 1335.55) by reflexivity.
  repeat split.
  - unfold head2, head1; rewrite Hd; lra.
  - rewrite (bind_eta (calculate_flow _ _ _)).
    rewrite calculate_flow_printed.
    assert (Hl : get_coefficient_of_discharge 0.5 lawtonka_curve = ([], Returned 0.62)).
    { unfold get_coefficient_of_discharge, lawtonka_curve, d_is; simpl.
      decide_reals; reflexivity. }
    rewrite (calculate_flow_open_gate 0.5 1337.00 lawtonka_curve 0.62);
      [|lra|rewrite Hl; reflexivity].
    rewrite Hl; simpl.
    unfold head2, head1; rewrite Hd.
    decide_reals.
    replace (1337.00 - 1335.55 - 0.5) with 0.95 by lra.
    replace (1337.00 - 1335.55) with 1.45 by lra.
    rewrite Hq; reflexivity.
  - rewrite Hq; apply weir_flow_code_flow.
  - rewrite weir_flow_code_flow, <- Hq.
    pose proof sqrt_2_gt_1. nra.
Qed.

(** ** The guard on [H2] *)

Lemma empty_curve_not_usable : ~ usable empty_curve.
Proof. intros (r & x & [] & _). Qed.

Lemma blank_row_curve_not_usable : ~ usable blank_row_curve.
Proof.
  intros (r & x & [<-|[]] & Hd); discriminate.
Qed.

(** C7, as amended: with the gate open, the flow computation never ends in
    a power of a negative base; and whenever the lookup has a row to answer
    from, a negative [H2] gives the flow 0, in particular when the lake is
    below the spillway invert ([H1 < 0]). *)
Theorem negative_head_gives_zero_flow (d e : R) (rating_curve : RatingCurve) :
  0 < d ->
  result (calculate_flow d (Num e) rating_curve) <> Raised NonRealPower /\
  (usable rating_curve -> head2 d e rating_curve < 0 ->
   result (calculate_flow d (Num e) rating_curve) = Returned (Some 0)) /\
  (usable rating_curve -> head1 e rating_curve < 0 ->
   head2 d e rating_curve < 0 /\
   result (calculate_flow d (Num e) rating_curve) = Returned (Some 0)).
Proof.
  intros Hd.
  assert (Hguard : usable rating_curve -> head2 d e rating_curve < 0 ->
                   result (calculate_flow d (Num e) rating_curve) = Returned (Some 0)).
  { intros Hu H2. destruct (lookup_returns d _ Hu) as [c Hc].
    rewrite (calculate_flow_open_gate _ _ _ _ Hd Hc).
    destruct (Rlt_dec _ 0); [reflexivity|contradiction]. }
  repeat split; auto.
  - destruct (result (get_coefficient_of_discharge d rating_curve)) as [c|err] eqn:Hc.
    + rewrite (calculate_flow_open_gate _ _ _ _ Hd Hc).
      destruct (Rlt_dec _ 0); discriminate.
    + rewrite (calculate_flow_lookup_raised _ _ _ _ Hc); simpl.
      intros H; injection H as ->.
      destruct (lookup_cases d rating_curve)
        as [(i & r & _ & Hm)|[(i & r & _ & _ & Hm)|[_ Hm]]];
        rewrite Hm in Hc; discriminate.
  - unfold head2; lra.
  - apply Hguard; auto. unfold head2; lra.
Qed.

Lemma lawtonka_curve_usable : usable lawtonka_curve.
Proof. exists (mkRow (Some 0.5) 0.62), 0.5; simpl; auto. Qed.

Lemma negative_head_gives_zero_flow_witness :
  0 < 0.5 /\
  (result (calculate_flow 0.5 (Num 1335.00) lawtonka_curve) <> Raised NonRealPower /\
   (usable lawtonka_curve -> head2 0.5 1335.00 lawtonka_curve < 0 ->
    result (calculate_flow 0.5 (Num 1335.00) lawtonka_curve) = Returned (Some 0)) /\
   (usable lawtonka_curve -> head1 1335.00 lawtonka_curve < 0 ->
    head2 0.5 1335.00 lawtonka_curve < 0 /\
    result (calculate_flow 0.5 (Num 1335.00) lawtonka_curve) = Returned (Some 0))) /\
  usable lawtonka_curve /\
  head1 1335.00 lawtonka_curve < 0.
Proof.
  assert (H : 0 < 0.5) by lra.
  split; [exact H|].
  split; [exact (negative_head_gives_zero_flow 0.5 1335.00 lawtonka_curve H)|].
  split; [exact lawtonka_curve_usable|].
  unfold head1, spillway_invert_elevation; simpl; lra.
Defined.

(** C7, counterexample: the gate is open and [H2 < 0], yet the computation
    raises instead of giving 0, because the lookup comes first. *)
Lemma calculate_flow_raises_below_guard :
  0 < 0.5 /\ head2 0.5 1000.00 empty_curve < 0 /\
  calculate_flow 0.5 (Num 1000.00) empty_curve = ([], Raised ArgminOfEmpty) /\
  result (calculate_flow 0.5 (Num 1000.00) empty_curve) <> Returned (Some 0).
Proof.
  repeat split; try lra.
  - unfold head2, head1, spillway_invert_elevation; simpl; lra.
  - discriminate.
Qed.

(** C10, as amended: with the gate open and [H2 < 0], every rating curve
    that has a row with a number in [d] gives the flow 0, so two such
    curves give the same value whatever their coefficients; and on a curve
    with no such row, the empty one among them, the computation raises in
    the lookup, before the guard is reached. *)
Theorem calculate_flow_below_guard_ignores_coefficients (d e : R) :
  0 < d ->
  (forall rc1 rc2,
      usable rc1 -> usable rc2 ->
      head2 d e rc1 < 0 -> head2 d e rc2 < 0 ->
      result (calculate_flow d (Num e) rc1) = Returned (Some 0) /\
      result (calculate_flow d (Num e) rc2) = result (calculate_flow d (Num e) rc1)) /\
  (forall rc, ~ usable rc ->
              calculate_flow d (Num e) rc = ([], Raised ArgminOfEmpty)) /\
  (forall rc, table rc = [] ->
              calculate_flow d (Num e) rc = ([], Raised ArgminOfEmpty)).
Proof.
  intros Hd.
  assert (Hzero : forall rc, usable rc -> head2 d e rc < 0 ->
                             result (calculate_flow d (Num e) rc) = Returned (Some 0)).
  { intros rc Hu H2. destruct (lookup_returns d _ Hu) as [c Hc].
    rewrite (calculate_flow_open_gate _ _ _ _ Hd Hc).
    destruct (Rlt_dec _ 0); [reflexivity|contradiction]. }
  assert (Hraise : forall rc, ~ usable rc ->
                              calculate_flow d (Num e) rc = ([], Raised ArgminOfEmpty)).
  { intros rc Hn. pose proof (lookup_raises d rc Hn) as Hl.
    rewrite (calculate_flow_lookup_raised d (Num e) rc ArgminOfEmpty);
      rewrite Hl; reflexivity. }
  repeat split; auto.
  - rewrite !Hzero; auto.
  - intros rc Ht. apply Hraise.
    intros (r & x & Hin & _). rewrite Ht in Hin; exact Hin.
Qed.

Lemma calculate_flow_below_guard_ignores_coefficients_witness :
  0 < 0.5 /\
  result (calculate_flow 0.5 (Num 1000.00) lawtonka_curve) = Returned (Some 0) /\
  result (calculate_flow 0.5 (Num 1000.00) two_row_curve)
  = result (calculate_flow 0.5 (Num 1000.00) lawtonka_curve).
Proof.
  assert (H : 0 < 0.5) by lra.
  split; [exact H|].
  apply (proj1 (calculate_flow_below_guard_ignores_coefficients 0.5 1000.00 H)).
  - exact lawtonka_curve_usable.
  - exists (mkRow (Some 0.5) 0.62), 0.5; simpl; auto.
  - unfold head2, head1, spillway_invert_elevation; simpl; lra.
  - unfold head2, head1, spillway_invert_elevation; simpl; lra.
Defined.

(** C10, counterexample: a curve that is not empty, an open gate and
    [H2 < 0], and the result is not 0: the lookup raises. *)
Lemma calculate_flow_raises_on_blank_row :
  table blank_row_curve <> [] /\ 0 < 0.5 /\
  head2 0.5 1000.00 blank_row_curve < 0 /\
  calculate_flow 0.5 (Num 1000.00) blank_row_curve = ([], Raised ArgminOfEmpty) /\
  result (calculate_flow 0.5 (Num 1000.00) blank_row_curve) <> Returned (Some 0).
Proof.
  repeat split; try lra; try discriminate.
  unfold head2, head1, spillway_invert_elevation; simpl; lra.
Qed.

(** ** Monotonicity in the lake elevation *)

Lemma cube_difference_monotone p q p' q' :
  0 <= q -> q <= p -> q <= q' -> p <= p' -> q' <= p' ->
  p * p - q * q = p' * p' - q' * q' ->
  p * p * p - q * q * q <= p' * p' * p' - q' * q' * q'.
Proof.
  intros Hq Hqp Hqq' Hpp' Hq'p' Heq.
  set (a := p' - p). set (b := q' - q). set (S := p' + p). set (T := q' + q).
  assert (Ha : 0 <= a) by (unfold a; lra).
  assert (Hb : 0 <= b) by (unfold b; lra).
  assert (HT : 0 <= T) by (unfold T; lra).
  assert (HbT : b <= T) by (unfold b, T; lra).
  assert (HTS : T <= S) by (unfold T, S; lra).
  assert (Hprod : a * S = b * T) by (unfold a, b, S, T; nra).
  assert (Hab : a <= b).
  { destruct (Rle_lt_dec a b) as [|Hlt]; auto.
    exfalso.
    assert (HS : 0 < S) by (unfold S, a, b in *; lra).
    assert (H1 : 0 < (a - b) * S) by (apply Rmult_lt_0_compat; lra).
    assert (H2 : 0 <= b * (S - T)) by (apply Rmult_le_pos; lra).
    lra. }
  assert (Hkey : 0 <= (b - a) * (3 * S * T - b * b - a * b - a * a)).
  { apply Rmult_le_pos; [lra|].
    assert (H1 : 0 <= b * (T - b)) by (apply Rmult_le_pos; lra).
    assert (H2 : 0 <= b * (b - a)) by (apply Rmult_le_pos; lra).
    assert (H3 : 0 <= a * (b - a)) by (apply Rmult_le_pos; lra).
    assert (H4 : 0 <= T * (S - T)) by (apply Rmult_le_pos; lra).
    assert (H5 : 0 <= (T - b) * T) by (apply Rmult_le_pos; lra).
    lra. }
  assert (Hexp : 4 * ((p' * p' * p' - p * p * p) - (q' * q' * q' - q * q * q))
                 = a * (3 * S * S + a * a) - b * (3 * T * T + b * b)).
  { unfold a, b, S, T; ring. }
  assert (Hexp2 : a * (3 * S * S + a * a) - b * (3 * T * T + b * b)
                  = (b - a) * (3 * S * T - b * b - a * b - a * a)).
  { replace (a * (3 * S * S + a * a)) with (3 * (a * S) * S + a * a * a) by ring.
    replace (b * (3 * T * T + b * b)) with (3 * (b * T) * T + b * b * b) by ring.
    rewrite Hprod.
    replace ((b - a) * (3 * S * T - b * b - a * b - a * a))
      with (3 * (b * T) * S - 3 * (a * S) * T - (b * b * b - a * a * a)) by ring.
    rewrite Hprod. ring. }
  lra.
Qed.

Lemma code_flow_monotone c d h h' :
  0 <= c -> 0 <= h - d -> 0 <= d -> h <= h' ->
  code_flow c h (h - d) <= code_flow c h' (h' - d).
Proof.
  intros Hc H2 Hd Hh. unfold code_flow.
  assert (Hg : 0 <= sqrt 32.2) by apply sqrt_pos.
  assert (Hk : 0 <= 2 / 3 * sqrt 32.2 * c * 20.0) by nra.
  apply Rmult_le_compat_l; auto.
  pose proof (cube_difference_monotone (sqrt h) (sqrt (h - d)) (sqrt h') (sqrt (h' - d))) as Hcube.
  rewrite !sqrt_sqrt in Hcube by lra.
  apply Hcube; try (apply sqrt_le_1; lra); try lra.
  apply sqrt_pos.
Qed.

Lemma guarded_flow_monotone c d h h' :
  0 <= c -> 0 <= d -> h <= h' -> guarded_flow c d h <= guarded_flow c d h'.
Proof.
  intros Hc Hd Hh. unfold guarded_flow.
  destruct (Rlt_dec (h - d) 0), (Rlt_dec (h' - d) 0); try lra.
  - apply code_flow_nonneg; lra.
  - apply code_flow_monotone; lra.
Qed.

Lemma calculate_flow_guarded d e rating_curve c :
  0 < d ->
  result (get_coefficient_of_discharge d rating_curve) = Returned c ->
  result (calculate_flow d (Num e) rating_curve)
  = Returned (Some (guarded_flow c d (head1 e rating_curve))).
Proof.
  intros Hd Hc. rewrite (calculate_flow_open_gate _ _ _ _ Hd Hc).
  unfold guarded_flow, head2. destruct (Rlt_dec _ 0); reflexivity.
Qed.

(** One pass of the loop of [calculate_total_flow] over a single gate. *)
Lemma flow_loop_one_gate date lake rating_curve gate total :
  result (flow_loop date lake rating_curve [Num gate] total)
  = if Rlt_dec 0 gate then
      match result (calculate_flow gate lake rating_curve) with
      | Returned q => Returned (fadd total q)
      | Raised err => Raised err
      end
    else Returned total.
Proof.
  simpl. destruct (Rlt_dec 0 gate); [|reflexivity].
  unfold bind, print.
  destruct (calculate_flow gate lake rating_curve) as [out [q|err]]; reflexivity.
Qed.

(** C8: at a fixed gate opening, with the coefficient the lookup gives for
    it non-negative, the flow of the gate does not decrease when the lake
    elevation rises: both for [calculate_flow] on an open gate and for the
    amount a gate, open or closed, adds to the total of its row.  The guard
    is part of the function, so the statement spans the elevation at which
    [H2] changes sign. *)
Theorem per_gate_flow_monotone
    (rating_curve : RatingCurve) (date : cell) (d e1 e2 : R) :
  (0 < d -> exists c,
      result (get_coefficient_of_discharge d rating_curve) = Returned c /\ 0 <= c) ->
  e1 <= e2 ->
  (0 < d -> exists q1 q2,
      result (calculate_flow d (Num e1) rating_curve) = Returned (Some q1) /\
      result (calculate_flow d (Num e2) rating_curve) = Returned (Some q2) /\
      q1 <= q2) /\
  (exists t1 t2,
      result (flow_loop date (Num e1) rating_curve [Num d] (Some 0)) = Returned (Some t1) /\
      result (flow_loop date (Num e2) rating_curve [Num d] (Some 0)) = Returned (Some t2) /\
      t1 <= t2).
Proof.
  intros Hlook He.
  assert (Hopen : 0 < d -> exists q1 q2,
      result (calculate_flow d (Num e1) rating_curve) = Returned (Some q1) /\
      result (calculate_flow d (Num e2) rating_curve) = Returned (Some q2) /\
      q1 <= q2).
  { intros Hd. destruct (Hlook Hd) as (c & Hc & Hpos).
    exists (guarded_flow c d (head1 e1 rating_curve)),
           (guarded_flow c d (head1 e2 rating_curve)).
    rewrite !(calculate_flow_guarded _ _ _ _ Hd Hc).
    repeat split. apply guarded_flow_monotone; unfold head1; lra. }
  split; [exact Hopen|].
  rewrite !flow_loop_one_gate.
  destruct (Rlt_dec 0 d) as [Hd|Hd].
  - destruct (Hopen Hd) as (q1 & q2 & -> & -> & Hq).
    exists (0 + q1), (0 + q2); simpl; repeat split; lra.
  - exists 0, 0; repeat split; lra.
Qed.

Lemma per_gate_flow_monotone_witness :
  (0 < 0.5 -> exists c,
      result (get_coefficient_of_discharge 0.5 lawtonka_curve) = Returned c /\ 0 <= c) /\
  1335.00 <= 1337.00 /\
  exists t1 t2,
    result (flow_loop NA (Num 1335.00) lawtonka_curve [Num 0.5] (Some 0)) = Returned (Some t1) /\
    result (flow_loop NA (Num 1337.00) lawtonka_curve [Num 0.5] (Some 0)) = Returned (Some t2) /\
    t1 <= t2.
Proof.
  assert (Hl : 0 < 0.5 -> exists c,
      result (get_coefficient_of_discharge 0.5 lawtonka_curve) = Returned c /\ 0 <= c).
  { intros _. exists 0.62; split; [|lra].
    unfold get_coefficient_of_discharge, lawtonka_curve, d_is; simpl.
    decide_reals; reflexivity. }
  assert (He : 1335.00 <= 1337.00) by lra.
  split; [exact Hl|]. split; [exact He|].
  exact (proj2 (per_gate_flow_monotone lawtonka_curve NA 0.5 1335.00 1337.00 Hl He)).
Defined.

(** ** Rounding on concrete values *)

Lemma rint_near (x : R) (z : Z) :
  IZR z - 1 / 2 < x -> x < IZR z + 1 / 2 -> rint x = z.
Proof.
  intros Hlo Hhi. unfold rint.
  destruct (Rlt_dec x (IZR z)) as [Hlt|Hge].
  - assert (Hup : up x = z).
    { symmetry; apply tech_up; lra. }
    rewrite Hup. rewrite minus_IZR.
    destruct (Rlt_dec _ (1 / 2)); [lra|].
    destruct (Rlt_dec (1 / 2) _); [lia|lra].
  - assert (Hup : up x = (z + 1)%Z).
    { symmetry; apply tech_up; rewrite plus_IZR; lra. }
    rewrite Hup. replace (z + 1 - 1)%Z with z by lia.
    destruct (Rlt_dec _ (1 / 2)); [reflexivity|lra].
Qed.

Lemma round2_near (x : R) (z : Z) :
  IZR z - 1 / 2 < x * 100 -> x * 100 < IZR z + 1 / 2 -> round2 x = IZR z / 100.
Proof. intros; unfold round2; rewrite (rint_near _ z); auto. Qed.

Lemma round2_0 : round2 0 = 0.
Proof. rewrite (round2_near 0 0); lra. Qed.

(** ** Closed gates *)

(** All gates of a row closed: no lookup, whatever the curve. *)
Lemma flow_loop_all_closed date lake rating_curve gates total_flow :
  Forall (fun c => exists g, c = Num g /\ g <= 0) gates ->
  flow_loop date lake rating_curve gates total_flow = ([], Returned total_flow).
Proof.
  induction 1 as [|c gates (g & -> & Hg) _ IH]; simpl; [reflexivity|].
  destruct (Rlt_dec 0 g); [lra|exact IH].
Qed.

(** C9: a gate whose opening is 0 or less adds nothing to the total of its
    row and sets off no lookup: the loop over the gates runs exactly as if
    the gate were not in the row, with the same lines printed and the same
    outcome; and a row whose gates are all closed has total flow 0 on any
    rating curve, with nothing printed, even on a curve where every lookup
    raises. *)
Theorem closed_gate_contributes_nothing
    (date lake_elevation : cell) (rating_curve : RatingCurve)
    (before after : list cell) (gate : R) (total_flow : float) :
  gate <= 0 ->
  flow_loop date lake_elevation rating_curve (before ++ Num gate :: after) total_flow
  = flow_loop date lake_elevation rating_curve (before ++ after) total_flow
  /\
  (forall (L : Layout) (row : Row),
      Forall (fun c => exists g, c = Num g /\ g <= 0) (skipn 2 (cells row)) ->
      calculate_total_flow L row rating_curve = ([], Returned (Some 0))).
Proof.
  intros Hg. split.
  - revert total_flow.
    induction before as [|c before IH]; intros total_flow; simpl.
    + destruct (Rlt_dec 0 gate); [lra|reflexivity].
    + destruct c as [|g| |]; auto.
      destruct (Rlt_dec 0 g); auto.
      rewrite (bind_ext (calculate_flow g lake_elevation rating_curve) _ _
                 (fun q => IH (fadd total_flow q))).
      reflexivity.
  - intros L row Hrow. unfold calculate_total_flow.
    rewrite (flow_loop_all_closed _ _ _ _ _ Hrow).
    simpl. rewrite round2_0. reflexivity.
Qed.

(** ** The time normalizer on the shapes of its docstring *)

(** C5, on the script: the five inputs of the claim.  Four give the text
    the claim states; the three-digit input ["123"] gives ["01:23:00"],
    with the hour padded to two digits, where the claim and the docstring
    of the function (line 86) say ["1:23:00"]. *)
Theorem normalize_time_string_shapes (py_str : cell -> string) :
  normalize_time_string py_str (Str "123") = Str "01:23:00" /\
  normalize_time_string py_str (Str "123") <> Str "1:23:00" /\
  normalize_time_string py_str (Str "1234") = Str "12:34:00" /\
  normalize_time_string py_str (Str "1:24P") = Str "13:24:00" /\
  normalize_time_string py_str (Str "1:24A") = Str "01:24:00" /\
  normalize_time_string py_str (Str "12:34") = Str "12:34:00".
Proof.
  repeat split; try reflexivity.
  vm_compute; discriminate.
Qed.

(** The other shapes the docstring lists. *)
Lemma normalize_time_string_other_shapes (py_str : cell -> string) :
  normalize_time_string py_str (Str "12345") = Str "12:34:5" /\
  normalize_time_string py_str (Str "1:23") = Str "01:23:00" /\
  normalize_time_string py_str (Str " 12:00a ") = Str "00:00:00" /\
  normalize_time_string py_str (Str "12:30p") = Str "12:30:00" /\
  normalize_time_string py_str (Str "08:00:00") = Str "08:00:00" /\
  normalize_time_string py_str NA = NA.
Proof. repeat split; reflexivity. Qed.

(** ** The inches-to-feet conversion *)

(** Where the conversion reaches: the first two cells stay, every later
    cell is converted. *)
Lemma convert_from_2_cells (to_numeric_text : string -> option R) (r : Row) (i : nat) :
  nth_error (cells (convert_from_2 to_numeric_text r)) i
  = if (i <? 2)%nat then nth_error (cells r) i
    else option_map (inches_to_feet to_numeric_text) (nth_error (cells r) i).
Proof.
  unfold convert_from_2; simpl.
  destruct (cells r) as [|c0 [|c1 tl]]; simpl.
  - destruct i as [|[|i]]; simpl; auto.
  - destruct i as [|[|i]]; simpl; auto.
  - destruct i as [|[|i]]; simpl; auto.
    apply nth_error_map.
Qed.

Lemma inches_to_feet_num (to_numeric_text : string -> option R) (x : R) :
  inches_to_feet to_numeric_text (Num x) = Num (round2 (x / 12.0)).
Proof. reflexivity. Qed.

Lemma inches_to_feet_na (to_numeric_text : string -> option R) :
  inches_to_feet to_numeric_text NA = Num (round2 (0 / 12.0)).
Proof. reflexivity. Qed.

(** The lake elevation of a row, when its column is the third or later,
    is divided by 12 and rounded like a gate opening. *)
Lemma lake_elevation_converted
    (to_numeric_text : string -> option R) (L : Layout) (r : Row) (e : R) :
  (2 <= iLake L)%nat ->
  nth_error (cells r) (iLake L) = Some (Num e) ->
  get (convert_from_2 to_numeric_text r) (iLake L) = Num (round2 (e / 12.0)).
Proof.
  intros HL He. unfold get.
  pose proof (convert_from_2_cells to_numeric_text r (iLake L)) as H.
  rewrite He in H. destruct (Nat.ltb_spec (iLake L) 2) as [Hlt|_]; [lia|].
  simpl in H. apply nth_error_nth with (d := NA) in H. exact H.
Qed.

Lemma lookup_lawtonka_exact :
  get_coefficient_of_discharge 0.5 lawtonka_curve = ([], Returned 0.62).
Proof.
  unfold get_coefficient_of_discharge, lawtonka_curve, d_is; simpl.
  decide_reals; reflexivity.
Qed.

Lemma lookup_lawtonka_nearest (q : R) :
  q <> 0.5 ->
  get_coefficient_of_discharge q lawtonka_curve
  = ([ClosestUsed q (Some 0.5)], Returned 0.62).
Proof.
  intros Hq.
  unfold get_coefficient_of_discharge, lawtonka_curve, d_is; simpl.
  destruct (Req_dec_T 0.5 q); [congruence|reflexivity].
Qed.

Lemma calculate_flow_zero_branch d e rating_curve c :
  0 < d -> head2 d e rating_curve < 0 ->
  result (get_coefficient_of_discharge d rating_curve) = Returned c ->
  calculate_flow d (Num e) rating_curve
  = (printed (get_coefficient_of_discharge d rating_curve), Returned (Some 0)).
Proof.
  intros Hd H2 Hc.
  rewrite (bind_eta (calculate_flow _ _ _)), calculate_flow_printed.
  rewrite (calculate_flow_open_gate _ _ _ _ Hd Hc).
  destruct (Rlt_dec _ 0); [reflexivity|contradiction].
Qed.

Lemma flow_loop_open date lake rating_curve gate rest total_flow :
  0 < gate ->
  flow_loop date lake rating_curve (Num gate :: rest) total_flow
  = (print (Calculating date gate lake) ;;;
     q <- calculate_flow gate lake rating_curve ;;
     flow_loop date lake rating_curve rest (fadd total_flow q)).
Proof. intros H; simpl. destruct (Rlt_dec 0 gate); [reflexivity|contradiction]. Qed.

Lemma flow_loop_closed date lake rating_curve gate rest total_flow :
  gate <= 0 ->
  flow_loop date lake rating_curve (Num gate :: rest) total_flow
  = flow_loop date lake rating_curve rest total_flow.
Proof. intros H; simpl. destruct (Rlt_dec 0 gate); [lra|reflexivity]. Qed.

Lemma scenario_row_converted (to_numeric_text : string -> option R) :
  cells (convert_from_2 to_numeric_text scenario_row)
  = [Str "2020-05-01 08:00:00"; Time 28800; Num 111.42; Num 0; Num 0.5; Num 0].
Proof.
  assert (H1 : round2 (1337.00 / 12.0) = 111.42).
  { rewrite (round2_near _ 11142); lra. }
  assert (H2 : round2 (6 / 12.0) = 0.5).
  { rewrite (round2_near _ 50); lra. }
  assert (H3 : round2 (0 / 12.0) = 0).
  { rewrite (round2_near _ 0); lra. }
  unfold convert_from_2; simpl.
  unfold inches_to_feet; simpl.
  rewrite H1, H2, H3. reflexivity.
Qed.

(** C3, at the failing input: the conversion of lines 157-167 covers every
    column from the third on, so with the columns in the order Date, Time,
    Lake Elevation it turns the lake elevation 1337.00 into 111.42; the
    fourth column is converted too, and only the first two are left alone.
    The flow formula then reads 111.42: the loop of [calculate_total_flow]
    takes it both as the lake elevation and as the first gate, and the
    total of the row is 0. *)
Theorem lake_elevation_is_divided_by_12 (to_numeric_text : string -> option R) :
  let row := convert_from_2 to_numeric_text scenario_row in
  cells row
  = [Str "2020-05-01 08:00:00"; Time 28800; Num 111.42; Num 0; Num 0.5; Num 0] /\
  get scenario_row (iLake sheet_layout) = Num 1337.00 /\
  get row (iLake sheet_layout) = Num 111.42 /\
  111.42 <> 1337.00 /\
  calculate_total_flow sheet_layout row lawtonka_curve
  = ([Calculating (Str "2020-05-01 08:00:00") 111.42 (Num 111.42);
      ClosestUsed 111.42 (Some 0.5);
      Calculating (Str "2020-05-01 08:00:00") 0.5 (Num 111.42)],
     Returned (Some 0)).
Proof.
  intros row.
  pose proof (scenario_row_converted to_numeric_text) as Hc. fold row in Hc.
  split; [exact Hc|]. split; [reflexivity|].
  split; [unfold get; rewrite Hc; reflexivity|].
  split; [lra|].
  assert (Hd : spillway_invert_elevation lawtonka_curve = 1335.55) by reflexivity.
  unfold calculate_total_flow, get. rewrite Hc. simpl skipn. simpl nth.
  rewrite flow_loop_open by lra.
  rewrite (calculate_flow_zero_branch 111.42 111.42 lawtonka_curve 0.62);
    [|lra|unfold head2, head1; rewrite Hd; lra
     |rewrite lookup_lawtonka_nearest by lra; reflexivity].
  rewrite lookup_lawtonka_nearest by lra.
  cbv beta iota zeta delta [bind print printed fst].
  rewrite flow_loop_closed by lra.
  rewrite flow_loop_open by lra.
  rewrite (calculate_flow_zero_branch 0.5 111.42 lawtonka_curve 0.62);
    [|lra|unfold head2, head1; rewrite Hd; lra
     |rewrite lookup_lawtonka_exact; reflexivity].
  rewrite lookup_lawtonka_exact.
  cbv beta iota zeta delta [bind print printed fst].
  rewrite flow_loop_closed by lra.
  simpl.
  replace (0 + 0 + 0) with 0 by lra.
  rewrite round2_0. reflexivity.
Qed.

(** ** Cells of a row *)

Lemma nth_set_nth_other (l : list cell) (i j : nat) (v : cell) :
  i <> j -> nth j (set_nth l i v) NA = nth j l NA.
Proof.
  revert i j; induction l as [|c l IH]; intros [|i] [|j] H; simpl; auto; try lia.
Qed.

Lemma nth_set_nth_same (l : list cell) (i : nat) (v : cell) :
  (i < List.length l)%nat -> nth i (set_nth l i v) NA = v.
Proof.
  revert i; induction l as [|c l IH]; intros [|i] H; simpl in *; auto; try lia.
  apply IH; lia.
Qed.

Lemma length_set_nth (l : list cell) (i : nat) (v : cell) :
  List.length (set_nth l i v) = List.length l.
Proof.
  revert i; induction l as [|c l IH]; intros [|i]; simpl; auto.
Qed.

Lemma get_set_other (r : Row) (i j : nat) (v : cell) :
  i <> j -> get (set r i v) j = get r j.
Proof. intros; unfold get, set; simpl; apply nth_set_nth_other; auto. Qed.

Lemma get_set_same (r : Row) (i : nat) (v : cell) :
  (i < List.length (cells r))%nat -> get (set r i v) i = v.
Proof. intros; unfold get, set; simpl; apply nth_set_nth_same; auto. Qed.

Lemma get_present_in_range (r : Row) (i : nat) :
  isna (get r i) = false -> (i < List.length (cells r))%nat.
Proof.
  unfold get; intros H.
  destruct (Nat.lt_ge_cases i (List.length (cells r))) as [|Hge]; auto.
  rewrite nth_overflow in H by lia; discriminate.
Qed.

Lemma get_set_present (r : Row) (i : nat) (v : cell) :
  isna (get (set r i v) i) = false -> get (set r i v) i = v.
Proof.
  intros H. apply get_set_same.
  apply get_present_in_range in H. unfold set in H; simpl in H.
  rewrite length_set_nth in H; exact H.
Qed.

Lemma last_cons (c : cell) (l : list cell) :
  (0 < List.length l)%nat -> last (c :: l) NA = last l NA.
Proof. destruct l; simpl; [lia|reflexivity]. Qed.

Lemma length_remove_nth (l : list cell) (i : nat) :
  (i < List.length l)%nat -> S (List.length (remove_nth l i)) = List.length l.
Proof.
  revert i; induction l as [|c l IH]; intros [|i] H; simpl in *; try lia.
  rewrite IH; lia.
Qed.

Lemma last_remove_nth (l : list cell) (i : nat) :
  (S i < List.length l)%nat -> last (remove_nth l i) NA = last l NA.
Proof.
  revert i; induction l as [|c l IH]; intros i H; simpl in H; [lia|].
  destruct i as [|i].
  - simpl remove_nth. symmetry; apply last_cons; lia.
  - simpl remove_nth.
    pose proof (length_remove_nth l i ltac:(lia)) as Hlen.
    rewrite !last_cons by lia. apply IH; lia.
Qed.

Lemma last_set_nth (l : list cell) (i : nat) (v : cell) :
  (S i < List.length l)%nat -> last (set_nth l i v) NA = last l NA.
Proof.
  revert i; induction l as [|c l IH]; intros i H; simpl in H; [lia|].
  destruct i as [|i].
  - simpl set_nth. rewrite !last_cons by lia. reflexivity.
  - simpl set_nth.
    rewrite !last_cons by (try rewrite length_set_nth; lia).
    apply IH; lia.
Qed.

(** ** The series handed to the store *)

Lemma times_flows_to_dss to_datetime (L : Layout) df pathname :
  Forall (fun r => (iDate L < List.length (cells r))%nat) df ->
  times (flows_to_dss to_datetime L df pathname)
  = map (fun r => to_datetime_cell to_datetime (get r (iDate L))) df.
Proof.
  intros H. unfold flows_to_dss, write_to_dss, set_index_date, map_col; simpl.
  rewrite !map_map; simpl.
  apply map_ext_in. intros r Hr.
  rewrite Forall_forall in H. apply get_set_same; auto.
Qed.

Lemma values_flows_to_dss to_datetime (L : Layout) df pathname :
  Forall (fun r => (S (iDate L) < List.length (cells r))%nat) df ->
  values (flows_to_dss to_datetime L df pathname)
  = map (fun r => last (cells r) NA) df.
Proof.
  intros H. unfold flows_to_dss, write_to_dss, set_index_date, map_col; simpl.
  rewrite !map_map; simpl.
  apply map_ext_in. intros r Hr.
  rewrite Forall_forall in H. specialize (H r Hr).
  rewrite last_remove_nth by (rewrite length_set_nth; exact H).
  apply last_set_nth; exact H.
Qed.

(** C2, as amended: the records handed to the store are the rows of the
    table in the order of the table: the i-th timestamp is the date of the
    i-th row and the i-th value its total flow, one record per row.
    Nothing sorts them, so the sequence is strictly ascending exactly when
    the dates of the rows already are. *)
Theorem flows_to_dss_keeps_row_order
    (to_datetime : cell -> option Z) (L : Layout) (df : DataFrame) (pathname : string) :
  Forall (fun r => (S (iDate L) < List.length (cells r))%nat) df ->
  let tsc := flows_to_dss to_datetime L df pathname in
  times tsc = map (fun r => to_datetime_cell to_datetime (get r (iDate L))) df /\
  values tsc = map (fun r => last (cells r) NA) df /\
  numberValues tsc = List.length df /\
  strictly_ascending (times tsc)
  = strictly_ascending (map (fun r => to_datetime_cell to_datetime (get r (iDate L))) df).
Proof.
  intros H tsc.
  assert (Ht : times tsc = map (fun r => to_datetime_cell to_datetime (get r (iDate L))) df).
  { apply times_flows_to_dss. eapply Forall_impl; [|exact H]. simpl; intros; lia. }
  repeat split.
  - exact Ht.
  - apply values_flows_to_dss; exact H.
  - unfold tsc, flows_to_dss, write_to_dss, set_index_date, map_col; simpl.
    rewrite !length_map; reflexivity.
  - rewrite Ht; reflexivity.
Qed.

Lemma flows_to_dss_keeps_row_order_witness :
  Forall (fun r => (S (iDate sheet_layout) < List.length (cells r))%nat) unordered_frame /\
  times (flows_to_dss iso_to_datetime sheet_layout unordered_frame "//LAWTONKA/RES FLOW-OUT//IR-CENTURY/Obs Gate Ops")
  = map (fun r => to_datetime_cell iso_to_datetime (get r (iDate sheet_layout))) unordered_frame.
Proof.
  assert (H : Forall (fun r => (S (iDate sheet_layout) < List.length (cells r))%nat)
                unordered_frame).
  { repeat constructor; simpl; lia. }
  split; [exact H|].
  exact (proj1 (flows_to_dss_keeps_row_order iso_to_datetime sheet_layout unordered_frame
                  "//LAWTONKA/RES FLOW-OUT//IR-CENTURY/Obs Gate Ops" H)).
Defined.

(** C2, counterexample: the later observation comes first in the table,
    and first in what the store receives. *)
Lemma flows_to_dss_out_of_order :
  let tsc := flows_to_dss iso_to_datetime sheet_layout unordered_frame
               "//LAWTONKA/RES FLOW-OUT//IR-CENTURY/Obs Gate Ops" in
  times tsc = [Time 20200502080000; Time 20200501080000] /\
  values tsc = [Num 0; Num 0] /\
  strictly_ascending (times tsc) = false.
Proof. repeat split; reflexivity. Qed.

(** ** Which rows are kept *)

Section Retention.

Variable py_str : cell -> string.
Variable parser_parse_time : string -> option Z.
Variable to_datetime : cell -> option Z.
Variable L : Layout.

(** The three named columns are three different columns. *)
Hypothesis date_not_time : iDate L <> iTime L.
Hypothesis date_not_lake : iDate L <> iLake L.
Hypothesis time_not_lake : iTime L <> iLake L.

Local Abbreviation valid_time := (has_valid_time py_str parser_parse_time L).
Local Abbreviation lake_present := (has_lake_elevation L).
Local Abbreviation same_obs := (same_observation L).
Local Abbreviation parsed := (parsed_time py_str parser_parse_time L).
Local Abbreviation clean := (cleaned py_str parser_parse_time to_datetime L).

Lemma ffill_date_sound prev df r' :
  In r' (ffill_date L prev df) ->
  exists r, In r df /\ label r' = label r /\
            forall j, j <> iDate L -> get r' j = get r j.
Proof.
  revert prev; induction df as [|r0 df IH]; intros prev; simpl; [tauto|].
  destruct (isna (get r0 (iDate L))); intros [<-|Hin].
  - exists r0; split; [left; reflexivity|]. split; [reflexivity|].
    intros j Hj; apply get_set_other; auto.
  - destruct (IH _ Hin) as (r & Hr & Hl & Hg).
    exists r; split; [right; exact Hr|]. split; assumption.
  - exists r0; split; [left; reflexivity|]. split; reflexivity.
  - destruct (IH _ Hin) as (r & Hr & Hl & Hg).
    exists r; split; [right; exact Hr|]. split; assumption.
Qed.

Lemma ffill_date_complete prev df r :
  In r df ->
  exists r', In r' (ffill_date L prev df) /\ label r' = label r /\
             forall j, j <> iDate L -> get r' j = get r j.
Proof.
  revert prev; induction df as [|r0 df IH]; intros prev; simpl; [tauto|].
  intros [->|Hin].
  - destruct (isna (get r (iDate L))).
    + eexists; split; [left; reflexivity|]. split; [reflexivity|].
      intros j Hj; apply get_set_other; auto.
    + exists r; split; [left; reflexivity|]. split; reflexivity.
  - destruct (isna (get r0 (iDate L))).
    + destruct (IH prev Hin) as (r' & Hr' & Hl & Hg).
      exists r'; split; [right; exact Hr'|]. split; assumption.
    + destruct (IH (get r0 (iDate L)) Hin) as (r' & Hr' & Hl & Hg).
      exists r'; split; [right; exact Hr'|]. split; assumption.
Qed.

Lemma parsed_time_present r :
  isna (get r (iTime L)) = false ->
  isna (parsed r) = false ->
  exists t, parser_parse_time (normalize_text (astype_str py_str (get r (iTime L)))) = Some t.
Proof.
  unfold parsed_time, parse_time, normalize_time_string.
  intros -> H; simpl in H.
  destruct (parser_parse_time _) as [t|]; [eauto|discriminate].
Qed.

Lemma parsed_time_valid r t :
  isna (get r (iTime L)) = false ->
  parser_parse_time (normalize_text (astype_str py_str (get r (iTime L)))) = Some t ->
  parsed r = Time t.
Proof.
  unfold parsed_time, parse_time, normalize_time_string.
  intros -> H; simpl. rewrite H; reflexivity.
Qed.

Lemma cleaned_label r : label (clean r) = label r.
Proof. reflexivity. Qed.

Lemma cleaned_other r j :
  j <> iDate L -> j <> iTime L -> get (clean r) j = get r j.
Proof.
  intros Hd Ht. unfold cleaned.
  rewrite !get_set_other; auto.
Qed.

Lemma cleaned_time r :
  isna (get r (iTime L)) = false -> get (clean r) (iTime L) = parsed r.
Proof.
  intros H. pose proof (get_present_in_range _ _ H) as Hr.
  unfold cleaned, parsed_time.
  rewrite get_set_same by (unfold set; simpl; rewrite !length_set_nth; exact Hr).
  rewrite get_set_same by (unfold set; simpl; rewrite !length_set_nth; exact Hr).
  rewrite get_set_other by auto. reflexivity.
Qed.

Lemma observation_rows_unfold df :
  observation_rows py_str parser_parse_time to_datetime L df
  = merge_date_time py_str L
      (dropna_time_lake L
         (map clean
            (dropna_time_lake L (ffill_date L NA (drop_year_rows py_str L df))))).
Proof.
  unfold observation_rows, map_col. rewrite !map_map. reflexivity.
Qed.

(** On texts of ASCII characters, where lines 62-148 are
    [observation_rows]: a row is among the observations only if its time
    is present and parses and its lake elevation is present, so a row that
    lacks either is dropped, whatever its Date; a row that has both, and
    whose Date is not a bare year, is kept. *)
Theorem retained_rows_have_time_and_lake (df : DataFrame) :
  let out := observation_rows py_str parser_parse_time to_datetime L df in
  (forall r', In r' out ->
     exists r, In r df /\ same_obs r r' /\
               valid_time r /\ lake_present r)
  /\
  (forall l,
     (forall r, In r df -> label r = l -> ~ (valid_time r /\ lake_present r)) ->
     forall r', In r' out -> label r' <> l)
  /\
  (forall r, In r df ->
     is_year_text (astype_str py_str (get r (iDate L))) = false ->
     valid_time r -> lake_present r ->
     exists r', In r' out /\ same_obs r r').
Proof.
  intros out.
  assert (Hsound : forall r', In r' out ->
     exists r, In r df /\ same_obs r r' /\
               valid_time r /\ lake_present r).
  { intros r' Hin. unfold out in Hin. rewrite observation_rows_unfold in Hin.
    unfold merge_date_time in Hin. apply in_map_iff in Hin.
    destruct Hin as (r3 & <- & Hin).
    unfold dropna_time_lake in Hin at 1. apply filter_In in Hin.
    destruct Hin as (Hin & Hp3). apply andb_true_iff in Hp3.
    destruct Hp3 as (Ht3 & Hl3). apply negb_true_iff in Ht3, Hl3.
    apply in_map_iff in Hin. destruct Hin as (rf & <- & Hin).
    unfold dropna_time_lake in Hin. apply filter_In in Hin.
    destruct Hin as (Hin & Hpf). apply andb_true_iff in Hpf.
    destruct Hpf as (Htf & Hlf). apply negb_true_iff in Htf, Hlf.
    apply ffill_date_sound in Hin. destruct Hin as (r & Hin & Hlab & Hget).
    unfold drop_year_rows in Hin. apply filter_In in Hin. destruct Hin as (Hin & _).
    rewrite (cleaned_time rf Htf) in Ht3.
    exists r. split; [exact Hin|]. split; [|split].
    - split; [simpl; rewrite <- Hlab; reflexivity|].
      intros j Hd Ht. rewrite get_set_other by auto.
      rewrite cleaned_other by auto. apply Hget; auto.
    - unfold has_valid_time. rewrite <- (Hget (iTime L)) by auto.
      split; [exact Htf|]. apply parsed_time_present; auto.
    - unfold has_lake_elevation. rewrite <- (Hget (iLake L)) by auto. exact Hlf. }
  split; [exact Hsound|]. split.
  - intros l Hbad r' Hin Hl.
    destruct (Hsound r' Hin) as (r & Hr & (Hlab & _) & Hv & Hle).
    apply (Hbad r Hr); [congruence|auto].
  - intros r Hin Hyear (Ht & t & Hparse) Hlake.
    assert (Hin0 : In r (drop_year_rows py_str L df)).
    { unfold drop_year_rows. apply filter_In. split; auto. rewrite Hyear; reflexivity. }
    destruct (ffill_date_complete NA _ _ Hin0) as (rf & Hrf & Hlab & Hget).
    assert (Htf : isna (get rf (iTime L)) = false) by (rewrite Hget; auto).
    assert (Hlf : isna (get rf (iLake L)) = false) by (rewrite Hget; auto).
    exists (set (clean rf) (iDate L)
              (Str (append (astype_str py_str (get (clean rf) (iDate L)))
                      (append " " (astype_str py_str (get (clean rf) (iTime L))))))).
    split.
    + unfold out. rewrite observation_rows_unfold.
      unfold merge_date_time. apply in_map_iff. eexists; split; [reflexivity|].
      unfold dropna_time_lake at 1. apply filter_In. split.
      * apply in_map. unfold dropna_time_lake. apply filter_In. split; auto.
        rewrite Htf, Hlf; reflexivity.
      * rewrite (cleaned_time rf Htf).
        rewrite cleaned_other by auto. rewrite Hlf.
        assert (Hpt : parsed rf = Time t).
        { apply parsed_time_valid; [exact Htf|]. rewrite Hget by auto. exact Hparse. }
        rewrite Hpt; reflexivity.
    + split; [simpl; exact Hlab|].
      intros j Hd Htj. rewrite get_set_other by auto.
      rewrite cleaned_other by auto. apply Hget; auto.
Qed.

End Retention.

Lemma retained_rows_have_time_and_lake_witness :
  iDate sheet_layout <> iTime sheet_layout /\
  iDate sheet_layout <> iLake sheet_layout /\
  iTime sheet_layout <> iLake sheet_layout /\
  forall r',
    In r' (observation_rows nan_str clock_parse_time iso_to_datetime sheet_layout log_frame) ->
    exists r, In r log_frame /\ same_observation sheet_layout r r' /\
              has_valid_time nan_str clock_parse_time sheet_layout r /\
              has_lake_elevation sheet_layout r.
Proof.
  assert (H1 : iDate sheet_layout <> iTime sheet_layout) by (simpl; lia).
  assert (H2 : iDate sheet_layout <> iLake sheet_layout) by (simpl; lia).
  assert (H3 : iTime sheet_layout <> iLake sheet_layout) by (simpl; lia).
  repeat (split; [assumption|]).
  exact (proj1 (retained_rows_have_time_and_lake nan_str clock_parse_time iso_to_datetime
                  sheet_layout H1 H2 H3 log_frame)).
Defined.

(** On the stretch of log above, the rows kept are the full reading and
    the one in the afternoon; the row that lacks only its time is gone. *)
Lemma observation_rows_log_frame :
  map label (observation_rows nan_str clock_parse_time iso_to_datetime sheet_layout log_frame)
  = [Num 2; Num 4] /\
  map (fun r => get r (iTime sheet_layout))
    (observation_rows nan_str clock_parse_time iso_to_datetime sheet_layout log_frame)
  = [Time 28800; Time 48240].
Proof. split; reflexivity. Qed.

(** With a reading of [str] and of [pd.to_datetime] that print and read
    dates, line 148 gives the two observations their date and time. *)
Lemma observation_rows_log_frame_dates :
  map (fun r => get r (iDate sheet_layout))
    (observation_rows stamp_str clock_parse_time stamp_to_datetime sheet_layout log_frame)
  = [Str "2020-05-01 08:00:00"; Str "2020-05-01 13:24:00"] /\
  map (fun r => stamp_to_datetime (get r (iDate sheet_layout)))
    (observation_rows stamp_str clock_parse_time stamp_to_datetime sheet_layout log_frame)
  = [Some 20200501080000%Z; Some 20200501132400%Z].
Proof. split; reflexivity. Qed.

(** ** Rows that stop the script *)

(** C6: a row that lacks its time is dropped, but dropping it can stop
    the script.  On a Lawtonka log whose only row has a date and a lake
    elevation and no time, lines 62-148 drop the row and raise nothing;
    then no row is left, and line 258, which takes the first date of the
    Lawtonka table, raises IndexError: the script stops before anything is
    written, for Ellsworth too.  This holds whatever the library calls
    return, wherever the Ellsworth columns are and whatever the rating
    tables hold. *)
Theorem row_without_time_stops_the_script
    (py_str : cell -> string) (to_numeric_text : string -> option R)
    (parser_parse_time : string -> option Z)
    (to_datetime_76 to_datetime_77 to_datetime_255 to_datetime_256 : cell -> option Z)
    (normalize_beyond_ascii : string -> outcome string)
    (year_beyond_ascii : string -> bool) (ellsworth_layout : Layout)
    (lawtonka_rating_curve ellsworth_rating_curve : list RatingCurveRow) :
  observations py_str parser_parse_time to_datetime_76 sheet_layout
    normalize_beyond_ascii year_beyond_ascii timeless_frame
  = ret []
  /\
  run_script py_str to_numeric_text parser_parse_time
    to_datetime_76 to_datetime_77 to_datetime_255 to_datetime_256
    normalize_beyond_ascii year_beyond_ascii sheet_layout ellsworth_layout
    timeless_frame [] lawtonka_rating_curve ellsworth_rating_curve
  = ([], Raised IndexError).
Proof. split; reflexivity. Qed.

(** The other way in which one row stops the script: a time that
    [str.isdigit] accepts and [int] rejects.  Line 115 raises, nothing
    catches it at line 124, and no row of either lake is processed. *)
Lemma unreadable_digit_stops_the_script
    (py_str : cell -> string) (to_numeric_text : string -> option R)
    (parser_parse_time : string -> option Z)
    (to_datetime_76 to_datetime_77 to_datetime_255 to_datetime_256 : cell -> option Z)
    (normalize_beyond_ascii : string -> outcome string)
    (year_beyond_ascii : string -> bool) (ellsworth_layout : Layout)
    (ellsworth_gate_data : DataFrame)
    (lawtonka_rating_curve ellsworth_rating_curve : list RatingCurveRow) :
  normalize_beyond_ascii superscript_two_34 = Raised InvalidLiteral ->
  run_script py_str to_numeric_text parser_parse_time
    to_datetime_76 to_datetime_77 to_datetime_255 to_datetime_256
    normalize_beyond_ascii year_beyond_ascii sheet_layout ellsworth_layout
    superscript_frame ellsworth_gate_data lawtonka_rating_curve ellsworth_rating_curve
  = ([], Raised InvalidLiteral).
Proof.
  intros H. unfold run_script.
  assert (Hobs : observations py_str parser_parse_time to_datetime_76 sheet_layout
                   normalize_beyond_ascii year_beyond_ascii superscript_frame
                 = ([], Raised InvalidLiteral)).
  { unfold observations.
    change (drop_years py_str sheet_layout year_beyond_ascii superscript_frame)
      with superscript_frame.
    cbn [superscript_frame ffill_date dropna_time_lake map_col map filter get set
           cells label nth iDate iTime iLake sheet_layout isna negb andb set_nth
           apply_normalize_time_string call_normalize_time_string astype_str].
    change (ascii_text superscript_two_34) with false. cbv iota.
    rewrite H. reflexivity. }
  rewrite Hobs. reflexivity.
Qed.


(** * Further properties of the script *)

(** ** What the lookup returns and raises *)

(** X1: whatever the lookup returns is the [C] of a row of the table whose
    [d] is a number; the only way it raises is the error of [idxmin], with
    nothing printed, and that happens exactly on a table with no number in
    [d]; the ValueError of line 216 is never raised. *)
Theorem lookup_outcomes (q : R) (rating_curve : RatingCurve) :
  let m := get_coefficient_of_discharge q rating_curve in
  (forall c, result m = Returned c ->
             exists r x, In r (table rating_curve) /\ d r = Some x /\ C r = c) /\
  (forall e, result m = Raised e ->
             e = ArgminOfEmpty /\ printed m = [] /\ ~ usable rating_curve) /\
  (usable rating_curve <-> exists c, result m = Returned c).
Proof.
  intros m; subst m.
  destruct (lookup_cases q rating_curve)
    as [(i & r & (Hi & Hd & _) & Hm)|[(i & r & _ & (Hi & x & Hd & _) & Hm)|[Hall Hm]]];
    rewrite Hm; simpl.
  - split; [|split].
    + intros c Hc; injection Hc as <-. exists r, q; eauto using nth_error_In.
    + intros e He; discriminate.
    + split; [eauto|]. intros _. exists r, q; eauto using nth_error_In.
  - split; [|split].
    + intros c Hc; injection Hc as <-. exists r, x; eauto using nth_error_In.
    + intros e He; discriminate.
    + split; [eauto|]. intros _. exists r, x; eauto using nth_error_In.
  - split; [|split].
    + intros c Hc; discriminate.
    + intros e He; injection He as <-. repeat split.
      intros (r & x & Hin & Hd). exact (Hall r x Hin Hd).
    + split.
      * intros (r & x & Hin & Hd). exfalso; exact (Hall r x Hin Hd).
      * intros (c & Hc); discriminate.
Qed.

(** ** The header repair *)

Lemma nth_removelast (l : list cell) (i : nat) :
  (S i < List.length l)%nat -> nth i (removelast l) NA = nth i l NA.
Proof.
  revert i; induction l as [|c l IH]; intros i H; simpl in H; [lia|].
  destruct l as [|c' l]; [simpl in H; lia|].
  change (removelast (c :: c' :: l)) with (c :: removelast (c' :: l)).
  destruct i as [|i]; [reflexivity|].
  simpl nth. apply IH. simpl in *; lia.
Qed.

Lemma length_removelast (l : list cell) :
  List.length (removelast l) = (List.length l - 1)%nat.
Proof.
  induction l as [|c l IH]; [reflexivity|].
  destruct l as [|c' l]; [reflexivity|].
  change (removelast (c :: c' :: l)) with (c :: removelast (c' :: l)).
  simpl in *. rewrite IH. lia.
Qed.

Lemma renamed_length (lo hi : nat) (cols row : list cell) :
  List.length row = List.length cols -> (lo <= hi)%nat ->
  List.length (firstn lo cols ++ firstn (hi - lo) (skipn lo row) ++ skipn hi cols)
  = List.length cols.
Proof.
  intros H Hle. rewrite !length_app, !length_firstn, !length_skipn, H. lia.
Qed.

Lemma renamed_nth (lo hi : nat) (cols row : list cell) (i : nat) :
  List.length row = List.length cols -> (lo <= hi)%nat ->
  nth i (firstn lo cols ++ firstn (hi - lo) (skipn lo row) ++ skipn hi cols) NA
  = if (lo <=? i)%nat && (i <? hi)%nat then nth i row NA else nth i cols NA.
Proof.
  intros Hlen Hle.
  destruct (Nat.lt_ge_cases i (List.length cols)) as [Hi|Hi].
  - destruct (Nat.leb_spec lo i) as [Hlo|Hlo]; simpl.
    + rewrite app_nth2 by (rewrite length_firstn; lia).
      rewrite length_firstn. replace (Nat.min lo (List.length cols)) with lo by lia.
      destruct (Nat.ltb_spec i hi) as [Hhi|Hhi].
      * rewrite app_nth1 by (rewrite length_firstn, length_skipn; lia).
        rewrite nth_firstn. destruct (Nat.ltb_spec (i - lo) (hi - lo)); [|lia].
        rewrite nth_skipn. f_equal; lia.
      * rewrite app_nth2 by (rewrite length_firstn, length_skipn; lia).
        rewrite length_firstn, length_skipn. rewrite nth_skipn. f_equal; lia.
    + rewrite app_nth1 by (rewrite length_firstn; lia).
      rewrite nth_firstn. destruct (Nat.ltb_spec i lo); [reflexivity|lia].
  - rewrite !nth_overflow; try lia.
    + destruct (_ && _); reflexivity.
    + rewrite renamed_length; auto.
Qed.

(** X2: on a sheet with at least one row, where every row has a cell for
    every column, the header repair succeeds for any block [lo..hi]; the
    result has one column and one row less and is rectangular again; each
    label inside the block is the cell of the first row under it, each
    label outside the block is as it was; the remaining rows keep their
    labels and lose only their last cell.  On a sheet with no row the
    repair fails. *)
Theorem repair_header_spec (lo hi : nat) (s : Sheet) (row0 : Row) (rest : DataFrame) :
  rectangular s -> body s = row0 :: rest -> (lo <= hi)%nat ->
  exists s',
    repair_header lo hi s = Some s' /\
    List.length (columns s') = (List.length (columns s) - 1)%nat /\
    rectangular s' /\
    body s' = map (fun r => mkR (label r) (removelast (cells r))) rest /\
    (forall i, (S i < List.length (columns s))%nat ->
               nth i (columns s') NA
               = if (lo <=? i)%nat && (i <? hi)%nat then get row0 i else nth i (columns s) NA) /\
    repair_header lo hi (mkSheet (columns s) []) = None.
Proof.
  intros Hrect Hbody Hle.
  unfold rectangular in Hrect. rewrite Hbody in Hrect.
  pose proof (Forall_inv Hrect) as H0. pose proof (Forall_inv_tail Hrect) as Hrest.
  pose proof (renamed_length lo hi (columns s) (cells row0) H0 Hle) as Hlen.
  unfold repair_header, rename_gate_columns. rewrite Hbody.
  cbv zeta. rewrite Hlen, Nat.eqb_refl.
  eexists; split; [reflexivity|].
  unfold drop_first_row, drop_last_column; simpl.
  repeat split.
  - rewrite length_removelast, Hlen; reflexivity.
  - unfold rectangular; simpl.
    rewrite Forall_map. eapply Forall_impl; [|exact Hrest].
    simpl; intros r Hr. rewrite !length_removelast, Hlen, Hr. reflexivity.
  - intros i Hi. rewrite nth_removelast by (rewrite Hlen; exact Hi).
    apply renamed_nth; auto.
Qed.

(** A Lawtonka sheet cut down to two gates: the block is columns 4 and 5,
    a last column of remarks, the gate numbers in the first row. *)
Lemma repair_header_spec_witness :
  let s := mkSheet [Str "Date"; Str "Time"; Str "Lake Elevation"; Str "Unnamed: 3";
                    Str "Gates"; Str "Unnamed: 5"; Str "Unnamed: 6"]
             [mkR (Num 0) [NA; NA; NA; NA; Num 1; Num 2; NA];
              mkR (Num 1) [Str "2020-05-01"; Str "800"; Num 1337.00; NA; Num 6; NA; Str "ok"]] in
  rectangular s /\ (4 <= 6)%nat /\
  exists s', repair_header 4 6 s = Some s' /\
             List.length (columns s') = (List.length (columns s) - 1)%nat.
Proof.
  intros s.
  assert (Hr : rectangular s) by (repeat constructor).
  assert (Hle : (4 <= 6)%nat) by lia.
  split; [exact Hr|]. split; [exact Hle|].
  destruct (repair_header_spec 4 6 s _ _ Hr eq_refl Hle) as (s' & H1 & H2 & _).
  exists s'; split; assumption.
Defined.

(** ** The forward fill of the dates *)

Lemma isna_true (c : cell) : isna c = true <-> c = NA.
Proof. destruct c; simpl; split; congruence. Qed.

Lemma ffill_date_labels (L : Layout) (prev : cell) (df : DataFrame) :
  map label (ffill_date L prev df) = map label df.
Proof.
  revert prev; induction df as [|r df IH]; intros prev; simpl; [reflexivity|].
  destruct (isna (get r (iDate L))); simpl; rewrite IH; reflexivity.
Qed.

(** Where the date of the row at position [j] comes from, for a fill that
    starts with [prev] in hand. *)
Lemma ffill_date_from (L : Layout) (df : DataFrame) :
  Forall (fun r => (iDate L < List.length (cells r))%nat) df ->
  forall (prev : cell) (j : nat) (r' : Row),
    nth_error (ffill_date L prev df) j = Some r' ->
    exists r, nth_error df j = Some r /\
      (forall i, i <> iDate L -> get r' i = get r i) /\
      ((get r' (iDate L) = prev /\
        forall k rk, (k <= j)%nat -> nth_error df k = Some rk -> get rk (iDate L) = NA)
       \/
       (exists k rk, (k <= j)%nat /\ nth_error df k = Some rk /\
          isna (get rk (iDate L)) = false /\
          get r' (iDate L) = get rk (iDate L) /\
          forall i ri, (k < i <= j)%nat -> nth_error df i = Some ri ->
                       get ri (iDate L) = NA)).
Proof.
  induction 1 as [|r0 df Hr0 _ IH]; intros prev j r' Hj.
  - destruct j; discriminate.
  - simpl in Hj. destruct (isna (get r0 (iDate L))) eqn:Hna.
    + apply isna_true in Hna.
      destruct j as [|j]; simpl in Hj.
      * injection Hj as <-. exists r0. split; [reflexivity|]. split.
        -- intros i Hi. apply get_set_other; auto.
        -- left. split; [apply get_set_same; exact Hr0|].
           intros [|k] rk Hk Hn; [|lia]. simpl in Hn; congruence.
      * destruct (IH prev j r' Hj) as (r & Hr & Hother & Hdate).
        exists r. split; [exact Hr|]. split; [exact Hother|].
        destruct Hdate as [[Hp Hall]|(k & rk & Hk & Hn & Hpres & Heq & Hgap)].
        -- left. split; [exact Hp|].
           intros [|k] rk Hk Hn; simpl in Hn; [congruence|].
           apply (Hall k rk); [lia|exact Hn].
        -- right. exists (S k), rk. repeat split; auto; try lia.
           intros [|i] ri Hi Hni; [lia|]. simpl in Hni.
           apply (Hgap i ri); [lia|exact Hni].
    + destruct j as [|j]; simpl in Hj.
      * injection Hj as <-. exists r0. split; [reflexivity|]. split; [reflexivity|].
        right. exists 0%nat, r0. repeat split; auto.
        intros i ri Hi; lia.
      * destruct (IH (get r0 (iDate L)) j r' Hj) as (r & Hr & Hother & Hdate).
        exists r. split; [exact Hr|]. split; [exact Hother|].
        right.
        destruct Hdate as [[Hp Hall]|(k & rk & Hk & Hn & Hpres & Heq & Hgap)].
        -- exists 0%nat, r0. repeat split; auto; try lia.
           intros [|i] ri Hi Hni; [lia|]. simpl in Hni.
           apply (Hall i ri); [lia|exact Hni].
        -- exists (S k), rk. repeat split; auto; try lia.
           intros [|i] ri Hi Hni; [lia|]. simpl in Hni.
           apply (Hgap i ri); [lia|exact Hni].
Qed.

(** X3: the forward fill of line 67 keeps the rows, their labels and every
    cell but the Date.  The Date of a row is then the nearest Date at or
    above it in the table that is not missing; it stays missing only when
    no row at or above it has a Date. *)
Theorem ffill_date_carries_last_date (L : Layout) (df : DataFrame) :
  Forall (fun r => (iDate L < List.length (cells r))%nat) df ->
  map label (ffill_date L NA df) = map label df /\
  forall (j : nat) (r' : Row),
    nth_error (ffill_date L NA df) j = Some r' ->
    exists r, nth_error df j = Some r /\
      (forall i, i <> iDate L -> get r' i = get r i) /\
      ((get r' (iDate L) = NA /\
        forall k rk, (k <= j)%nat -> nth_error df k = Some rk -> get rk (iDate L) = NA)
       \/
       (exists k rk, (k <= j)%nat /\ nth_error df k = Some rk /\
          isna (get rk (iDate L)) = false /\
          get r' (iDate L) = get rk (iDate L) /\
          forall i ri, (k < i <= j)%nat -> nth_error df i = Some ri ->
                       get ri (iDate L) = NA)).
Proof.
  intros H. split; [apply ffill_date_labels|].
  intros j r' Hj. exact (ffill_date_from L df H NA j r' Hj).
Qed.

Lemma ffill_date_carries_last_date_witness :
  Forall (fun r => (iDate sheet_layout < List.length (cells r))%nat) log_frame /\
  map label (ffill_date sheet_layout NA log_frame) = map label log_frame.
Proof.
  assert (H : Forall (fun r => (iDate sheet_layout < List.length (cells r))%nat) log_frame).
  { repeat constructor; simpl; lia. }
  split; [exact H|].
  exact (proj1 (ffill_date_carries_last_date sheet_layout log_frame H)).
Defined.

(** ** Year dividers, and the order of the rows *)

Lemma get_set_cases (r : Row) (i : nat) (v : cell) :
  get (set r i v) i = v \/ (get (set r i v) i = NA /\ get r i = NA).
Proof.
  destruct (Nat.lt_ge_cases i (List.length (cells r))) as [Hi|Hi].
  - left; apply get_set_same; exact Hi.
  - right; unfold get, set; simpl.
    rewrite !nth_overflow; auto. rewrite length_set_nth; exact Hi.
Qed.

Lemma ffill_date_no_year (py_str : cell -> string) (L : Layout) (df : DataFrame) :
  let plain c := is_year_text (astype_str py_str c) = false in
  Forall (fun r => plain (get r (iDate L))) df ->
  forall prev, plain prev \/ prev = NA ->
  Forall (fun r => plain (get r (iDate L))) (ffill_date L prev df).
Proof.
  intros plain. induction 1 as [|r df Hr _ IH]; intros prev Hprev; simpl.
  - constructor.
  - destruct (isna (get r (iDate L))) eqn:Hna.
    + constructor; [|apply IH; exact Hprev].
      apply isna_true in Hna.
      destruct (get_set_cases r (iDate L) prev) as [->|[-> _]].
      * destruct Hprev as [Hp| ->]; [exact Hp|]. rewrite <- Hna; exact Hr.
      * rewrite <- Hna; exact Hr.
    + constructor; [exact Hr|]. apply IH. left; exact Hr.
Qed.

(** X4: the rows whose Date is a bare four-digit year are taken out before
    the forward fill (lines 63 and 67), so no row receives a bare year as
    its date, and no such row reaches the observations, whatever its Time
    and Lake Elevation. *)
Theorem year_rows_are_dropped
    (py_str : cell -> string) (parser_parse_time : string -> option Z)
    (to_datetime : cell -> option Z) (L : Layout) (df : DataFrame) :
  Forall (fun r => is_year_text (astype_str py_str (get r (iDate L))) = false)
    (ffill_date L NA (drop_year_rows py_str L df)) /\
  forall l,
    (forall r, In r df -> label r = l ->
               is_year_text (astype_str py_str (get r (iDate L))) = true) ->
    forall r', In r' (observation_rows py_str parser_parse_time to_datetime L df) ->
               label r' <> l.
Proof.
  split.
  - apply ffill_date_no_year; [|right; reflexivity].
    unfold drop_year_rows. apply Forall_forall. intros r Hr.
    apply filter_In in Hr. destruct Hr as [_ Hr].
    apply negb_true_iff in Hr. exact Hr.
  - intros l Hyear r' Hin Hl.
    rewrite observation_rows_unfold in Hin.
    unfold merge_date_time in Hin. apply in_map_iff in Hin.
    destruct Hin as (r3 & <- & Hin).
    unfold dropna_time_lake in Hin at 1. apply filter_In in Hin. destruct Hin as (Hin & _).
    apply in_map_iff in Hin. destruct Hin as (rf & <- & Hin).
    unfold dropna_time_lake in Hin. apply filter_In in Hin. destruct Hin as (Hin & _).
    apply (ffill_date_sound py_str parser_parse_time to_datetime) in Hin.
    destruct Hin as (r & Hin & Hlab & _).
    unfold drop_year_rows in Hin. apply filter_In in Hin. destruct Hin as (Hin & Hny).
    simpl in Hl. rewrite Hlab in Hl.
    rewrite (Hyear r Hin Hl) in Hny. discriminate.
Qed.

Lemma subseq_refl {A} (l : list A) : subseq l l.
Proof. induction l; [apply subseq_nil|apply subseq_keep; assumption]. Qed.

Lemma subseq_trans {A} (l1 l2 l3 : list A) :
  subseq l1 l2 -> subseq l2 l3 -> subseq l1 l3.
Proof.
  intros H12 H23; revert l1 H12.
  induction H23 as [|a l2 l3 _ IH|a l2 l3 _ IH]; intros l1 H12.
  - exact H12.
  - apply subseq_skip; auto.
  - inversion H12; subst; [apply subseq_skip|apply subseq_keep]; auto.
Qed.

Lemma subseq_filter_map {A B} (f : A -> B) (p : A -> bool) (l : list A) :
  subseq (map f (filter p l)) (map f l).
Proof.
  induction l as [|a l IH]; simpl; [apply subseq_nil|].
  destruct (p a); simpl; [apply subseq_keep|apply subseq_skip]; exact IH.
Qed.

(** X5: the observations are rows of the table in the order of the table:
    their labels are the labels of the table with some left out, none
    moved, none repeated. *)
Theorem observation_rows_keep_order
    (py_str : cell -> string) (parser_parse_time : string -> option Z)
    (to_datetime : cell -> option Z) (L : Layout) (df : DataFrame) :
  subseq (map label (observation_rows py_str parser_parse_time to_datetime L df))
         (map label df).
Proof.
  rewrite observation_rows_unfold.
  unfold merge_date_time, dropna_time_lake, drop_year_rows.
  rewrite map_map; simpl.
  eapply subseq_trans; [apply (subseq_filter_map label)|].
  rewrite map_map; simpl.
  eapply subseq_trans; [apply (subseq_filter_map label)|].
  rewrite ffill_date_labels.
  apply (subseq_filter_map label).
Qed.

(** ** Rounding *)

Lemma rint_bounds (x : R) : x - 1 / 2 <= IZR (rint x) <= x + 1 / 2.
Proof.
  unfold rint. destruct (archimed x) as [Hup Hlow].
  assert (Hf : IZR (up x - 1) = IZR (up x) - 1) by (rewrite minus_IZR; reflexivity).
  assert (Hf1 : IZR (up x - 1 + 1) = IZR (up x)) by (f_equal; lia).
  destruct (Rlt_dec _ (1 / 2)) as [H1|H1]; [lra|].
  destruct (Rlt_dec (1 / 2) _) as [H2|H2]; [rewrite Hf1; lra|].
  destruct (Z.even _); [lra|rewrite Hf1; lra].
Qed.

Lemma round2_bounds (x : R) : x - 1 / 200 <= round2 x <= x + 1 / 200.
Proof.
  unfold round2. pose proof (rint_bounds (x * 100)). lra.
Qed.

Lemma round2_nonneg (x : R) : 0 <= x -> 0 <= round2 x.
Proof.
  intros Hx. unfold round2. pose proof (rint_bounds (x * 100)) as [Hlo _].
  assert (Hz : (0 <= rint (x * 100))%Z).
  { destruct (Z_lt_le_dec (rint (x * 100)) 0) as [Hneg|]; [|assumption].
    assert (IZR (rint (x * 100)) <= IZR (-1)) by (apply IZR_le; lia).
    lra. }
  apply IZR_le in Hz. lra.
Qed.

Lemma round2_nonpos (x : R) : x <= 0 -> round2 x <= 0.
Proof.
  intros Hx. unfold round2. pose proof (rint_bounds (x * 100)) as [_ Hhi].
  assert (Hz : (rint (x * 100) <= 0)%Z).
  { destruct (Z_lt_le_dec 0 (rint (x * 100))) as [Hpos|]; [|assumption].
    assert (IZR 1 <= IZR (rint (x * 100))) by (apply IZR_le; lia).
    lra. }
  apply IZR_le in Hz. lra.
Qed.

(** ** The inches-to-feet conversion, cell by cell *)

Lemma inches_to_feet_inches (to_numeric_text : string -> option R) (c : cell) :
  inches_to_feet to_numeric_text c = Num (round2 (inches to_numeric_text c / 12.0)).
Proof.
  unfold inches_to_feet, inches.
  destruct (to_numeric to_numeric_text (strip_quotes (fillna0 c))) as [|x|s|t] eqn:H;
    simpl; try reflexivity.
  - destruct (strip_quotes (fillna0 c)) as [| |s'|]; simpl in H; try discriminate.
    destruct (to_numeric_text s'); discriminate.
  - destruct (strip_quotes (fillna0 c)) as [| |s'|]; simpl in H; try discriminate.
    destruct (to_numeric_text s'); discriminate.
Qed.

(** X6: whatever a cell of the converted columns holds, lines 157-167
    leave a number in it: a whole number of hundredths of a foot, within
    0.005 ft of the inches read divided by 12, where a missing cell, a text
    that is no number and a time read as 0 inches.  A reading of 0 or less
    gives 0 or less, which the flow loop takes as a closed gate; the sign
    is not changed and nothing is clamped. *)
Theorem inches_to_feet_rounds (to_numeric_text : string -> option R) (c : cell) :
  exists z : Z,
    inches_to_feet to_numeric_text c = Num (IZR z / 100) /\
    inches to_numeric_text c / 12 - 1 / 200 <= IZR z / 100
      <= inches to_numeric_text c / 12 + 1 / 200 /\
    (0 <= inches to_numeric_text c -> 0 <= IZR z / 100) /\
    (inches to_numeric_text c <= 0 ->
     IZR z / 100 <= 0 /\ is_open (inches_to_feet to_numeric_text c) = false) /\
    inches to_numeric_text NA = 0 /\
    (forall s, to_numeric_text (remove_quotes s) = None ->
               inches to_numeric_text (Str s) = 0) /\
    (forall t, inches to_numeric_text (Time t) = 0).
Proof.
  exists (rint (inches to_numeric_text c / 12.0 * 100)).
  rewrite inches_to_feet_inches. fold (round2 (inches to_numeric_text c / 12.0)).
  pose proof (round2_bounds (inches to_numeric_text c / 12.0)) as Hb.
  split; [reflexivity|]. split; [lra|]. split; [|split; [|split; [|split]]].
  - intros H. apply round2_nonneg. lra.
  - intros H.
    assert (Hle : round2 (inches to_numeric_text c / 12.0) <= 0)
      by (apply round2_nonpos; lra).
    split; [exact Hle|].
    unfold is_open. destruct (Rlt_dec 0 _); [lra|reflexivity].
  - reflexivity.
  - intros s Hs. unfold inches; simpl. rewrite Hs. reflexivity.
  - reflexivity.
Qed.

(** ** The total flow of a row *)

Lemma result_bind {A B} (m : M A) (k : A -> M B) (a : A) :
  result m = Returned a -> result (bind m k) = result (k a).
Proof.
  destruct m as [out r]; simpl; intros ->.
  unfold bind; destruct (k a); reflexivity.
Qed.

Lemma result_bind_raise {A B} (m : M A) (k : A -> M B) (e : error) :
  result m = Raised e -> result (bind m k) = Raised e.
Proof. destruct m as [out r]; simpl; intros ->; reflexivity. Qed.

Lemma result_flow_loop_open date lake rating_curve gate rest total_flow q :
  0 < gate ->
  result (calculate_flow gate lake rating_curve) = Returned q ->
  result (flow_loop date lake rating_curve (Num gate :: rest) total_flow)
  = result (flow_loop date lake rating_curve rest (fadd total_flow q)).
Proof.
  intros Hg Hq. rewrite flow_loop_open by exact Hg.
  rewrite (result_bind _ _ tt) by reflexivity.
  rewrite (result_bind _ _ q) by exact Hq. reflexivity.
Qed.

Lemma datum_at_least (rating_curve : RatingCurve) :
  1225 <= spillway_invert_elevation rating_curve.
Proof. unfold spillway_invert_elevation. destruct (contains _ _); lra. Qed.

Lemma guarded_flow_nonneg c g h : 0 <= c -> 0 < g -> 0 <= guarded_flow c g h.
Proof.
  intros Hc Hg. unfold guarded_flow.
  destruct (Rlt_dec (h - g) 0); [lra|]. apply code_flow_nonneg; lra.
Qed.

Lemma lookup_in_table q rating_curve c :
  result (get_coefficient_of_discharge q rating_curve) = Returned c ->
  exists r, In r (table rating_curve) /\ C r = c.
Proof.
  intros H. destruct (lookup_cases q rating_curve)
    as [(i & r & (Hi & _) & Hm)|[(i & r & _ & (Hi & _) & Hm)|[_ Hm]]];
    rewrite Hm in H; simpl in H; try discriminate;
    injection H as <-; exists r; eauto using nth_error_In.
Qed.

(** The loop over gates that hold numbers, at a lake elevation that is a
    number, on a curve the lookup can answer from. *)
Lemma flow_loop_returns date e rating_curve gates :
  usable rating_curve -> Forall numeric gates ->
  forall t, exists q,
    result (flow_loop date (Num e) rating_curve gates (Some t)) = Returned (Some q) /\
    (Forall (fun r => 0 <= C r) (table rating_curve) -> t <= q) /\
    (head1 e rating_curve < 0 -> q = t).
Proof.
  intros Hu. induction 1 as [|c gates Hc _ IH]; intros t.
  - exists t; simpl; repeat split; auto; lra.
  - destruct c as [|g| |]; try contradiction.
    + destruct (IH t) as (q & Hq & Hle & Hz). exists q; auto.
    + destruct (Rlt_dec 0 g) as [Hg|Hg].
      * destruct (lookup_returns g _ Hu) as [c Hlook].
        pose proof (calculate_flow_guarded g e rating_curve c Hg Hlook) as Hcf.
        destruct (IH (t + guarded_flow c g (head1 e rating_curve))) as (q & Hq & Hle & Hz).
        exists q. rewrite (result_flow_loop_open _ _ _ _ _ _ _ Hg Hcf). simpl.
        split; [exact Hq|]. split.
        -- intros Hpos. specialize (Hle Hpos).
           destruct (lookup_in_table _ _ _ Hlook) as (r & Hr & <-).
           rewrite Forall_forall in Hpos.
           pose proof (guarded_flow_nonneg (C r) g (head1 e rating_curve) (Hpos r Hr) Hg).
           lra.
        -- intros Hneg. rewrite (Hz Hneg).
           unfold guarded_flow. destruct (Rlt_dec _ 0); lra.
      * rewrite flow_loop_closed by lra.
        destruct (IH t) as (q & Hq & Hle & Hz). exists q; auto.
Qed.

(** A row with an open gate, a closed one and another open one, on a
    curve that answers both lookups: the loop passes the closed gate and
    returns. *)
Lemma closed_gate_contributes_nothing_witness :
  0 <= 0 /\
  flow_loop NA (Num 1337.00) lawtonka_curve ([Num 0.5] ++ Num 0 :: [Num 0.25]) (Some 0)
  = flow_loop NA (Num 1337.00) lawtonka_curve ([Num 0.5] ++ [Num 0.25]) (Some 0) /\
  exists q,
    result (flow_loop NA (Num 1337.00) lawtonka_curve
              ([Num 0.5] ++ Num 0 :: [Num 0.25]) (Some 0))
    = Returned (Some q).
Proof.
  assert (H : 0 <= 0) by lra.
  split; [exact H|]. split.
  - exact (proj1 (closed_gate_contributes_nothing NA (Num 1337.00) lawtonka_curve
                    [Num 0.5] [Num 0.25] 0 (Some 0) H)).
  - assert (Hnum : Forall numeric ([Num 0.5] ++ Num 0 :: [Num 0.25]))
      by (repeat constructor).
    destruct (flow_loop_returns NA 1337.00 lawtonka_curve _ lawtonka_curve_usable Hnum 0)
      as (q & Hq & _).
    exists q. exact Hq.
Defined.

(** The same loop when the lake elevation is missing. *)
Lemma flow_loop_missing_elevation date rating_curve gates :
  usable rating_curve -> Forall numeric gates ->
  forall total,
    result (flow_loop date NA rating_curve gates total)
    = Returned (if existsb is_open gates then None else total).
Proof.
  intros Hu. induction 1 as [|c gates Hc _ IH]; intros total.
  - reflexivity.
  - destruct c as [|g| |]; try contradiction.
    + simpl. apply IH.
    + unfold is_open at 1. simpl existsb.
      destruct (Rlt_dec 0 g) as [Hg|Hg].
      * destruct (lookup_returns g _ Hu) as [c Hlook].
        assert (Hcf : result (calculate_flow g NA rating_curve) = Returned None).
        { unfold calculate_flow. rewrite (result_bind _ _ c) by exact Hlook. reflexivity. }
        rewrite (result_flow_loop_open _ _ _ _ _ _ _ Hg Hcf).
        rewrite IH. simpl.
        destruct total; simpl; destruct (existsb is_open gates); reflexivity.
      * rewrite flow_loop_closed by lra. simpl. apply IH.
Qed.

(** The total flow of a row of numbers. *)
Lemma total_flow_of_numeric_row
    (L : Layout) (row : Row) (rating_curve : RatingCurve) (e : R) :
  usable rating_curve ->
  get row (iLake L) = Num e ->
  Forall numeric (skipn 2 (cells row)) ->
  exists q,
    result (calculate_total_flow L row rating_curve) = Returned (Some q) /\
    (Forall (fun r => 0 <= C r) (table rating_curve) -> 0 <= q) /\
    (head1 e rating_curve < 0 -> q = 0).
Proof.
  intros Hu He Hnum. unfold calculate_total_flow. rewrite He.
  destruct (flow_loop_returns (get row (iDate L)) e rating_curve _ Hu Hnum 0)
    as (q & Hq & Hle & Hz).
  exists (round2 q). rewrite (result_bind _ _ (Some q)) by exact Hq.
  split; [reflexivity|]. split.
  - intros Hpos. apply round2_nonneg. auto.
  - intros Hneg. rewrite (Hz Hneg). apply round2_0.
Qed.

(** X7: on a rating curve with a number in [d], a row whose lake
    elevation is a number and whose cells from the third on hold numbers
    or nothing gets a total flow: the computation does not raise.  With
    no negative coefficient in the table the total is not negative; and
    when the lake stands below the spillway invert the total is 0. *)
Theorem calculate_total_flow_returns
    (L : Layout) (row : Row) (rating_curve : RatingCurve) (e : R) :
  usable rating_curve ->
  get row (iLake L) = Num e ->
  Forall numeric (skipn 2 (cells row)) ->
  exists q,
    result (calculate_total_flow L row rating_curve) = Returned (Some q) /\
    (Forall (fun r => 0 <= C r) (table rating_curve) -> 0 <= q) /\
    (head1 e rating_curve < 0 -> q = 0).
Proof. exact (total_flow_of_numeric_row L row rating_curve e). Qed.

Lemma calculate_total_flow_returns_witness :
  usable lawtonka_curve /\
  get scenario_row (iLake sheet_layout) = Num 1337.00 /\
  Forall numeric (skipn 2 (cells scenario_row)) /\
  exists q,
    result (calculate_total_flow sheet_layout scenario_row lawtonka_curve)
    = Returned (Some q) /\
    (Forall (fun r => 0 <= C r) (table lawtonka_curve) -> 0 <= q) /\
    (head1 1337.00 lawtonka_curve < 0 -> q = 0).
Proof.
  assert (H1 : get scenario_row (iLake sheet_layout) = Num 1337.00) by reflexivity.
  assert (H2 : Forall numeric (skipn 2 (cells scenario_row))).
  { simpl. repeat constructor. }
  split; [exact lawtonka_curve_usable|]. split; [exact H1|]. split; [exact H2|].
  exact (calculate_total_flow_returns sheet_layout scenario_row lawtonka_curve 1337.00
           lawtonka_curve_usable H1 H2).
Defined.

(** The total flow of a row with no lake elevation. *)
Lemma total_flow_without_elevation
    (L : Layout) (row : Row) (rating_curve : RatingCurve) :
  usable rating_curve ->
  get row (iLake L) = NA ->
  Forall numeric (skipn 2 (cells row)) ->
  result (calculate_total_flow L row rating_curve)
  = Returned (if existsb is_open (skipn 2 (cells row)) then None else Some 0).
Proof.
  intros Hu He Hnum. unfold calculate_total_flow. rewrite He.
  pose proof (flow_loop_missing_elevation (get row (iDate L)) rating_curve _ Hu Hnum (Some 0))
    as Hloop.
  rewrite (result_bind _ _ _ Hloop). simpl.
  destruct (existsb is_open _); simpl; [reflexivity|].
  rewrite round2_0; reflexivity.
Qed.

(** X8: a row whose lake elevation is missing (line 195 turns what is no
    number into NaN, and nothing drops the row afterwards) is not skipped
    and does not raise: its total flow is NaN as soon as one gate is open,
    and 0 when all gates are closed. *)
Theorem missing_elevation_gives_nan
    (L : Layout) (row : Row) (rating_curve : RatingCurve) :
  usable rating_curve ->
  get row (iLake L) = NA ->
  Forall numeric (skipn 2 (cells row)) ->
  result (calculate_total_flow L row rating_curve)
  = Returned (if existsb is_open (skipn 2 (cells row)) then None else Some 0).
Proof. exact (total_flow_without_elevation L row rating_curve). Qed.

(** A row in the column order Date, Lake Elevation, Time, after the
    conversion: the elevation was no number, one gate is open. *)
Lemma missing_elevation_gives_nan_witness :
  let row := mkR (Num 7) [Str "2020-05-01 08:00:00"; NA; Num 0; Num 0; Num 0.5] in
  usable lawtonka_curve /\
  get row (iLake (mkLayout 0 2 1)) = NA /\
  Forall numeric (skipn 2 (cells row)) /\
  result (calculate_total_flow (mkLayout 0 2 1) row lawtonka_curve) = Returned None.
Proof.
  intros row.
  assert (H1 : get row (iLake (mkLayout 0 2 1)) = NA) by reflexivity.
  assert (H2 : Forall numeric (skipn 2 (cells row))).
  { simpl. repeat constructor. }
  split; [exact lawtonka_curve_usable|]. split; [exact H1|]. split; [exact H2|].
  pose proof (missing_elevation_gives_nan (mkLayout 0 2 1) row lawtonka_curve
                lawtonka_curve_usable H1 H2) as H.
  rewrite H. simpl. unfold is_open.
  destruct (Rlt_dec 0 0); [lra|]. destruct (Rlt_dec 0 0.5); [reflexivity|lra].
Defined.

(** ** The flow column *)

(** How line 244 ends, row by row. *)
Lemma add_total_flow_cases (L : Layout) (rating_curve : RatingCurve) (df : DataFrame) :
  (forall df', result (add_total_flow L df rating_curve) = Returned df' ->
     Forall2 (fun r r' =>
                exists q, result (calculate_total_flow L r rating_curve) = Returned q /\
                          r' = mkR (label r) (cells r ++ [float_cell q])) df df') /\
  (forall e, result (add_total_flow L df rating_curve) = Raised e ->
     exists before r after,
       df = before ++ r :: after /\
       result (calculate_total_flow L r rating_curve) = Raised e /\
       Forall (fun r => exists q, result (calculate_total_flow L r rating_curve) = Returned q)
         before) /\
  (Forall (fun r => exists q, result (calculate_total_flow L r rating_curve) = Returned q) df ->
   exists df', result (add_total_flow L df rating_curve) = Returned df').
Proof.
  induction df as [|r df (IHret & IHraise & IHall)]; simpl.
  - repeat split.
    + intros df' H; injection H as <-; constructor.
    + intros e H; discriminate.
    + intros _; eexists; reflexivity.
  - destruct (result (calculate_total_flow L r rating_curve)) as [q|err] eqn:Hq.
    + rewrite (result_bind _ _ q) by exact Hq.
      destruct (result (add_total_flow L df rating_curve)) as [tl'|err] eqn:Htl.
      * rewrite (result_bind _ _ tl') by exact Htl. simpl.
        repeat split.
        -- intros df' H; injection H as <-.
           constructor; [exists q; auto|]. apply IHret; reflexivity.
        -- intros e H; discriminate.
        -- intros _; eexists; reflexivity.
      * rewrite (result_bind_raise _ _ err) by exact Htl.
        repeat split.
        -- intros df' H; discriminate.
        -- intros e H; injection H as <-.
           destruct (IHraise err eq_refl) as (before & r' & after & -> & Hr' & Hbefore).
           exists (r :: before), r', after. repeat split; auto.
           constructor; [exists q; exact Hq|exact Hbefore].
        -- intros Hall. apply Forall_inv_tail in Hall.
           destruct (IHall Hall) as [df' Hdf']; discriminate.
    + rewrite (result_bind_raise _ _ err) by exact Hq.
      repeat split.
      * intros df' H; discriminate.
      * intros e H; injection H as <-.
        exists [], r, df. repeat split; auto.
      * intros Hall. apply Forall_inv in Hall. destruct Hall as [q Hq']; congruence.
Qed.

(** X9: line 244 goes through the rows in order.  When it returns, every
    row has kept its label and its cells and has got one more cell at its
    end, the total flow that [calculate_total_flow] returns for it.  When
    it raises, the error is the one [calculate_total_flow] raises on some
    row, and every row above that one has a total flow. *)
Theorem add_total_flow_spec (L : Layout) (rating_curve : RatingCurve) (df : DataFrame) :
  (forall df', result (add_total_flow L df rating_curve) = Returned df' ->
     Forall2 (fun r r' =>
                exists q, result (calculate_total_flow L r rating_curve) = Returned q /\
                          r' = mkR (label r) (cells r ++ [float_cell q])) df df') /\
  (forall e, result (add_total_flow L df rating_curve) = Raised e ->
     exists before r after,
       df = before ++ r :: after /\
       result (calculate_total_flow L r rating_curve) = Raised e /\
       Forall (fun r => exists q, result (calculate_total_flow L r rating_curve) = Returned q)
         before) /\
  (Forall (fun r => exists q, result (calculate_total_flow L r rating_curve) = Returned q) df ->
   exists df', result (add_total_flow L df rating_curve) = Returned df').
Proof. exact (add_total_flow_cases L rating_curve df). Qed.

(** ** From the table to the series *)

Lemma inches_to_feet_numeric (to_numeric_text : string -> option R) (c : cell) :
  numeric (inches_to_feet to_numeric_text c).
Proof. rewrite inches_to_feet_inches; exact I. Qed.

Lemma to_numeric_numeric (to_numeric_text : string -> option R) (c : cell) :
  numeric (to_numeric to_numeric_text c).
Proof.
  destruct c as [|x|s|t]; simpl; auto. destruct (to_numeric_text s); exact I.
Qed.

Lemma skipn_set_nth_numeric (l : list cell) (n i : nat) (v : cell) :
  numeric v -> Forall numeric (skipn n l) -> Forall numeric (skipn n (set_nth l i v)).
Proof.
  intros Hv. revert n i; induction l as [|c l IH]; intros n i H.
  - destruct n, i; simpl; constructor.
  - destruct n as [|n], i as [|i]; simpl in *.
    + constructor; [exact Hv|]. exact (Forall_inv_tail H).
    + constructor; [exact (Forall_inv H)|].
      apply (IH 0%nat i). exact (Forall_inv_tail H).
    + exact H.
    + apply IH; exact H.
Qed.

Lemma converted_tail_numeric (to_numeric_text : string -> option R) (r : Row) :
  Forall numeric (skipn 2 (cells (convert_from_2 to_numeric_text r))).
Proof.
  unfold convert_from_2; simpl.
  destruct (cells r) as [|c0 [|c1 tl]]; simpl; try constructor.
  apply Forall_forall. intros c Hc. apply in_map_iff in Hc.
  destruct Hc as (c' & <- & _). apply inches_to_feet_numeric.
Qed.

(** A row as line 244 finds it: the columns from the third on converted,
    the lake elevation made a number or NaN. *)
Lemma prepared_row (to_numeric_text : string -> option R) (L : Layout) (r : Row) :
  let r' := set (convert_from_2 to_numeric_text r) (iLake L)
              (to_numeric to_numeric_text
                 (get (convert_from_2 to_numeric_text r) (iLake L))) in
  numeric (get r' (iLake L)) /\ Forall numeric (skipn 2 (cells r')).
Proof.
  intros r'. split.
  - unfold r'. destruct (get_set_cases (convert_from_2 to_numeric_text r) (iLake L)
                           (to_numeric to_numeric_text
                              (get (convert_from_2 to_numeric_text r) (iLake L))))
      as [->|[-> _]]; [apply to_numeric_numeric|exact I].
  - unfold r', set; simpl cells.
    apply skipn_set_nth_numeric; [apply to_numeric_numeric|].
    apply converted_tail_numeric.
Qed.

Lemma calculate_total_flow_defined (L : Layout) (row : Row) (rating_curve : RatingCurve) :
  usable rating_curve ->
  numeric (get row (iLake L)) -> Forall numeric (skipn 2 (cells row)) ->
  exists q, result (calculate_total_flow L row rating_curve) = Returned q.
Proof.
  intros Hu Hlake Hnum.
  destruct (get row (iLake L)) as [|e| |] eqn:He; try contradiction.
  - rewrite (total_flow_without_elevation L row rating_curve Hu He Hnum); eauto.
  - destruct (total_flow_of_numeric_row L row rating_curve e Hu He Hnum) as (q & Hq & _).
    eauto.
Qed.

(** The flow column of a prepared table, on a usable curve. *)
Lemma add_total_flow_prepared
    (to_numeric_text : string -> option R) (L : Layout) (df : DataFrame)
    (rating_curve : RatingCurve) :
  usable rating_curve ->
  exists df',
    result (add_total_flow L (prepared to_numeric_text L df) rating_curve) = Returned df' /\
    List.length df' = List.length df.
Proof.
  intros Hu.
  set (rows := prepared to_numeric_text L df).
  assert (Hlen : List.length rows = List.length df).
  { unfold rows, prepared, lake_elevation_to_numeric, gate_columns_to_feet, map_col.
    rewrite !length_map. reflexivity. }
  assert (Hall : Forall (fun r => exists q,
                           result (calculate_total_flow L r rating_curve) = Returned q) rows).
  { unfold rows, prepared, lake_elevation_to_numeric, gate_columns_to_feet, map_col.
    rewrite map_map. apply Forall_forall. intros r Hr.
    apply in_map_iff in Hr. destruct Hr as (r0 & <- & _).
    destruct (prepared_row to_numeric_text L r0) as [H1 H2].
    apply calculate_total_flow_defined; assumption. }
  destruct (add_total_flow_cases L rating_curve rows) as (Hret & _ & Hdef).
  destruct (Hdef Hall) as [df' Hdf'].
  pose proof (Forall2_length (Hret df' Hdf')) as Hlen'.
  exists df'. split; [exact Hdf'|congruence].
Qed.

Lemma bind_ret_l {A B} (a : A) (k : A -> M B) : bind (ret a) k = k a.
Proof. unfold bind, ret. destruct (k a); reflexivity. Qed.

Lemma call_normalize_on_ascii
    (py_str : cell -> string) (normalize_beyond_ascii : string -> outcome string)
    (c : cell) :
  isna c = true \/ ascii_text (astype_str py_str c) = true ->
  call_normalize_time_string py_str normalize_beyond_ascii c
  = ret (normalize_time_string py_str c).
Proof.
  unfold call_normalize_time_string, normalize_time_string. intros [H|H].
  - rewrite H. reflexivity.
  - destruct (isna c); [reflexivity|]. rewrite H. reflexivity.
Qed.

Lemma apply_normalize_on_ascii
    (py_str : cell -> string) (L : Layout)
    (normalize_beyond_ascii : string -> outcome string) (df : DataFrame) :
  Forall (fun r => isna (get r (iTime L)) = true \/
                   ascii_text (astype_str py_str (get r (iTime L))) = true) df ->
  apply_normalize_time_string py_str L normalize_beyond_ascii df
  = ret (map_col (iTime L) (normalize_time_string py_str) df).
Proof.
  induction 1 as [|r df Hr _ IH]; [reflexivity|].
  cbn [apply_normalize_time_string].
  rewrite (call_normalize_on_ascii _ _ _ Hr), bind_ret_l, IH, bind_ret_l.
  reflexivity.
Qed.

(** On a table of ASCII texts lines 62-148 raise nothing, and what they
    leave is [observation_rows]. *)
Lemma observations_on_ascii_texts
    (py_str : cell -> string) (parser_parse_time : string -> option Z)
    (to_datetime : cell -> option Z) (L : Layout)
    (normalize_beyond_ascii : string -> outcome string)
    (year_beyond_ascii : string -> bool) (df : DataFrame) :
  iDate L <> iTime L ->
  ascii_texts py_str L df ->
  observations py_str parser_parse_time to_datetime L
    normalize_beyond_ascii year_beyond_ascii df
  = ret (observation_rows py_str parser_parse_time to_datetime L df).
Proof.
  intros Hdt Hascii. unfold ascii_texts in Hascii. rewrite Forall_forall in Hascii.
  unfold observations, observation_rows.
  assert (Hy : drop_years py_str L year_beyond_ascii df = drop_year_rows py_str L df).
  { unfold drop_years, drop_year_rows. apply filter_ext_in. intros r Hr.
    destruct (Hascii r Hr) as [Hd _]. unfold is_year. rewrite Hd. reflexivity. }
  rewrite Hy. rewrite apply_normalize_on_ascii.
  - rewrite bind_ret_l. reflexivity.
  - apply Forall_forall. intros r Hr.
    unfold map_col in Hr. apply in_map_iff in Hr. destruct Hr as (rf & <- & Hin).
    rewrite get_set_other by exact Hdt.
    unfold dropna_time_lake in Hin. apply filter_In in Hin. destruct Hin as [Hin _].
    apply (ffill_date_sound py_str parser_parse_time to_datetime) in Hin.
    destruct Hin as (r0 & Hr0 & _ & Hget).
    rewrite Hget by (intros E; apply Hdt; symmetry; exact E).
    unfold drop_year_rows in Hr0. apply filter_In in Hr0.
    exact (proj2 (Hascii r0 (proj1 Hr0))).
Qed.

(** X10: on logs whose dates and times are ASCII texts and rating tables
    that each have a number in [d], the script from line 62 on stops in
    one case only: no Lawtonka row is an observation, and line 258 raises
    IndexError.  In every other case it reaches both calls of
    [write_to_dss], and each series has its pathname, one time and one
    value for each observation row of its lake, and a [numberValues] that
    says so; an Ellsworth log with no observation gives an empty series. *)
Theorem run_script_stops_only_at_first_date
    (py_str : cell -> string) (to_numeric_text : string -> option R)
    (parser_parse_time : string -> option Z)
    (to_datetime_76 to_datetime_77 to_datetime_255 to_datetime_256 : cell -> option Z)
    (normalize_beyond_ascii : string -> outcome string)
    (year_beyond_ascii : string -> bool) (lawtonka_layout ellsworth_layout : Layout)
    (lawtonka_gate_data ellsworth_gate_data : DataFrame)
    (lawtonka_rating_curve ellsworth_rating_curve : list RatingCurveRow) :
  iDate lawtonka_layout <> iTime lawtonka_layout ->
  iDate ellsworth_layout <> iTime ellsworth_layout ->
  ascii_texts py_str lawtonka_layout lawtonka_gate_data ->
  ascii_texts py_str ellsworth_layout ellsworth_gate_data ->
  usable (mkCurve "Lawtonka" lawtonka_rating_curve) ->
  usable (mkCurve "Ellsworth" ellsworth_rating_curve) ->
  let lawtonka :=
    observation_rows py_str parser_parse_time to_datetime_76 lawtonka_layout
      lawtonka_gate_data in
  let ellsworth :=
    observation_rows py_str parser_parse_time to_datetime_77 ellsworth_layout
      ellsworth_gate_data in
  let run :=
    run_script py_str to_numeric_text parser_parse_time
      to_datetime_76 to_datetime_77 to_datetime_255 to_datetime_256
      normalize_beyond_ascii year_beyond_ascii lawtonka_layout ellsworth_layout
      lawtonka_gate_data ellsworth_gate_data lawtonka_rating_curve ellsworth_rating_curve in
  (lawtonka = [] -> result run = Raised IndexError)
  /\
  (lawtonka <> [] ->
   exists tsc1 tsc2,
     result run = Returned (tsc1, tsc2) /\
     (pathname tsc1 = lawtonka_pathname /\
      numberValues tsc1 = List.length lawtonka /\
      List.length (times tsc1) = List.length lawtonka /\
      List.length (values tsc1) = List.length lawtonka) /\
     (pathname tsc2 = ellsworth_pathname /\
      numberValues tsc2 = List.length ellsworth /\
      List.length (times tsc2) = List.length ellsworth /\
      List.length (values tsc2) = List.length ellsworth)).
Proof.
  intros Hdt1 Hdt2 Ha1 Ha2 Hu1 Hu2 lawtonka ellsworth run.
  unfold run, run_script.
  rewrite (observations_on_ascii_texts _ _ _ _ _ _ _ Hdt1 Ha1), bind_ret_l.
  rewrite (observations_on_ascii_texts _ _ _ _ _ _ _ Hdt2 Ha2), bind_ret_l.
  fold lawtonka ellsworth. cbv zeta.
  destruct (add_total_flow_prepared to_numeric_text lawtonka_layout lawtonka _ Hu1)
    as (df1 & Hdf1 & Hlen1).
  destruct (add_total_flow_prepared to_numeric_text ellsworth_layout ellsworth _ Hu2)
    as (df2 & Hdf2 & Hlen2).
  rewrite (result_bind _ _ df1 Hdf1).
  rewrite (result_bind _ _ df2 Hdf2).
  split.
  - intros Hnil. rewrite Hnil in Hlen1.
    destruct df1; [reflexivity|discriminate].
  - intros Hne.
    destruct df1 as [|r1 df1].
    { destruct lawtonka; [contradiction|discriminate]. }
    eexists; eexists. split; [reflexivity|].
    unfold flows_to_dss, write_to_dss, set_index_date, map_col; cbn [pathname numberValues times values].
    rewrite !length_map. rewrite Hlen1, Hlen2. repeat split; reflexivity.
Qed.

Lemma log_frame_ascii_texts : ascii_texts stamp_str sheet_layout log_frame.
Proof.
  unfold ascii_texts, log_frame.
  repeat constructor; try reflexivity;
    solve [left; reflexivity | right; reflexivity].
Qed.

Lemma one_row_table_usable (name : string) : usable (mkCurve name one_row_table).
Proof. exists (mkRow (Some 0.5) 0.62), 0.5. split; [left|]; reflexivity. Qed.

Lemma run_script_stops_only_at_first_date_witness :
  iDate sheet_layout <> iTime sheet_layout /\
  ascii_texts stamp_str sheet_layout log_frame /\
  usable (mkCurve "Lawtonka" one_row_table) /\
  usable (mkCurve "Ellsworth" one_row_table) /\
  observation_rows stamp_str clock_parse_time stamp_to_datetime sheet_layout log_frame <> [] /\
  exists tsc1 tsc2,
    result (run_script stamp_str (fun _ => None) clock_parse_time
              stamp_to_datetime stamp_to_datetime stamp_to_datetime stamp_to_datetime
              (fun s => Returned s) (fun _ => false) sheet_layout sheet_layout
              log_frame log_frame one_row_table one_row_table)
    = Returned (tsc1, tsc2) /\
    numberValues tsc1 = 2%nat /\ numberValues tsc2 = 2%nat.
Proof.
  assert (H1 : iDate sheet_layout <> iTime sheet_layout) by (simpl; lia).
  assert (H2 : observation_rows stamp_str clock_parse_time stamp_to_datetime
                 sheet_layout log_frame <> []).
  { intros E. apply (f_equal (map label)) in E. discriminate E. }
  split; [exact H1|]. split; [exact log_frame_ascii_texts|].
  split; [apply one_row_table_usable|]. split; [apply one_row_table_usable|].
  split; [exact H2|].
  destruct (proj2 (run_script_stops_only_at_first_date stamp_str (fun _ => None)
                     clock_parse_time
                     stamp_to_datetime stamp_to_datetime stamp_to_datetime stamp_to_datetime
                     (fun s => Returned s)
                     (fun _ => false) sheet_layout sheet_layout log_frame log_frame
                     one_row_table one_row_table H1 H1
                     log_frame_ascii_texts log_frame_ascii_texts
                     (one_row_table_usable "Lawtonka") (one_row_table_usable "Ellsworth")) H2)
    as (tsc1 & tsc2 & Hrun & (_ & Hn1 & _) & (_ & Hn2 & _)).
  exists tsc1, tsc2. split; [exact Hrun|]. split; [exact Hn1|exact Hn2].
Defined.

(** X11: when the Lake Elevation is the third column or a later one, the
    flow formula reads it divided by 12 (lines 157-167 reach it); for any
    lake elevation up to 14000 ft that is below both spillway inverts, so
    the total flow of the row is 0 whatever its gates are. *)
Theorem lake_elevation_in_converted_columns_gives_zero
    (to_numeric_text : string -> option R) (L : Layout) (r : Row)
    (rating_curve : RatingCurve) (e : R) :
  usable rating_curve ->
  (2 <= iLake L)%nat ->
  nth_error (cells r) (iLake L) = Some (Num e) ->
  e <= 14000 ->
  let row := set (convert_from_2 to_numeric_text r) (iLake L)
               (to_numeric to_numeric_text
                  (get (convert_from_2 to_numeric_text r) (iLake L))) in
  get row (iLake L) = Num (round2 (e / 12.0)) /\
  result (calculate_total_flow L row rating_curve) = Returned (Some 0).
Proof.
  intros Hu HL He Hmax row.
  pose proof (lake_elevation_converted to_numeric_text L r e HL He) as Hconv.
  assert (Hlake : get row (iLake L) = Num (round2 (e / 12.0))).
  { unfold row. rewrite Hconv. simpl to_numeric.
    apply get_set_same.
    assert (Hp : isna (get (convert_from_2 to_numeric_text r) (iLake L)) = false)
      by (rewrite Hconv; reflexivity).
    exact (get_present_in_range _ _ Hp). }
  split; [exact Hlake|].
  destruct (prepared_row to_numeric_text L r) as [_ Hnum]. fold row in Hnum.
  destruct (total_flow_of_numeric_row L row rating_curve _ Hu Hlake Hnum)
    as (q & Hq & _ & Hz).
  rewrite Hq. rewrite Hz; [reflexivity|].
  unfold head1. pose proof (datum_at_least rating_curve).
  pose proof (round2_bounds (e / 12.0)). lra.
Qed.

Lemma lake_elevation_in_converted_columns_gives_zero_witness :
  usable lawtonka_curve /\ (2 <= iLake sheet_layout)%nat /\
  nth_error (cells scenario_row) (iLake sheet_layout) = Some (Num 1337.00) /\
  1337.00 <= 14000 /\
  result (calculate_total_flow sheet_layout
            (set (convert_from_2 (fun _ => None) scenario_row) (iLake sheet_layout)
               (to_numeric (fun _ => None)
                  (get (convert_from_2 (fun _ => None) scenario_row) (iLake sheet_layout))))
            lawtonka_curve)
  = Returned (Some 0).
Proof.
  assert (H1 : (2 <= iLake sheet_layout)%nat) by (simpl; lia).
  assert (H2 : nth_error (cells scenario_row) (iLake sheet_layout) = Some (Num 1337.00))
    by reflexivity.
  assert (H3 : 1337.00 <= 14000) by lra.
  split; [exact lawtonka_curve_usable|]. split; [exact H1|]. split; [exact H2|].
  split; [exact H3|].
  exact (proj2 (lake_elevation_in_converted_columns_gives_zero (fun _ => None) sheet_layout
                  scenario_row lawtonka_curve 1337.00 lawtonka_curve_usable H1 H2 H3)).
Defined.

(** ** The time normalizer, on every text *)

Lemma digit_facts (c : ascii) :
  is_digit c = true ->
  is_space c = false /\ upper_char c = c /\ Ascii.eqb c colon = false /\
  Ascii.eqb c "A" = false /\ Ascii.eqb c "P" = false /\ (nat_of_ascii c - 48 <= 9)%nat.
Proof.
  destruct c as [[] [] [] [] [] [] [] []]; vm_compute; intros H;
    try discriminate H; repeat split; repeat constructor.
Qed.

Lemma upper_char_facts (c : ascii) :
  is_space (upper_char c) = is_space c /\ upper_char (upper_char c) = upper_char c.
Proof.
  destruct c as [[] [] [] [] [] [] [] []]; vm_compute; split; reflexivity.
Qed.

Lemma text_app (l1 l2 : list ascii) : text (l1 ++ l2) = append (text l1) (text l2).
Proof.
  unfold text. induction l1 as [|c l1 IH]; simpl; [reflexivity|].
  rewrite IH; reflexivity.
Qed.

Lemma chars_text (l : list ascii) : list_ascii_of_string (text l) = l.
Proof. apply list_ascii_of_string_of_list_ascii. Qed.

Lemma lstrip_idem (l : list ascii) : lstrip (lstrip l) = lstrip l.
Proof.
  induction l as [|c l IH]; simpl; [reflexivity|].
  destruct (is_space c) eqn:Hc; [exact IH|]. simpl. rewrite Hc. reflexivity.
Qed.

Lemma lstrip_snoc (l : list ascii) (c : ascii) :
  is_space c = false -> lstrip (l ++ [c]) = lstrip l ++ [c].
Proof.
  intros Hc. induction l as [|a l IH]; simpl; [rewrite Hc; reflexivity|].
  destruct (is_space a); [exact IH|reflexivity].
Qed.

Lemma lstrip_head (l : list ascii) (c : ascii) (tl : list ascii) :
  lstrip l = c :: tl -> is_space c = false.
Proof.
  induction l as [|a l IH]; simpl; [discriminate|].
  destruct (is_space a) eqn:Ha; [exact IH|]. intros H; injection H as <- _. exact Ha.
Qed.

Lemma lstrip_strip (l : list ascii) : lstrip (strip l) = strip l.
Proof.
  unfold strip. destruct (lstrip l) as [|c a] eqn:Ha; [reflexivity|].
  pose proof (lstrip_head _ _ _ Ha) as Hc.
  simpl rev. rewrite (lstrip_snoc _ _ Hc), rev_app_distr. simpl. rewrite Hc. reflexivity.
Qed.

Lemma strip_idem (l : list ascii) : strip (strip l) = strip l.
Proof.
  unfold strip at 1. rewrite lstrip_strip.
  unfold strip. rewrite rev_involutive, lstrip_idem. reflexivity.
Qed.

Lemma lstrip_map_upper (l : list ascii) :
  lstrip (map upper_char l) = map upper_char (lstrip l).
Proof.
  induction l as [|c l IH]; simpl; [reflexivity|].
  rewrite (proj1 (upper_char_facts c)). destruct (is_space c); [exact IH|reflexivity].
Qed.

Lemma strip_map_upper (l : list ascii) :
  strip (map upper_char l) = map upper_char (strip l).
Proof.
  unfold strip. rewrite lstrip_map_upper, <- map_rev, lstrip_map_upper, <- map_rev.
  reflexivity.
Qed.

Lemma map_upper_idem (l : list ascii) :
  map upper_char (map upper_char l) = map upper_char l.
Proof.
  rewrite map_map. apply map_ext. intros c. apply upper_char_facts.
Qed.

(** What [normalize_text] works on: the text stripped and in upper case. *)
Lemma canon_idem (l : list ascii) :
  map upper_char (strip (map upper_char (strip l))) = map upper_char (strip l).
Proof. rewrite strip_map_upper, strip_idem, map_upper_idem. reflexivity. Qed.

Lemma normalize_text_canon (s : string) :
  normalize_text s
  = normalize_text (text (map upper_char (strip (list_ascii_of_string s)))).
Proof.
  unfold normalize_text at 2. rewrite chars_text, canon_idem. reflexivity.
Qed.

(** A text that no branch of the normalizer rewrites. *)
Lemma normalize_text_fixed (l : list ascii) :
  strip l = l -> map upper_char l = l ->
  ampm_match l = None -> hmm_match l = None ->
  (isdigit l = false \/ (List.length l <> 3 /\ List.length l <> 4 /\ List.length l <> 5)%nat) ->
  normalize_text (text l) = text l.
Proof.
  intros Hs Hu Ha Hh Hd. unfold normalize_text.
  rewrite chars_text, Hs, Hu, Ha, Hh.
  destruct (isdigit l); [|reflexivity].
  destruct Hd as [Hd|(H3 & H4 & H5)]; [discriminate|].
  destruct (List.length l) as [|[|[|[|[|[|n]]]]]]; try reflexivity; lia.
Qed.

Lemma lstrip_cons (c : ascii) (l : list ascii) :
  is_space c = false -> lstrip (c :: l) = c :: l.
Proof. intros H; simpl; rewrite H; reflexivity. Qed.

Lemma map_upper_digits (l : list ascii) :
  forallb (fun c => is_digit c || Ascii.eqb c colon) l = true ->
  map upper_char l = l.
Proof.
  induction l as [|c l IH]; simpl; [reflexivity|].
  intros H. apply andb_true_iff in H. destruct H as [Hc Hl].
  rewrite (IH Hl). f_equal.
  apply orb_true_iff in Hc. destruct Hc as [Hc|Hc].
  - apply (digit_facts c Hc).
  - apply Ascii.eqb_eq in Hc. subst c. reflexivity.
Qed.

Lemma strip_fixed (c : ascii) (l : list ascii) (z : ascii) :
  is_space c = false -> is_space z = false -> strip (c :: l ++ [z]) = c :: l ++ [z].
Proof.
  intros Hc Hz. unfold strip. rewrite (lstrip_cons _ _ Hc).
  replace (rev (c :: l ++ [z])) with (z :: rev (c :: l))
    by (change (c :: l ++ [z]) with ((c :: l) ++ [z]);
        rewrite rev_app_distr; reflexivity).
  rewrite (lstrip_cons _ _ Hz).
  change (z :: rev (c :: l)) with ([z] ++ rev (c :: l)).
  rewrite rev_app_distr, rev_involutive. reflexivity.
Qed.

(** A clock text: two or three digits, a colon, two digits, a colon, one or
    two digits.  The normalizer leaves it as it is. *)
Lemma clock_text_fixed (a b : ascii) (rest : list ascii) (m1 m2 : ascii) (tail : list ascii) :
  (List.length rest <= 1)%nat ->
  (List.length tail = 1 \/ List.length tail = 2)%nat ->
  forallb is_digit (a :: b :: rest ++ m1 :: m2 :: tail) = true ->
  normalize_text (text (a :: b :: rest ++ colon :: m1 :: m2 :: colon :: tail))
  = text (a :: b :: rest ++ colon :: m1 :: m2 :: colon :: tail).
Proof.
  intros Hrest Htail Hdig.
  assert (Hall : forallb (fun c => is_digit c || Ascii.eqb c colon)
                   (a :: b :: rest ++ colon :: m1 :: m2 :: colon :: tail) = true).
  { assert (Hd : forall c, In c (a :: b :: rest ++ m1 :: m2 :: tail) -> is_digit c = true)
      by (apply forallb_forall; exact Hdig).
    apply forallb_forall. intros c Hc.
    assert (Hcase : c = colon \/ In c (a :: b :: rest ++ m1 :: m2 :: tail)).
    { simpl in Hc |- *. rewrite in_app_iff in Hc |- *. simpl in Hc |- *.
      intuition auto. }
    destruct Hcase as [->|Hin]; [reflexivity|].
    rewrite (Hd c Hin); reflexivity. }
  assert (Ha : is_space a = false).
  { simpl in Hdig. apply andb_true_iff in Hdig. apply (digit_facts a (proj1 Hdig)). }
  assert (Hlast : exists body z, a :: b :: rest ++ colon :: m1 :: m2 :: colon :: tail
                                 = a :: body ++ [z] /\ is_space z = false).
  { assert (Ht : forallb is_digit tail = true).
    { replace (a :: b :: rest ++ m1 :: m2 :: tail)
        with ((a :: b :: rest ++ [m1; m2]) ++ tail) in Hdig
        by (simpl; rewrite <- app_assoc; reflexivity).
      rewrite forallb_app in Hdig. apply andb_true_iff in Hdig. exact (proj2 Hdig). }
    destruct tail as [|t1 [|t2 [|t3 tail]]]; simpl in Htail; try lia.
    - exists (b :: rest ++ [colon; m1; m2; colon]), t1. split.
      + simpl. rewrite <- app_assoc. reflexivity.
      + simpl in Ht. apply andb_true_iff in Ht. apply (digit_facts t1 (proj1 Ht)).
    - exists (b :: rest ++ [colon; m1; m2; colon; t1]), t2. split.
      + simpl. rewrite <- app_assoc. reflexivity.
      + simpl in Ht. apply andb_true_iff in Ht. destruct Ht as [_ Ht].
        apply andb_true_iff in Ht. apply (digit_facts t2 (proj1 Ht)). }
  destruct Hlast as (body & z & Heq & Hz).
  apply normalize_text_fixed.
  - rewrite Heq. apply strip_fixed; assumption.
  - apply map_upper_digits; exact Hall.
  - destruct rest as [|c [|c' rest]]; simpl in Hrest; try lia;
      destruct tail as [|t1 [|t2 [|t3 tail]]]; simpl in Htail; try lia; reflexivity.
  - destruct rest as [|c [|c' rest]]; simpl in Hrest; try lia;
      destruct tail as [|t1 [|t2 [|t3 tail]]]; simpl in Htail; try lia; reflexivity.
  - right.
    destruct rest as [|c [|c' rest]]; simpl in Hrest; try lia;
      destruct tail as [|t1 [|t2 [|t3 tail]]]; simpl in Htail; try lia; simpl; lia.
Qed.

Lemma ampm_match_some (l h m : list ascii) (ap : ascii) :
  ampm_match l = Some (h, m, ap) ->
  l = h ++ colon :: m ++ [ap] /\
  (List.length h = 1 \/ List.length h = 2)%nat /\ forallb is_digit h = true /\
  (exists m1 m2, m = [m1; m2] /\ is_digit m1 = true /\ is_digit m2 = true) /\
  (ap = "A"%char \/ ap = "P"%char).
Proof.
  assert (Hap : forall c, Ascii.eqb c "A" || Ascii.eqb c "P" = true ->
                          c = "A"%char \/ c = "P"%char).
  { intros c H. apply orb_true_iff in H. destruct H as [H|H]; apply Ascii.eqb_eq in H; auto. }
  unfold ampm_match.
  destruct l as [|a [|b [|c [|e [|f [|g [|i l]]]]]]]; try discriminate.
  - destruct (_ && _) eqn:Hok; [|discriminate]. intros H; injection H as <- <- <-.
    apply andb_true_iff in Hok. destruct Hok as [Hok HE].
    apply andb_true_iff in Hok. destruct Hok as [Hok HD].
    apply andb_true_iff in Hok. destruct Hok as [Hok HC].
    apply andb_true_iff in Hok. destruct Hok as [HA HB].
    apply Ascii.eqb_eq in HB. subst b.
    split; [reflexivity|]. split; [left; reflexivity|]. split; [exact HA|].
    split; [exists c, e; auto|]. apply Hap; exact HE.
  - destruct (_ && _) eqn:Hok; [|discriminate]. intros H; injection H as <- <- <-.
    apply andb_true_iff in Hok. destruct Hok as [Hok HE].
    apply andb_true_iff in Hok. destruct Hok as [Hok HD].
    apply andb_true_iff in Hok. destruct Hok as [Hok HC].
    apply andb_true_iff in Hok. destruct Hok as [HA HB].
    apply Ascii.eqb_eq in HB. subst c.
    split; [reflexivity|]. split; [right; reflexivity|]. split; [exact HA|].
    split; [exists e, f; auto|]. apply Hap; exact HE.
Qed.

Lemma hmm_match_some (l h m : list ascii) :
  hmm_match l = Some (h, m) ->
  l = h ++ colon :: m /\
  (List.length h = 1 \/ List.length h = 2)%nat /\ forallb is_digit h = true /\
  (exists m1 m2, m = [m1; m2] /\ is_digit m1 = true /\ is_digit m2 = true).
Proof.
  unfold hmm_match.
  destruct l as [|a [|b [|c [|e [|f [|g l]]]]]]; try discriminate.
  - destruct (_ && _) eqn:Hok; [|discriminate]. intros H; injection H as <- <-.
    apply andb_true_iff in Hok. destruct Hok as [Hok HD].
    apply andb_true_iff in Hok. destruct Hok as [Hok HC].
    apply andb_true_iff in Hok. destruct Hok as [HA HB].
    apply Ascii.eqb_eq in HB. subst b.
    split; [reflexivity|]. split; [left; reflexivity|]. split; [exact HA|].
    exists c, e; auto.
  - destruct (_ && _) eqn:Hok; [|discriminate]. intros H; injection H as <- <-.
    apply andb_true_iff in Hok. destruct Hok as [Hok HD].
    apply andb_true_iff in Hok. destruct Hok as [Hok HC].
    apply andb_true_iff in Hok. destruct Hok as [HA HB].
    apply Ascii.eqb_eq in HB. subst c.
    split; [reflexivity|]. split; [right; reflexivity|]. split; [exact HA|].
    exists e, f; auto.
Qed.

Lemma int_of_digits_bound (h : list ascii) :
  (List.length h = 1 \/ List.length h = 2)%nat -> forallb is_digit h = true ->
  (int_of_digits h < 100)%nat.
Proof.
  intros Hlen Hdig. unfold int_of_digits.
  destruct h as [|a [|b [|c h]]]; simpl in Hlen; try lia; simpl in *.
  - apply andb_true_iff in Hdig. destruct Hdig as [Ha _].
    pose proof (digit_facts a Ha) as (_ & _ & _ & _ & _ & Hv). lia.
  - apply andb_true_iff in Hdig. destruct Hdig as [Ha Hb].
    apply andb_true_iff in Hb. destruct Hb as [Hb _].
    pose proof (digit_facts a Ha) as (_ & _ & _ & _ & _ & Hva).
    pose proof (digit_facts b Hb) as (_ & _ & _ & _ & _ & Hvb). lia.
Qed.

(** The format [{n:02}] gives two digits, or three from 100 on. *)
Lemma pad2_shape (n : nat) :
  (n < 112)%nat ->
  exists a b rest,
    list_ascii_of_string (pad2 n) = a :: b :: rest /\
    (List.length rest <= 1)%nat /\ forallb is_digit (a :: b :: rest) = true.
Proof.
  intros Hn.
  assert (Hall : forallb (fun n =>
                   match list_ascii_of_string (pad2 n) with
                   | a :: b :: rest =>
                       (List.length rest <=? 1)%nat && forallb is_digit (a :: b :: rest)
                   | _ => false
                   end) (seq 0 112) = true) by (vm_compute; reflexivity).
  rewrite forallb_forall in Hall.
  specialize (Hall n ltac:(apply in_seq; lia)).
  destruct (list_ascii_of_string (pad2 n)) as [|a [|b rest]]; try discriminate.
  apply andb_true_iff in Hall. destruct Hall as [Hlen Hdig].
  exists a, b, rest. split; [reflexivity|]. split; [apply Nat.leb_le; exact Hlen|exact Hdig].
Qed.

(** A reformatted time, [HH:MM:00], is a clock text. *)
Lemma reformatted_fixed (n : nat) (m1 m2 : ascii) :
  (n < 112)%nat -> is_digit m1 = true -> is_digit m2 = true ->
  let out := append (pad2 n) (append ":" (append (text [m1; m2]) ":00")) in
  normalize_text out = out.
Proof.
  intros Hn H1 H2 out.
  destruct (pad2_shape n Hn) as (a & b & rest & Hp & Hlen & Hdig).
  assert (Hout : out = text (a :: b :: rest ++ colon :: m1 :: m2 :: colon :: ["0"; "0"]%char)).
  { unfold out.
    change (a :: b :: rest ++ colon :: m1 :: m2 :: colon :: ["0"; "0"]%char)
      with ((a :: b :: rest) ++ [colon] ++ [m1; m2] ++ [colon; "0"; "0"]%char).
    rewrite !text_app. rewrite <- Hp. unfold text at 1.
    rewrite string_of_list_ascii_of_string. reflexivity. }
  rewrite Hout. apply clock_text_fixed; auto.
  change (a :: b :: rest ++ [m1; m2; "0"; "0"]%char)
    with ((a :: b :: rest) ++ [m1; m2; "0"; "0"]%char).
  rewrite forallb_app, Hdig. simpl. rewrite H1, H2. reflexivity.
Qed.

Lemma normalize_text_twice (l : list ascii) :
  strip l = l -> map upper_char l = l ->
  normalize_text (normalize_text (text l)) = normalize_text (text l).
Proof.
  intros Hs Hu.
  destruct (ampm_match l) as [[[h m] ap]|] eqn:Ha.
  - destruct (ampm_match_some _ _ _ _ Ha)
      as (_ & Hlen & Hdig & (m1 & m2 & -> & Hm1 & Hm2) & _).
    pose proof (int_of_digits_bound h Hlen Hdig) as Hb.
    assert (Ho : normalize_text (text l)
                 = append (pad2 (if Ascii.eqb ap "P" && negb (int_of_digits h =? 12)%nat
                                 then (int_of_digits h + 12)%nat
                                 else if Ascii.eqb ap "A" && (int_of_digits h =? 12)%nat
                                      then 0%nat else int_of_digits h))
                     (append ":" (append (text [m1; m2]) ":00"))).
    { unfold normalize_text. rewrite chars_text, Hs, Hu, Ha. reflexivity. }
    rewrite Ho. apply reformatted_fixed; auto.
    destruct (_ && _); [lia|]. destruct (_ && _); lia.
  - destruct (hmm_match l) as [[h m]|] eqn:Hh.
    + destruct (hmm_match_some _ _ _ Hh) as (_ & Hlen & Hdig & (m1 & m2 & -> & Hm1 & Hm2)).
      pose proof (int_of_digits_bound h Hlen Hdig) as Hb.
      assert (Ho : normalize_text (text l)
                   = append (pad2 (int_of_digits h))
                       (append ":" (append (text [m1; m2]) ":00"))).
      { unfold normalize_text. rewrite chars_text, Hs, Hu, Ha, Hh. reflexivity. }
      rewrite Ho. apply reformatted_fixed; auto. lia.
    + destruct (isdigit l) eqn:Hd.
      * destruct l as [|a [|b [|c [|e [|f [|g l]]]]]];
          try (rewrite !normalize_text_fixed; auto; right; simpl; lia).
        -- simpl in Hd.
           apply andb_true_iff in Hd. destruct Hd as [Hda Hd].
           apply andb_true_iff in Hd. destruct Hd as [Hdb Hd].
           apply andb_true_iff in Hd. destruct Hd as [Hdc _].
           assert (Ho : normalize_text (text [a; b; c])
                        = append (pad2 (int_of_digits [a]))
                            (append ":" (append (text [b; c]) ":00"))).
           { unfold normalize_text. rewrite chars_text, Hs, Hu, Ha, Hh.
             simpl isdigit. rewrite Hda, Hdb, Hdc. reflexivity. }
           rewrite Ho. apply reformatted_fixed; auto.
           assert (int_of_digits [a] < 100)%nat; [|lia].
           apply int_of_digits_bound; [left; reflexivity|simpl; rewrite Hda; reflexivity].
        -- simpl in Hd.
           apply andb_true_iff in Hd. destruct Hd as [Hda Hd].
           apply andb_true_iff in Hd. destruct Hd as [Hdb Hd].
           apply andb_true_iff in Hd. destruct Hd as [Hdc Hd].
           apply andb_true_iff in Hd. destruct Hd as [Hde _].
           assert (Ho : normalize_text (text [a; b; c; e])
                        = text (a :: b :: [] ++ colon :: c :: e :: colon :: ["0"; "0"]%char)).
           { unfold normalize_text. rewrite chars_text, Hs, Hu, Ha, Hh.
             simpl isdigit. rewrite Hda, Hdb, Hdc, Hde. reflexivity. }
           rewrite Ho. apply clock_text_fixed; simpl; auto.
           rewrite Hda, Hdb, Hdc, Hde. reflexivity.
        -- simpl in Hd.
           apply andb_true_iff in Hd. destruct Hd as [Hda Hd].
           apply andb_true_iff in Hd. destruct Hd as [Hdb Hd].
           apply andb_true_iff in Hd. destruct Hd as [Hdc Hd].
           apply andb_true_iff in Hd. destruct Hd as [Hde Hd].
           apply andb_true_iff in Hd. destruct Hd as [Hdf _].
           assert (Ho : normalize_text (text [a; b; c; e; f])
                        = text (a :: b :: [] ++ colon :: c :: e :: colon :: [f])).
           { unfold normalize_text. rewrite chars_text, Hs, Hu, Ha, Hh.
             simpl isdigit. rewrite Hda, Hdb, Hdc, Hde, Hdf. reflexivity. }
           rewrite Ho. apply clock_text_fixed; simpl; auto.
           rewrite Hda, Hdb, Hdc, Hde, Hdf. reflexivity.
      * rewrite !normalize_text_fixed; auto.
Qed.

(** X12: normalizing a time twice gives what normalizing it once gives:
    every text the normalizer produces is a text it leaves alone, for every
    input, recognised or not; and the result depends on the input only up
    to surrounding white space and the case of its letters. *)
Theorem normalize_time_string_idempotent (py_str : cell -> string) :
  (forall s, normalize_text (normalize_text s) = normalize_text s) /\
  (forall c, normalize_time_string py_str (normalize_time_string py_str c)
             = normalize_time_string py_str c) /\
  (forall s, normalize_text s
             = normalize_text (text (map upper_char (strip (list_ascii_of_string s))))).
Proof.
  assert (Hidem : forall s, normalize_text (normalize_text s) = normalize_text s).
  { intros s. rewrite (normalize_text_canon s). apply normalize_text_twice.
    - rewrite strip_map_upper, strip_idem. reflexivity.
    - apply map_upper_idem. }
  split; [exact Hidem|]. split; [|exact normalize_text_canon].
  intros c. unfold normalize_time_string.
  destruct (isna c) eqn:Hc; [rewrite Hc; reflexivity|].
  simpl. rewrite Hidem. reflexivity.
Qed.

Lemma normalize_text_ampm (l h m : list ascii) (ap : ascii) :
  strip l = l -> map upper_char l = l -> ampm_match l = Some (h, m, ap) ->
  normalize_text (text l)
  = append (pad2 (if Ascii.eqb ap "P" && negb (int_of_digits h =? 12)%nat
                  then (int_of_digits h + 12)%nat
                  else if Ascii.eqb ap "A" && (int_of_digits h =? 12)%nat
                       then 0%nat else int_of_digits h))
      (append ":" (append (text m) ":00")).
Proof.
  intros Hs Hu Ha. unfold normalize_text. rewrite chars_text, Hs, Hu, Ha. reflexivity.
Qed.

Lemma map_upper_digit_list (h : list ascii) :
  forallb is_digit h = true -> map upper_char h = h.
Proof.
  intros H. apply map_upper_digits. rewrite forallb_forall in *.
  intros c Hc. rewrite (H c Hc). reflexivity.
Qed.

(** A well-formed twelve-hour text, with the letter in either case. *)
Lemma ampm_text (h : list ascii) (m1 m2 ap AP : ascii) :
  (List.length h = 1 \/ List.length h = 2)%nat -> forallb is_digit h = true ->
  is_digit m1 = true -> is_digit m2 = true ->
  is_space ap = false -> upper_char ap = AP -> upper_char AP = AP ->
  is_space AP = false -> Ascii.eqb AP "A" || Ascii.eqb AP "P" = true ->
  normalize_text (text (h ++ [colon; m1; m2; ap]))
  = append (pad2 (if Ascii.eqb AP "P" && negb (int_of_digits h =? 12)%nat
                  then (int_of_digits h + 12)%nat
                  else if Ascii.eqb AP "A" && (int_of_digits h =? 12)%nat
                       then 0%nat else int_of_digits h))
      (append ":" (append (text [m1; m2]) ":00")).
Proof.
  intros Hlen Hdig Hm1 Hm2 Hsp Hup HupAP HspAP HAP.
  pose proof (digit_facts m1 Hm1) as (_ & Hu1 & _).
  pose proof (digit_facts m2 Hm2) as (_ & Hu2 & _).
  assert (Hh1 : exists h1 h', h = h1 :: h' /\ is_space h1 = false).
  { destruct h as [|h1 h']; [simpl in Hlen; lia|]. exists h1, h'. split; [reflexivity|].
    simpl in Hdig. apply andb_true_iff in Hdig. apply (digit_facts h1 (proj1 Hdig)). }
  destruct Hh1 as (h1 & h' & Hh & Hsp1).
  assert (Hstrip : forall z, is_space z = false ->
                             strip (h ++ [colon; m1; m2; z]) = h ++ [colon; m1; m2; z]).
  { intros z Hz. rewrite Hh.
    replace ((h1 :: h') ++ [colon; m1; m2; z]) with (h1 :: (h' ++ [colon; m1; m2]) ++ [z])
      by (simpl; rewrite <- app_assoc; reflexivity).
    apply strip_fixed; assumption. }
  assert (Hcanon : map upper_char (strip (h ++ [colon; m1; m2; ap]))
                   = h ++ [colon; m1; m2; AP]).
  { rewrite (Hstrip ap Hsp), map_app, (map_upper_digit_list h Hdig).
    cbn [map]. rewrite Hu1, Hu2, Hup. reflexivity. }
  assert (Hmatch : ampm_match (h ++ [colon; m1; m2; AP]) = Some (h, [m1; m2], AP)).
  { unfold ampm_match.
    destruct h as [|a [|b [|c h]]]; simpl in Hlen; try lia; cbn [app].
    - rewrite Hdig. change (Ascii.eqb colon colon) with true. rewrite Hm1, Hm2, HAP.
      reflexivity.
    - rewrite Hdig. change (Ascii.eqb colon colon) with true. rewrite Hm1, Hm2, HAP.
      reflexivity. }
  rewrite normalize_text_canon, chars_text, Hcanon.
  apply normalize_text_ampm; [apply Hstrip; exact HspAP| |exact Hmatch].
  rewrite map_app, (map_upper_digit_list h Hdig). cbn [map].
  rewrite Hu1, Hu2, HupAP. reflexivity.
Qed.

(** X13: a time written [H:MM] or [HH:MM] with a letter A or P, in either
    case, comes out as [HH:MM:00] with the hour padded to two digits: with
    P the hour plus 12, but 12 stays 12; with A the hour itself, but 12
    becomes 0.  For the hours 1 to 12 that is the hour modulo 12, plus 12
    with P, always below 24.  The hour is not checked: with P an hour above
    12 comes out above 24. *)
Theorem am_pm_to_24_hours (h : list ascii) (m1 m2 : ascii) :
  (List.length h = 1 \/ List.length h = 2)%nat -> forallb is_digit h = true ->
  is_digit m1 = true -> is_digit m2 = true ->
  let H := int_of_digits h in
  let shown n := append (pad2 n) (append ":" (append (text [m1; m2]) ":00")) in
  normalize_text (text (h ++ [colon; m1; m2; "P"%char]))
  = shown (if (H =? 12)%nat then 12%nat else (H + 12)%nat) /\
  normalize_text (text (h ++ [colon; m1; m2; "p"%char]))
  = shown (if (H =? 12)%nat then 12%nat else (H + 12)%nat) /\
  normalize_text (text (h ++ [colon; m1; m2; "A"%char]))
  = shown (if (H =? 12)%nat then 0%nat else H) /\
  normalize_text (text (h ++ [colon; m1; m2; "a"%char]))
  = shown (if (H =? 12)%nat then 0%nat else H) /\
  ((1 <= H <= 12)%nat ->
   (if (H =? 12)%nat then 12 else H + 12)%nat = (H mod 12 + 12)%nat /\
   (if (H =? 12)%nat then 0%nat else H) = (H mod 12)%nat /\
   (H mod 12 + 12 < 24)%nat) /\
  ((12 < H)%nat -> (24 < (if (H =? 12)%nat then 12 else H + 12))%nat).
Proof.
  intros Hlen Hdig Hm1 Hm2 H shown.
  assert (HP : forall ap, is_space ap = false -> upper_char ap = "P"%char ->
             normalize_text (text (h ++ [colon; m1; m2; ap]))
             = shown (if (H =? 12)%nat then 12%nat else (H + 12)%nat)).
  { intros ap Hsp Hup.
    rewrite (ampm_text h m1 m2 ap "P" Hlen Hdig Hm1 Hm2 Hsp Hup) by reflexivity.
    unfold shown, H.
    destruct (Nat.eqb_spec (int_of_digits h) 12) as [E|E]; [rewrite E|]; reflexivity. }
  assert (HA : forall ap, is_space ap = false -> upper_char ap = "A"%char ->
             normalize_text (text (h ++ [colon; m1; m2; ap]))
             = shown (if (H =? 12)%nat then 0%nat else H)).
  { intros ap Hsp Hup.
    rewrite (ampm_text h m1 m2 ap "A" Hlen Hdig Hm1 Hm2 Hsp Hup) by reflexivity.
    unfold shown, H.
    destruct (Nat.eqb_spec (int_of_digits h) 12) as [E|E]; reflexivity. }
  split; [apply HP; reflexivity|]. split; [apply HP; reflexivity|].
  split; [apply HA; reflexivity|]. split; [apply HA; reflexivity|].
  split.
  - intros Hr. destruct (Nat.eqb_spec H 12) as [E|E].
    + rewrite E. repeat split; try reflexivity. simpl; lia.
    + rewrite (Nat.mod_small H 12) by lia. repeat split; lia.
  - intros Hr. destruct (Nat.eqb_spec H 12) as [E|E]; lia.
Qed.

Lemma am_pm_to_24_hours_witness :
  (List.length ["1"%char] = 1 \/ List.length ["1"%char] = 2)%nat /\
  forallb is_digit ["1"%char] = true /\ is_digit "2" = true /\ is_digit "4" = true /\
  normalize_text (text (["1"%char] ++ [colon; "2"; "4"; "P"]%char))
  = append (pad2 (if (int_of_digits ["1"%char] =? 12)%nat then 12%nat
                  else (int_of_digits ["1"%char] + 12)%nat))
      (append ":" (append (text ["2"; "4"]%char) ":00")).
Proof.
  assert (H1 : (List.length ["1"%char] = 1 \/ List.length ["1"%char] = 2)%nat)
    by (left; reflexivity).
  assert (H2 : forallb is_digit ["1"%char] = true) by reflexivity.
  assert (H3 : is_digit "2" = true) by reflexivity.
  assert (H4 : is_digit "4" = true) by reflexivity.
  repeat (split; [assumption|]).
  exact (proj1 (am_pm_to_24_hours ["1"%char] "2" "4" H1 H2 H3 H4)).
Defined.

(** ** The date and time of an observation *)

Lemma ffill_date_widths (L : Layout) (n : nat) (df : DataFrame) :
  Forall (fun r => (n < List.length (cells r))%nat) df ->
  forall prev, Forall (fun r => (n < List.length (cells r))%nat) (ffill_date L prev df).
Proof.
  induction 1 as [|r df Hr _ IH]; intros prev; simpl; [constructor|].
  destruct (isna (get r (iDate L))); constructor; auto.
  unfold set; simpl. rewrite length_set_nth. exact Hr.
Qed.

(** X14: every observation row, as lines 62-148 leave it, comes from a row
    of the table as the forward fill of line 67 left it, and has its
    label.  Its Time cell is the time of day that the parser read in the
    normalized Time text of that row.  Its Date cell is a text: what line
    76 made of the forward-filled Date of that row, a timestamp or NaT,
    then a space, then that time of day (line 148).  Here [to_datetime] is
    whatever reading [pd.to_datetime] applies to the values of this one
    column. *)
Theorem observation_rows_date_and_time
    (py_str : cell -> string) (parser_parse_time : string -> option Z)
    (to_datetime : cell -> option Z) (L : Layout) (df : DataFrame) :
  iDate L <> iTime L ->
  Forall (fun r => (iDate L < List.length (cells r))%nat) df ->
  forall r', In r' (observation_rows py_str parser_parse_time to_datetime L df) ->
    exists (rf : Row) (t : Z),
      In rf (ffill_date L NA (drop_year_rows py_str L df)) /\
      label r' = label rf /\
      parser_parse_time (normalize_text (astype_str py_str (get rf (iTime L)))) = Some t /\
      get r' (iTime L) = Time t /\
      get r' (iDate L)
      = Str (append (py_str (to_datetime_cell to_datetime (get rf (iDate L))))
               (append " " (py_str (Time t)))).
Proof.
  intros Hdt Hwide r' Hin.
  rewrite observation_rows_unfold in Hin.
  unfold merge_date_time in Hin. apply in_map_iff in Hin.
  destruct Hin as (r3 & <- & Hin).
  unfold dropna_time_lake in Hin at 1. apply filter_In in Hin.
  destruct Hin as (Hin & Hp3). apply andb_true_iff in Hp3.
  destruct Hp3 as (Ht3 & _). apply negb_true_iff in Ht3.
  apply in_map_iff in Hin. destruct Hin as (rf & <- & Hin).
  unfold dropna_time_lake in Hin. apply filter_In in Hin.
  destruct Hin as (Hin & Hpf). apply andb_true_iff in Hpf.
  destruct Hpf as (Htf & _). apply negb_true_iff in Htf.
  assert (Hrf : (iDate L < List.length (cells rf))%nat).
  { assert (Hw : Forall (fun r => (iDate L < List.length (cells r))%nat)
                   (ffill_date L NA (drop_year_rows py_str L df))).
    { apply ffill_date_widths. unfold drop_year_rows.
      apply Forall_forall. intros r Hr. apply filter_In in Hr.
      rewrite Forall_forall in Hwide. apply Hwide. apply Hr. }
    rewrite Forall_forall in Hw. exact (Hw rf Hin). }
  set (c := cleaned py_str parser_parse_time to_datetime L rf) in *.
  assert (Hlen : List.length (cells c) = List.length (cells rf)).
  { unfold c, cleaned, set; simpl. rewrite !length_set_nth. reflexivity. }
  assert (Htime : exists t,
             parser_parse_time (normalize_text (astype_str py_str (get rf (iTime L))))
             = Some t /\ get c (iTime L) = Time t).
  { pose proof (get_present_in_range _ _ Htf) as Hr.
    assert (Hg : get c (iTime L)
                 = parse_time py_str parser_parse_time
                     (normalize_time_string py_str (get rf (iTime L)))).
    { unfold c, cleaned.
      rewrite get_set_same by (unfold set; simpl; rewrite !length_set_nth; exact Hr).
      rewrite get_set_same by (unfold set; simpl; rewrite !length_set_nth; exact Hr).
      rewrite get_set_other by exact Hdt. reflexivity. }
    rewrite Hg in Ht3 |- *. unfold parse_time, normalize_time_string in *.
    rewrite Htf in *. cbn [astype_str] in *.
    destruct (parser_parse_time _) as [t|]; [exists t; split; reflexivity|discriminate]. }
  destruct Htime as (t & Hparse & Ht).
  assert (Hdate : get c (iDate L) = to_datetime_cell to_datetime (get rf (iDate L))).
  { unfold c, cleaned.
    rewrite !get_set_other by (intros E; apply Hdt; congruence).
    apply get_set_same; exact Hrf. }
  exists rf, t.
  split; [exact Hin|]. split; [reflexivity|]. split; [exact Hparse|].
  split; [rewrite get_set_other by exact Hdt; exact Ht|].
  rewrite get_set_same by (rewrite Hlen; exact Hrf).
  rewrite Ht, Hdate. unfold to_datetime_cell.
  destruct (to_datetime _); reflexivity.
Qed.

Lemma observation_rows_date_and_time_witness :
  iDate sheet_layout <> iTime sheet_layout /\
  Forall (fun r => (iDate sheet_layout < List.length (cells r))%nat) log_frame /\
  forall r',
    In r' (observation_rows stamp_str clock_parse_time stamp_to_datetime
             sheet_layout log_frame) ->
    exists (rf : Row) (t : Z),
      In rf (ffill_date sheet_layout NA (drop_year_rows stamp_str sheet_layout log_frame)) /\
      label r' = label rf /\
      clock_parse_time (normalize_text (astype_str stamp_str (get rf (iTime sheet_layout))))
      = Some t /\
      get r' (iTime sheet_layout) = Time t /\
      get r' (iDate sheet_layout)
      = Str (append (stamp_str (to_datetime_cell stamp_to_datetime
                                  (get rf (iDate sheet_layout))))
               (append " " (stamp_str (Time t)))).
Proof.
  assert (H1 : iDate sheet_layout <> iTime sheet_layout) by (simpl; lia).
  assert (H2 : Forall (fun r => (iDate sheet_layout < List.length (cells r))%nat) log_frame).
  { repeat constructor; simpl; lia. }
  split; [exact H1|]. split; [exact H2|].
  exact (observation_rows_date_and_time stamp_str clock_parse_time stamp_to_datetime
           sheet_layout log_frame H1 H2).
Defined.

(** ** The spillway invert *)

Lemma prefix_app (p s : string) :
  String.prefix p s = true <-> exists b, s = append p b.
Proof.
  revert s; induction p as [|c p IH]; intros s.
  - split; [intros _; exists s; reflexivity|intros _; destruct s; reflexivity].
  - destruct s as [|c' s]; simpl.
    + split; [discriminate|intros [b H]; discriminate].
    + destruct (Ascii.ascii_dec c c') as [<-|Hne].
      * rewrite IH. split; intros [b H]; exists b; [rewrite H; reflexivity|].
        injection H as H; exact H.
      * split; [discriminate|]. intros [b H]. injection H as H _. congruence.
Qed.

Lemma contains_substring (p s : string) :
  contains p s = true <-> exists a b, s = append a (append p b).
Proof.
  induction s as [|c s IH].
  - change (contains p "") with (String.prefix p "" || false).
    rewrite orb_false_r, prefix_app. split.
    + intros [b H]. exists EmptyString, b. exact H.
    + intros (a & b & H). destruct a; [exists b; exact H|discriminate].
  - change (contains p (String c s)) with (String.prefix p (String c s) || contains p s).
    rewrite orb_true_iff, IH, prefix_app. split.
    + intros [[b H]|(a & b & H)].
      * exists EmptyString, b. exact H.
      * exists (String c a), b. simpl. rewrite H. reflexivity.
    + intros (a & b & H). destruct a as [|c' a]; simpl in H.
      * left; exists b; exact H.
      * right. injection H as _ H. exists a, b; exact H.
Qed.

(** X15: the spillway invert that [calculate_flow] subtracts is 1335.55
    exactly when the name of the rating curve contains the text
    ["Lawtonka"], letter for letter, and 1225.00 for every other name:
    Ellsworth is not named in the test, so a curve with any other name,
    or with no capital, is computed with the Ellsworth invert. *)
Theorem spillway_invert_by_name (rating_curve : RatingCurve) :
  (spillway_invert_elevation rating_curve = 1335.55 <->
   exists a b, name rating_curve = append a (append "Lawtonka" b)) /\
  (spillway_invert_elevation rating_curve = 1225.00 <->
   ~ exists a b, name rating_curve = append a (append "Lawtonka" b)) /\
  spillway_invert_elevation (mkCurve "Ellsworth" (table rating_curve)) = 1225.00 /\
  spillway_invert_elevation (mkCurve "lawtonka" (table rating_curve)) = 1225.00.
Proof.
  unfold spillway_invert_elevation.
  pose proof (contains_substring "Lawtonka" (name rating_curve)) as Hc.
  destruct (contains "Lawtonka" (name rating_curve)).
  - repeat split; try reflexivity.
    + intros _. apply Hc; reflexivity.
    + intros H; lra.
    + intros H. exfalso. apply H. apply Hc; reflexivity.
  - repeat split; try reflexivity.
    + intros H; lra.
    + intros H. apply Hc in H. discriminate.
    + intros _ H. apply Hc in H. discriminate.
Qed.
